(** * Minaret (Home Assistant integration [azan]): prayer schedule coordinator

    A shallow embedding of
      - [custom_components/azan/const.py]
      - [custom_components/azan/coordinator.py]
      - [custom_components/azan/sensor.py]
    and the properties of the normaliser, the refresh step and the
    sensors that read the schedule.

    Conventions.
      - Python [str] is [string] (8-bit characters; the ASCII part of
        [str.strip], [str.lower] and [int] is what is modelled).
      - A Python [dict] whose iteration order is observed ([raw], built by
        the adapters and walked by [sorted(raw.items())]) is an association
        list in insertion order with unique keys, written by [dict_set].
        Dictionaries that are only looked up are [gmap]s.
      - A raised exception is the [Raise] case of [result].
      - The network, the regular-expression library, the Hijri converter and
        the clock are inputs of the functions that call them. *)

From Stdlib Require Import ZArith Lia Ascii.
From stdpp Require Import base option list sorting strings gmap.

Open Scope Z_scope.

(** ** Exceptions and results *)

Inductive exception : Type :=
  | ValueError
  | KeyError
  | TypeError
  | ClientError
      (* aiohttp: connection failure, or [resp.raise_for_status()] *)
  | UpdateFailed_no_times
      (* UpdateFailed("Qatar MOI returned no prayer times") *)
  | UpdateFailed_fetch (err : exception).
      (* UpdateFailed(f"Failed to fetch prayer times: {err}") from err *)

Definition is_UpdateFailed (e : exception) : bool :=
  match e with
  | UpdateFailed_no_times | UpdateFailed_fetch _ => true
  | _ => false
  end.

Inductive result (A : Type) : Type :=
  | Ok (a : A)
  | Raise (e : exception).
Arguments Ok {A} a.
Arguments Raise {A} e.

(** Sequencing: the first exception raised ends the computation. *)
#[global] Instance result_bind : MBind result := λ A B k r,
  match r with
  | Ok a => k a
  | Raise e => Raise e
  end.

#[global] Instance result_ret : MRet result := λ A a, Ok a.

(** ** Python string primitives *)

Module PyStr.

(** [str.isspace] on one ASCII character: TAB..CR, FS..US and SPACE. *)
Definition isspace (c : ascii) : bool :=
  let n := nat_of_ascii c in
  ((9 <=? n) && (n <=? 13) || (28 <=? n) && (n <=? 31) || (n =? 32))%nat.

Fixpoint lstrip (s : string) : string :=
  match s with
  | EmptyString => EmptyString
  | String c r => if isspace c then lstrip r else s
  end.

Fixpoint rstrip (s : string) : string :=
  match s with
  | EmptyString => EmptyString
  | String c r =>
      match rstrip r with
      | EmptyString => if isspace c then EmptyString else String c EmptyString
      | r' => String c r'
      end
  end.

(** [s.strip()] *)
Definition strip (s : string) : string := rstrip (lstrip s).

(** [s.split(sep)] for a one-character separator. *)
Fixpoint split (sep : ascii) (s : string) : list string :=
  match s with
  | EmptyString => [EmptyString]
  | String c r =>
      if Ascii.eqb c sep then EmptyString :: split sep r
      else match split sep r with
           | h :: t => String c h :: t
           | [] => [String c EmptyString]
           end
  end.

(** [s.split(sep)[0]]; the list is never empty, so the index is in range. *)
Definition split_first (sep : ascii) (s : string) : string :=
  match split sep s with
  | h :: _ => h
  | [] => EmptyString
  end.

(** [s.lower()] *)
Definition lower_char (c : ascii) : ascii :=
  let n := nat_of_ascii c in
  if ((65 <=? n) && (n <=? 90))%nat then ascii_of_nat (n + 32) else c.

Fixpoint lower (s : string) : string :=
  match s with
  | EmptyString => EmptyString
  | String c r => String (lower_char c) (lower r)
  end.

Definition is_digit (c : ascii) : bool :=
  let n := nat_of_ascii c in ((48 <=? n) && (n <=? 57))%nat.

Definition digit_value (c : ascii) : Z := Z.of_nat (nat_of_ascii c) - 48.

(** The digit part of an [int] literal: digits, with single underscores
    allowed between two digits. Returns the value and the number of
    digits read. *)
Fixpoint int_digits (prev_digit : bool) (acc : Z) (n : nat) (s : string)
  : option (Z * nat) :=
  match s with
  | EmptyString => if prev_digit then Some (acc, n) else None
  | String c r =>
      if is_digit c then int_digits true (acc * 10 + digit_value c) (S n) r
      else if Ascii.eqb c "_" then
        (if prev_digit then int_digits false acc n r else None)
      else None
  end.

(** [sys.get_int_max_str_digits()], CPython's default. *)
Definition int_max_str_digits : nat := 4300.

(** [int(s)] in base 10: [None] stands for [ValueError]. *)
Definition int (s : string) : option Z :=
  let t := strip s in
  let '(neg, body) :=
    match t with
    | String "-" r => (true, r)
    | String "+" r => (false, r)
    | _ => (false, t)
    end in
  match int_digits false 0 0%nat body with
  | Some (v, n) =>
      if (int_max_str_digits <? n)%nat then None
      else Some (if neg then - v else v)
  | None => None
  end.

(** [f"{n:02d}"] *)
Fixpoint digits_of (fuel : nat) (n : Z) (acc : string) : string :=
  match fuel with
  | O => acc
  | S fuel' =>
      let acc' := String (ascii_of_nat (Z.to_nat (48 + n mod 10))) acc in
      if n <? 10 then acc' else digits_of fuel' (n / 10) acc'
  end.

Definition str_of_nonneg (n : Z) : string :=
  digits_of (S (Z.to_nat (Z.log2 n))) n EmptyString.

Definition format_02d (n : Z) : string :=
  if n <? 0 then String "-" (str_of_nonneg (- n))
  else if n <? 10 then String "0" (str_of_nonneg n)
  else str_of_nonneg n.

End PyStr.

(** ** const.py *)

Definition CONF_PRAYER_SOURCE : string := "prayer_source".
Definition SOURCE_QATAR_MOI : string := "qatar_moi".
Definition SOURCE_ALADHAN : string := "aladhan".

Definition PRAYER_ORDER : list string :=
  ["Fajr"; "Sunrise"; "Dhuhr"; "Asr"; "Maghrib"; "Isha"].

Definition NAME_MAP : gmap string string :=
  {[ "fajer" := "Fajr"; "fajr" := "Fajr"; "sunrise" := "Sunrise";
     "dhuhr" := "Dhuhr"; "zuhr" := "Dhuhr"; "asr" := "Asr";
     "maghrib" := "Maghrib"; "isha" := "Isha" ]}%string.

Definition DEFAULT_SUHOOR_OFFSET : Z := 60.

(** The configuration dictionary, with the value types the config flow's
    schema gives its keys; [None] is an absent key, read through
    [config.get(key, default)]. *)
Record config : Type := mk_config {
  cfg_prayer_source : option string;
  cfg_prayer_fajr : option bool;
  cfg_prayer_sunrise : option bool;
  cfg_prayer_dhuhr : option bool;
  cfg_prayer_asr : option bool;
  cfg_prayer_maghrib : option bool;
  cfg_prayer_isha : option bool;
  cfg_suhoor_enabled : option bool;
  cfg_suhoor_offset_minutes : option Z;
  cfg_suhoor_ramadan_only : option bool
}.

(** ** Python sequences and dictionaries *)

(** [x in l] for a list of strings. *)
Definition str_in (x : string) (l : list string) : bool :=
  existsb (String.eqb x) l.

(** [l.index(x)]; used under [x in l] only, where it cannot raise. *)
Fixpoint list_index (x : string) (l : list string) : nat :=
  match l with
  | [] => 0
  | y :: r => if String.eqb x y then 0%nat else S (list_index x r)
  end.

(** [sorted(l, key=key)]: Python's sort is stable, and a stable sort is
    determined by the input and the key; this is the insertion sort. *)
Fixpoint insert_by {A} (key : A → nat) (x : A) (l : list A) : list A :=
  match l with
  | [] => [x]
  | y :: r => if (key x <=? key y)%nat then x :: y :: r
              else y :: insert_by key x r
  end.

Definition sorted {A} (l : list A) (key : A → nat) : list A :=
  foldr (insert_by key) [] l.

(** [l.insert(i, x)] for [i >= 0]. *)
Definition list_insert_at {A} (i : nat) (x : A) (l : list A) : list A :=
  take i l ++ x :: drop i l.

(** A [dict[str, str]] in insertion order. [d[k] = v] replaces the value of
    a key that is present, in place, and appends a new key at the end. *)
Definition pydict : Type := list (string * string).

Fixpoint dict_set (k v : string) (d : pydict) : pydict :=
  match d with
  | [] => [(k, v)]
  | (k', v') :: r =>
      if String.eqb k k' then (k, v) :: r else (k', v') :: dict_set k v r
  end.

(** The keys of a dictionary are pairwise distinct. *)
Definition dict_wf (d : pydict) : Prop := NoDup d.*1.

(** ** datetime *)

(** A [tzinfo] object: its identity (the key of a [ZoneInfo]) and its UTC
    offset in microseconds at a given wall-clock reading. *)
Record tzinfo : Type := mk_tzinfo {
  tz_key : string;
  tz_utcoffset : Z → Z
}.

(** A [datetime]: the date as its proleptic Gregorian ordinal, the time
    fields, and [tzinfo] ([None] for a naive value). The bounds of
    [datetime.min] and [datetime.max] are not modelled. *)
Record datetime : Type := mk_datetime {
  dt_date : Z;
  dt_hour : Z;
  dt_minute : Z;
  dt_second : Z;
  dt_microsecond : Z;
  dt_tzinfo : option tzinfo
}.

(** Microseconds of the wall-clock fields since midnight of ordinal 0. *)
Definition dt_wall (d : datetime) : Z :=
  (((dt_date d * 24 + dt_hour d) * 60 + dt_minute d) * 60 + dt_second d)
  * 1000000 + dt_microsecond d.

Definition dt_of_wall (us : Z) (tz : option tzinfo) : datetime :=
  {| dt_date := us / 86400000000;
     dt_hour := (us / 3600000000) mod 24;
     dt_minute := (us / 60000000) mod 60;
     dt_second := (us / 1000000) mod 60;
     dt_microsecond := us mod 1000000;
     dt_tzinfo := tz |}.

(** [d.replace(hour=h, minute=m, second=0, microsecond=0)] *)
Definition dt_replace_hm (d : datetime) (h m : Z) : result datetime :=
  if (0 <=? h) && (h <=? 23) then
    if (0 <=? m) && (m <=? 59) then
      Ok {| dt_date := dt_date d; dt_hour := h; dt_minute := m;
            dt_second := 0; dt_microsecond := 0; dt_tzinfo := dt_tzinfo d |}
    else Raise ValueError
  else Raise ValueError.

(** [d - timedelta(minutes=m)], on the unbounded line of dates. *)
Definition dt_sub_minutes (d : datetime) (m : Z) : datetime :=
  dt_of_wall (dt_wall d - m * 60000000) (dt_tzinfo d).

(** [datetime.now()]: the local wall clock, naive. The reading of the
    clock is an input, in microseconds. *)
Definition datetime_now (clock : Z) : datetime := dt_of_wall clock None.

(** An aware [datetime], as [dt_util.now()] returns it. *)
Record aware : Type := mk_aware {
  aw_wall : Z;
  aw_tz : tzinfo
}.

(** Two [tzinfo] references are the same object. *)
Definition same_tz (a b : tzinfo) : bool := String.eqb (tz_key a) (tz_key b).

(** [a - b] for two aware values, in microseconds: with a common [tzinfo]
    the wall-clock fields are subtracted, otherwise the UTC instants. *)
Definition aware_sub (a b : aware) : Z :=
  if same_tz (aw_tz a) (aw_tz b) then aw_wall a - aw_wall b
  else (aw_wall a - tz_utcoffset (aw_tz a) (aw_wall a))
       - (aw_wall b - tz_utcoffset (aw_tz b) (aw_wall b)).

(** [a > b] for two aware values. *)
Definition aware_gt (a b : aware) : bool :=
  if same_tz (aw_tz a) (aw_tz b) then aw_wall b <? aw_wall a
  else (aw_wall b - tz_utcoffset (aw_tz b) (aw_wall b))
       <? (aw_wall a - tz_utcoffset (aw_tz a) (aw_wall a)).

(** ** coordinator.py: the normaliser *)

(** One element of [prayers]: the dictionary with the keys ["name"],
    ["time"], ["time_str"] and ["enabled"]. *)
Record prayer : Type := mk_prayer {
  p_name : string;
  p_time : datetime;
  p_time_str : string;
  p_enabled : bool
}.

Module Coordinator.

(** [enabled_map], from the prayer toggle keys and their defaults. *)
Definition enabled_map (config : config) : gmap string bool :=
  {[ "Fajr" := default true (cfg_prayer_fajr config);
     "Sunrise" := default false (cfg_prayer_sunrise config);
     "Dhuhr" := default true (cfg_prayer_dhuhr config);
     "Asr" := default true (cfg_prayer_asr config);
     "Maghrib" := default true (cfg_prayer_maghrib config);
     "Isha" := default true (cfg_prayer_isha config) ]}%string.

(** The sort key: [PRAYER_ORDER.index(x[0]) if x[0] in PRAYER_ORDER else 99]. *)
Definition order_key (x : string * string) : nat :=
  if str_in x.1 PRAYER_ORDER then list_index x.1 PRAYER_ORDER else 99%nat.

(** [time_str.strip().split(" ")[0].split("(")[0].strip()] *)
Definition time_clean (time_str : string) : string :=
  PyStr.strip (PyStr.split_first "(" (PyStr.split_first " " (PyStr.strip time_str))).

Definition int (s : string) : result Z :=
  match PyStr.int s with
  | Some z => Ok z
  | None => Raise ValueError
  end.

(** The hour after the 12-hour adjustment:
    [if name in ("Asr", "Maghrib", "Isha") and hour < 10: hour += 12]. *)
Definition adjust_hour (name : string) (hour : Z) : Z :=
  if str_in name ["Asr"; "Maghrib"; "Isha"]%string && (hour <? 10)
  then hour + 12 else hour.

(** The state of the loop: [prayers] and [fajr_time]. *)
Definition loop_state : Type := list prayer * option datetime.

(** One iteration of [for name, time_str in entries]. The two [continue]
    statements return the state as it is. *)
Definition loop_body (config : config) (now : datetime)
    (st : loop_state) (entry : string * string) : result loop_state :=
  let '(prayers, fajr_time) := st in
  let '(name, time_str) := entry in
  if negb (str_in name PRAYER_ORDER) then Ok st
  else
    let parts := PyStr.split ":" (time_clean time_str) in
    match parts with
    | part0 :: part1 :: _ =>
        hour ← int part0;
        minute ← int part1;
        let hour := adjust_hour name hour in
        prayer_time ← dt_replace_hm now hour minute;
        let fajr_time :=
          if String.eqb name "Fajr" then Some prayer_time else fajr_time in
        Ok (prayers ++ [ {| p_name := name;
                            p_time := prayer_time;
                            p_time_str := PyStr.format_02d hour +:+ ":"
                                          +:+ PyStr.format_02d minute;
                            p_enabled := default false (enabled_map config !! name) |} ],
            fajr_time)
    | _ => Ok st   (* len(parts) < 2 *)
    end.

Fixpoint loop (config : config) (now : datetime)
    (entries : list (string * string)) (st : loop_state) : result loop_state :=
  match entries with
  | [] => Ok st
  | entry :: rest =>
      st' ← loop_body config now st entry;
      loop config now rest st'
  end.

(** [next((i for i, p in enumerate(prayers) if p["name"] == "Fajr"), 0)] *)
Fixpoint fajr_index (prayers : list prayer) : option nat :=
  match prayers with
  | [] => None
  | p :: r => if String.eqb (p_name p) "Fajr" then Some 0%nat
              else S <$> fajr_index r
  end.

(** The Suhoor injection that ends [_normalize_times]. *)
Definition inject_suhoor (config : config) (is_ramadan : bool)
    (st : loop_state) : list prayer :=
  let '(prayers, fajr_time) := st in
  let suhoor_enabled := default false (cfg_suhoor_enabled config) in
  match suhoor_enabled, fajr_time with
  | true, Some fajr_time =>
      let ramadan_only := default true (cfg_suhoor_ramadan_only config) in
      if negb ramadan_only || is_ramadan then
        let offset :=
          default DEFAULT_SUHOOR_OFFSET (cfg_suhoor_offset_minutes config) in
        let suhoor_time := dt_sub_minutes fajr_time offset in
        let suhoor_entry :=
          {| p_name := "Suhoor";
             p_time := suhoor_time;
             p_time_str := PyStr.format_02d (dt_hour suhoor_time) +:+ ":"
                           +:+ PyStr.format_02d (dt_minute suhoor_time);
             p_enabled := true |} in
        let fajr_idx := default 0%nat (fajr_index prayers) in
        list_insert_at fajr_idx suhoor_entry prayers
      else prayers
  | _, _ => prayers
  end.

(** [AzanCoordinator._normalize_times(raw, is_ramadan)]; [clock] is what
    [datetime.now()] reads. *)
Definition _normalize_times (config : config) (clock : Z)
    (raw : pydict) (is_ramadan : bool) : result (list prayer) :=
  let now := datetime_now clock in
  let entries := sorted raw order_key in
  st ← loop config now entries ([], None);
  Ok (inject_suhoor config is_ramadan st).

End Coordinator.

(** ** coordinator.py: the snapshot and the refresh step *)

(** [PrayerData] *)
Record PrayerData : Type := mk_PrayerData {
  prayers : list prayer;
  date : string;
  played_today : gset string;
  hijri_month : option Z;
  hijri_day : option Z;
  hijri_month_name : option string;
  is_ramadan : bool
}.

(** [(hijri_month == 9) if hijri_month else False] *)
Definition ramadan_of (hijri_month : option Z) : bool :=
  match hijri_month with
  | Some m => if m =? 0 then false else m =? 9
  | None => false
  end.

(** [PrayerData.__init__] *)
Definition PrayerData_init (prayers : list prayer) (date : string)
    (hijri_month hijri_day : option Z) (hijri_month_name : option string)
  : PrayerData :=
  {| prayers := prayers;
     date := date;
     played_today := ∅;
     hijri_month := hijri_month;
     hijri_day := hijri_day;
     hijri_month_name := hijri_month_name;
     is_ramadan := ramadan_of hijri_month |}.

Definition set_played_today (s : gset string) (d : PrayerData) : PrayerData :=
  {| prayers := prayers d; date := date d; played_today := s;
     hijri_month := hijri_month d; hijri_day := hijri_day d;
     hijri_month_name := hijri_month_name d; is_ramadan := is_ramadan d |}.

(** What the portal answered: the exception of the HTTP exchange
    (connection failure, or [raise_for_status] on a status that is not a
    success), or the groups that the two [re.findall] calls captured in the
    page, [<th>] contents and [<td>] contents. *)
Definition qatar_response : Type := result (list string * list string).

(** The Hijri fields of the AlAdhan body, each [None] where reading it
    raises one of the exceptions the adapter catches ([KeyError],
    [ValueError], [TypeError]). *)
Record aladhan_hijri : Type := mk_aladhan_hijri {
  ah_month_number : option Z;     (* int(hijri_data["month"]["number"]) *)
  ah_day : option Z;              (* int(hijri_data["day"]) *)
  ah_month_en : option string     (* hijri_data["month"]["en"] *)
}.

(** The JSON body of the AlAdhan answer: [data["data"]["timings"]], an
    object of strings, or the [KeyError] or [TypeError] that the two
    subscripts raise; and [data["data"]["date"]["hijri"]], [None] where
    reading it raises. *)
Record aladhan_body : Type := mk_aladhan_body {
  ab_timings : result (gmap string string);
  ab_hijri : option aladhan_hijri
}.

Definition aladhan_response : Type := result aladhan_body.

(** [hijri_info], a dictionary with the keys ["month"], ["day"] and
    ["month_name"], each present or not. *)
Record hijri_info : Type := mk_hijri_info {
  hi_month : option Z;
  hi_day : option Z;
  hi_month_name : option string
}.

(** What one refresh reads from outside the coordinator. *)
Record env : Type := mk_env {
  env_qatar : qatar_response;
  (* Gregorian.today().to_hijri(): None where the import or the conversion
     raises; the month name is None where month_name() raises *)
  env_hijri_converter : option (Z * Z * option string);
  env_aladhan : aladhan_response;
  env_today : string;      (* datetime.now().strftime("%Y-%m-%d") *)
  env_clock : Z            (* datetime.now() in _normalize_times *)
}.

(** The fields of [AzanCoordinator] that the refresh reads or writes;
    [data] is the snapshot the base class stores. *)
Record coordinator : Type := mk_coordinator {
  co_config : config;
  co_data : option PrayerData;
  co_last_date : option string
}.

Module Fetch.

(** [re.sub(r"<[^>]+>", "", s)]: a tag is [<], at least one character
    other than [>], and the first [>] that follows. *)
Fixpoint has_gt (s : string) : bool :=
  match s with
  | EmptyString => false
  | String c r => Ascii.eqb c ">" || has_gt r
  end.

Fixpoint strip_tags_from (in_tag : bool) (s : string) : string :=
  match s with
  | EmptyString => EmptyString
  | String c r =>
      if in_tag then strip_tags_from (negb (Ascii.eqb c ">")) r
      else if Ascii.eqb c "<" then
        match r with
        | String c2 r2 =>
            if negb (Ascii.eqb c2 ">") && has_gt r2
            then strip_tags_from true r
            else String c (strip_tags_from false r)
        | EmptyString => String c EmptyString
        end
      else String c (strip_tags_from false r)
  end.

Definition strip_tags (s : string) : string := strip_tags_from false s.

(** [for i, header in enumerate(headers): if i < len(cells): ...] *)
Fixpoint pair_loop (i : nat) (headers cells : list string) (times : pydict)
  : pydict :=
  match headers with
  | [] => times
  | header :: rest =>
      let times :=
        match cells !! i with
        | Some cell =>
            let key := default header (NAME_MAP !! PyStr.lower header) in
            dict_set key cell times
        | None => times
        end in
      pair_loop (S i) rest cells times
  end.

(** [AzanCoordinator._fetch_qatar_moi] *)
Definition _fetch_qatar_moi (resp : qatar_response) : result pydict :=
  '(th, td) ← resp;
  let headers :=
    filter (λ h, h ≠ EmptyString)
           ((λ m, PyStr.strip (strip_tags m)) <$> th) in
  let cells := PyStr.strip <$> td in
  let times := pair_loop 0 headers cells [] in
  match times with
  | [] => Raise UpdateFailed_no_times
  | _ => Ok times
  end.

(** [timings[key]] *)
Definition subscript (timings : gmap string string) (key : string)
  : result string :=
  match timings !! key with
  | Some v => Ok v
  | None => Raise KeyError
  end.

(** The [try] block that fills [hijri_info]: an assignment that raises
    leaves the keys written before it. *)
Definition parse_hijri (h : option aladhan_hijri) : hijri_info :=
  match h with
  | None => mk_hijri_info None None None
  | Some h =>
      match ah_month_number h with
      | None => mk_hijri_info None None None
      | Some m =>
          match ah_day h with
          | None => mk_hijri_info (Some m) None None
          | Some d => mk_hijri_info (Some m) (Some d) (ah_month_en h)
          end
      end
  end.

(** [AzanCoordinator._fetch_aladhan] *)
Definition _fetch_aladhan (resp : aladhan_response)
  : result (pydict * hijri_info) :=
  body ← resp;
  timings ← ab_timings body;
  let hijri_info := parse_hijri (ab_hijri body) in
  fajr ← subscript timings "Fajr";
  sunrise ← subscript timings "Sunrise";
  dhuhr ← subscript timings "Dhuhr";
  asr ← subscript timings "Asr";
  maghrib ← subscript timings "Maghrib";
  isha ← subscript timings "Isha";
  Ok ([("Fajr", fajr); ("Sunrise", sunrise); ("Dhuhr", dhuhr);
       ("Asr", asr); ("Maghrib", maghrib); ("Isha", isha)]%string,
      hijri_info).

(** The [try] block of [_async_update_data]: the raw times and the three
    Hijri variables, or the exception that reached [except Exception]. *)
Definition fetch (config : config) (e : env)
  : result (pydict * (option Z * option Z * option string)) :=
  let source := default SOURCE_QATAR_MOI (cfg_prayer_source config) in
  if String.eqb source SOURCE_QATAR_MOI then
    raw ← _fetch_qatar_moi (env_qatar e);
    match env_hijri_converter e with
    | Some (m, d, name) => Ok (raw, (Some m, Some d, name))
    | None => Ok (raw, (None, None, None))
    end
  else
    '(raw, hijri_info) ← _fetch_aladhan (env_aladhan e);
    Ok (raw, (hi_month hijri_info, hi_day hijri_info,
              hi_month_name hijri_info)).

End Fetch.

(** [AzanCoordinator._async_update_data]: the value returned or the
    exception raised, and the coordinator afterwards. The function never
    assigns [self.data]. *)
Definition _async_update_data (self : coordinator) (e : env)
  : result PrayerData * coordinator :=
  match Fetch.fetch (co_config self) e with
  | Raise err => (Raise (UpdateFailed_fetch err), self)
  | Ok (raw, (hijri_month, hijri_day, hijri_month_name)) =>
      let today := env_today e in
      let is_ramadan := ramadan_of hijri_month in
      match Coordinator._normalize_times (co_config self) (env_clock e)
                                         raw is_ramadan with
      | Raise err => (Raise err, self)
      | Ok prayers =>
          let data := PrayerData_init prayers today hijri_month hijri_day
                                      hijri_month_name in
          let data :=
            match co_data self with
            | Some old =>
                if String.eqb (date old) today
                then set_played_today (played_today old) data
                else data
            | None => data
            end in
          (Ok data,
           {| co_config := co_config self;
              co_data := co_data self;
              co_last_date := Some today |})
      end
  end.

(** ** sensor.py *)

(** The values found in state attributes and in the [hass.data] store. *)
Inductive pyvalue : Type :=
  | PNone
  | PBool (b : bool)
  | PInt (z : Z)
  | PStr (s : string)
  | PIsoformat (d : datetime).   (* the string d.isoformat() *)

(** Truth value testing. *)
Definition truthy (v : pyvalue) : bool :=
  match v with
  | PNone => false
  | PBool b => b
  | PInt z => negb (z =? 0)
  | PStr s => negb (String.eqb s EmptyString)
  | PIsoformat _ => true
  end.

Definition DOMAIN : string := "azan".

Module Sensor.

(** The entry's time as an aware value:
    [if prayer_time.tzinfo is None:
         prayer_time = prayer_time.replace(tzinfo=now.tzinfo)]. *)
Definition localize (prayer_time : datetime) (now : aware) : aware :=
  match dt_tzinfo prayer_time with
  | None => {| aw_wall := dt_wall prayer_time; aw_tz := aw_tz now |}
  | Some tz => {| aw_wall := dt_wall prayer_time; aw_tz := tz |}
  end.

(** [int(diff.total_seconds() / 60)] and [int(diff.total_seconds())] for
    a difference of [us] microseconds. [int] truncates towards zero. The
    quotient is the exact one; binary64 rounding is not modelled. *)
Definition whole_minutes (us : Z) : Z := us ÷ 60000000.
Definition whole_seconds (us : Z) : Z := us ÷ 1000000.

(** [PrayerTimeSensor] *)
Module PrayerTimeSensor.

Fixpoint scan (prayer_name : string) (l : list prayer) : option prayer :=
  match l with
  | [] => None
  | prayer :: rest =>
      if String.eqb (p_name prayer) prayer_name then Some prayer
      else scan prayer_name rest
  end.

Definition _get_prayer (data : option PrayerData) (prayer_name : string)
  : option prayer :=
  match data with
  | None => None
  | Some d => scan prayer_name (prayers d)
  end.

Definition native_value (data : option PrayerData) (prayer_name : string)
  : option string :=
  match _get_prayer data prayer_name with
  | Some prayer => Some (p_time_str prayer)
  | None => None
  end.

Definition extra_state_attributes (data : option PrayerData)
    (prayer_name : string) : gmap string pyvalue :=
  match _get_prayer data prayer_name with
  | None => ∅
  | Some prayer =>
      let played :=
        match data with
        | Some d => bool_decide (prayer_name ∈ played_today d)
        | None => false
        end in
      {[ "enabled" := PBool (p_enabled prayer);
         "played" := PBool played;
         "datetime" := PIsoformat (p_time prayer);
         "prayer_name" := PStr prayer_name ]}%string
  end.

End PrayerTimeSensor.

(** [SuhoorTimeSensor] *)
Module SuhoorTimeSensor.

Definition _get_suhoor (data : option PrayerData) : option prayer :=
  match data with
  | None => None
  | Some d => PrayerTimeSensor.scan "Suhoor" (prayers d)
  end.

Definition native_value (data : option PrayerData) : option string :=
  match _get_suhoor data with
  | Some prayer => Some (p_time_str prayer)
  | None => None
  end.

Definition extra_state_attributes (data : option PrayerData)
  : gmap string pyvalue :=
  match _get_suhoor data with
  | None => ∅
  | Some prayer =>
      let played :=
        match data with
        | Some d => bool_decide ("Suhoor"%string ∈ played_today d)
        | None => false
        end in
      {[ "enabled" := PBool (p_enabled prayer);
         "played" := PBool played;
         "datetime" := PIsoformat (p_time prayer) ]}%string
  end.

End SuhoorTimeSensor.

(** [NextPrayerSensor] *)
Module NextPrayerSensor.

(** The [for] loop of [_get_next_prayer]. *)
Fixpoint scan (now : aware) (l : list prayer) : option prayer :=
  match l with
  | [] => None
  | prayer :: rest =>
      if negb (p_enabled prayer) then scan now rest
      else if aware_gt (localize (p_time prayer) now) now then Some prayer
      else scan now rest
  end.

(** [now] is what [dt_util.now()] returns. *)
Definition _get_next_prayer (data : option PrayerData) (now : aware)
  : option prayer :=
  match data with
  | None => None
  | Some d => scan now (prayers d)
  end.

Definition native_value (data : option PrayerData) (now : aware)
  : option string :=
  match _get_next_prayer data now with
  | Some prayer => Some (p_name prayer)
  | None => None
  end.

(** [now1] is read by [_get_next_prayer], [now2] by the property. *)
Definition extra_state_attributes (data : option PrayerData)
    (now1 now2 : aware) : gmap string pyvalue :=
  match _get_next_prayer data now1 with
  | None => ∅
  | Some prayer =>
      let diff := aware_sub (localize (p_time prayer) now2) now2 in
      let minutes_until := Z.max 0 (whole_minutes diff) in
      {[ "time" := PStr (p_time_str prayer);
         "countdown_minutes" := PInt minutes_until;
         "datetime" := PIsoformat (p_time prayer) ]}%string
  end.

End NextPrayerSensor.

(** [AzanCountdownSensor] *)
Module AzanCountdownSensor.

Fixpoint scan (now : aware) (l : list prayer) : option prayer :=
  match l with
  | [] => None
  | prayer :: rest =>
      if aware_gt (localize (p_time prayer) now) now then Some prayer
      else scan now rest
  end.

Definition _get_next_prayer (data : option PrayerData) (now : aware)
  : option prayer :=
  match data with
  | None => None
  | Some d => scan now (prayers d)
  end.

Definition native_value (data : option PrayerData) (now1 now2 : aware)
  : option Z :=
  match _get_next_prayer data now1 with
  | None => None
  | Some prayer =>
      let diff := aware_sub (localize (p_time prayer) now2) now2 in
      Some (Z.max 0 (whole_minutes diff))
  end.

Definition extra_state_attributes (data : option PrayerData)
    (now1 now2 : aware) : gmap string pyvalue :=
  match _get_next_prayer data now1 with
  | None =>
      {[ "prayer_name" := PNone; "time" := PNone; "hours" := PInt 0;
         "minutes" := PInt 0; "seconds" := PInt 0 ]}%string
  | Some prayer =>
      let diff := aware_sub (localize (p_time prayer) now2) now2 in
      let total_seconds := Z.max 0 (whole_seconds diff) in
      {[ "prayer_name" := PStr (p_name prayer);
         "time" := PStr (p_time_str prayer);
         "hours" := PInt (total_seconds / 3600);
         "minutes" := PInt ((total_seconds mod 3600) / 60);
         "seconds" := PInt (total_seconds mod 60);
         "datetime" := PIsoformat (p_time prayer) ]}%string
  end.

End AzanCountdownSensor.

(** [RamadanSensor] *)
Module RamadanSensor.

Definition native_value (data : option PrayerData) : string :=
  match data with
  | None => "Unknown"
  | Some d => if is_ramadan d then "Yes" else "No"
  end.

Definition set_if_present (key : string) (v : option pyvalue)
    (attrs : gmap string pyvalue) : gmap string pyvalue :=
  match v with
  | Some v => <[key := v]> attrs
  | None => attrs
  end.

Definition extra_state_attributes (data : option PrayerData)
  : gmap string pyvalue :=
  match data with
  | None => ∅
  | Some d =>
      let attrs := ∅ in
      let attrs := set_if_present "hijri_month" (PInt <$> hijri_month d) attrs in
      let attrs := set_if_present "hijri_day" (PInt <$> hijri_day d) attrs in
      let attrs :=
        set_if_present "hijri_month_name" (PStr <$> hijri_month_name d) attrs in
      <["is_ramadan" := PBool (is_ramadan d)]> attrs
  end.

End RamadanSensor.

(** [AzanStatusSensor] *)
Module AzanStatusSensor.

(** [hass.data.get(DOMAIN, {}).get(entry_id, {})] *)
Definition store_of (hass_data : gmap string (gmap string (gmap string pyvalue)))
    (entry_id : string) : gmap string pyvalue :=
  default ∅ (default ∅ (hass_data !! DOMAIN) !! entry_id).

(** [store.get(key)], tested for truth. *)
Definition store_flag (store : gmap string pyvalue) (key : string) : bool :=
  truthy (default PNone (store !! key)).

Definition status (store : gmap string pyvalue) : string :=
  if store_flag store "is_downloading" then "downloading"
  else if store_flag store "is_playing" then "playing"
  else "idle".

Definition native_value
    (hass_data : gmap string (gmap string (gmap string pyvalue)))
    (entry_id : string) : string :=
  status (store_of hass_data entry_id).

End AzanStatusSensor.

End Sensor.

(** ** Configuration entries, and the set-up of the platforms *)

(** A [ConfigEntry]: its id and its two dictionaries. *)
Record ConfigEntry : Type := mk_ConfigEntry {
  entry_id : string;
  ce_data : gmap string pyvalue;
  ce_options : gmap string pyvalue
}.

(** [{**entry.data, **entry.options}]: a key of the options hides the same
    key of the data. *)
Definition merged_config (entry : ConfigEntry) : gmap string pyvalue :=
  ce_options entry ∪ ce_data entry.

(** [AzanCoordinator.get_config_value(key, default)]. [config_entry] is
    [None] where the attribute is missing or is [None]; [config] is the
    dictionary given to the constructor. *)
Definition get_config_value (config_entry : option ConfigEntry)
    (config : gmap string pyvalue) (key : string) (dflt : pyvalue) : pyvalue :=
  match config_entry with
  | Some ce =>
      let options := ce_options ce in
      let data := ce_data ce in
      default (default dflt (data !! key)) (options !! key)
  | None => default dflt (config !! key)
  end.

Definition PRAYER_ICONS : gmap string string :=
  {[ "Fajr" := "mdi:weather-sunset-up"; "Sunrise" := "mdi:weather-sunny";
     "Dhuhr" := "mdi:mosque"; "Asr" := "mdi:weather-partly-cloudy";
     "Maghrib" := "mdi:weather-sunset-down"; "Isha" := "mdi:weather-night";
     "Suhoor" := "mdi:silverware-fork-knife" ]}%string.

Definition CONF_SUHOOR_ENABLED : string := "suhoor_enabled".

(** The classes of entities. *)
Inductive entity_class : Type :=
  | PrayerTimeSensor_ (prayer_name : string)
  | SuhoorTimeSensor_
  | NextPrayerSensor_
  | AzanCountdownSensor_
  | HijriDateSensor_
  | RamadanSensor_
  | AzanStatusSensor_
  | AzanTestPlayButton_
  | AzanRefreshButton_.

(** What the constructors set on an entity. *)
Record entity : Type := mk_entity {
  en_class : entity_class;
  en_unique_id : string;
  en_name : string;
  en_icon : string;
  en_translation_key : option string;
  en_unit : option string
}.

Module SensorSetup.

Definition new_PrayerTimeSensor (entry : ConfigEntry) (prayer_name : string)
  : entity :=
  {| en_class := PrayerTimeSensor_ prayer_name;
     en_unique_id := entry_id entry +:+ "_" +:+ PyStr.lower prayer_name;
     en_name := prayer_name;
     en_icon := default "mdi:mosque"%string (PRAYER_ICONS !! prayer_name);
     en_translation_key := Some (PyStr.lower prayer_name);
     en_unit := None |}.

Definition new_SuhoorTimeSensor (entry : ConfigEntry) : entity :=
  {| en_class := SuhoorTimeSensor_;
     en_unique_id := entry_id entry +:+ "_suhoor";
     en_name := "Suhoor";
     en_icon := default "mdi:silverware-fork-knife"%string
                        (PRAYER_ICONS !! "Suhoor"%string);
     en_translation_key := None;
     en_unit := None |}.

Definition new_NextPrayerSensor (entry : ConfigEntry) : entity :=
  {| en_class := NextPrayerSensor_;
     en_unique_id := entry_id entry +:+ "_next_prayer";
     en_name := "Next Prayer"; en_icon := "mdi:mosque";
     en_translation_key := None; en_unit := None |}.

Definition new_AzanCountdownSensor (entry : ConfigEntry) : entity :=
  {| en_class := AzanCountdownSensor_;
     en_unique_id := entry_id entry +:+ "_countdown";
     en_name := "Countdown"; en_icon := "mdi:timer-sand";
     en_translation_key := None; en_unit := Some "min"%string |}.

Definition new_HijriDateSensor (entry : ConfigEntry) : entity :=
  {| en_class := HijriDateSensor_;
     en_unique_id := entry_id entry +:+ "_hijri_date";
     en_name := "Hijri Date"; en_icon := "mdi:calendar-star";
     en_translation_key := None; en_unit := None |}.

Definition new_RamadanSensor (entry : ConfigEntry) : entity :=
  {| en_class := RamadanSensor_;
     en_unique_id := entry_id entry +:+ "_ramadan";
     en_name := "Ramadan"; en_icon := "mdi:moon-waning-crescent";
     en_translation_key := None; en_unit := None |}.

Definition new_AzanStatusSensor (entry : ConfigEntry) : entity :=
  {| en_class := AzanStatusSensor_;
     en_unique_id := entry_id entry +:+ "_status";
     en_name := "Status"; en_icon := "mdi:bell-ring";
     en_translation_key := None; en_unit := None |}.

(** [d[key]] on a dictionary that is only looked up. *)
Definition subscript {V} (d : gmap string V) (key : string) : result V :=
  match d !! key with
  | Some v => Ok v
  | None => Raise KeyError
  end.

(** [sensor.async_setup_entry]: the list given to [async_add_entities].
    The two subscripts of [hass.data] and the one of the store raise
    [KeyError] on a missing key. *)
Definition async_setup_entry
    (hass_data : gmap string (gmap string (gmap string pyvalue)))
    (entry : ConfigEntry) : result (list entity) :=
  domain_data ← subscript hass_data DOMAIN;
  store ← subscript domain_data (entry_id entry);
  coordinator ← subscript store "coordinator";
  let config := merged_config entry in
  let entities := new_PrayerTimeSensor entry <$> PRAYER_ORDER in
  let entities :=
    if truthy (default (PBool false) (config !! CONF_SUHOOR_ENABLED))
    then entities ++ [new_SuhoorTimeSensor entry] else entities in
  Ok (entities ++ [new_NextPrayerSensor entry; new_AzanCountdownSensor entry;
                   new_HijriDateSensor entry; new_RamadanSensor entry;
                   new_AzanStatusSensor entry]).

End SensorSetup.

Module ButtonSetup.

Definition new_AzanTestPlayButton (entry : ConfigEntry) : entity :=
  {| en_class := AzanTestPlayButton_;
     en_unique_id := entry_id entry +:+ "_test_play";
     en_name := "Test Play"; en_icon := "mdi:play-circle";
     en_translation_key := None; en_unit := None |}.

Definition new_AzanRefreshButton (entry : ConfigEntry) : entity :=
  {| en_class := AzanRefreshButton_;
     en_unique_id := entry_id entry +:+ "_refresh_times";
     en_name := "Refresh Times"; en_icon := "mdi:refresh";
     en_translation_key := None; en_unit := None |}.

(** [button.async_setup_entry] *)
Definition async_setup_entry (entry : ConfigEntry) : list entity :=
  [new_AzanTestPlayButton entry; new_AzanRefreshButton entry].

End ButtonSetup.

(** [NextPrayerSensor.icon] *)
Definition next_prayer_icon (data : option PrayerData) (now : aware) : string :=
  match Sensor.NextPrayerSensor._get_next_prayer data now with
  | Some prayer => default "mdi:mosque"%string (PRAYER_ICONS !! p_name prayer)
  | None => "mdi:mosque"
  end.

(** * Vocabulary of the properties *)

(** The entry's time is strictly after [now], by the comparison the
    sensors make. *)
Definition upcoming (now : aware) (p : prayer) : Prop :=
  aware_gt (Sensor.localize (p_time p) now) now = true.

(** [r] is the first element of [l] that satisfies [P], or none when no
    element does. *)
Definition first_such (P : prayer → Prop) (l : list prayer)
    (r : option prayer) : Prop :=
  match r with
  | Some p => ∃ pre post, l = pre ++ p :: post ∧ P p ∧ Forall (λ q, ¬ P q) pre
  | None => Forall (λ q, ¬ P q) l
  end.

(** The names an entry can have, in the order of the day. *)
Definition CANONICAL_NAMES : list string := "Suhoor"%string :: PRAYER_ORDER.

(** The times of the entries never decrease along the list. *)
Definition time_ascending (l : list prayer) : Prop :=
  StronglySorted (λ a b, dt_wall (p_time a) ≤ dt_wall (p_time b)) l.

(** The value of [fajr_time] after the entries [kept] were appended,
    starting from [ft]: the time of the last one named Fajr. *)
Definition last_fajr (kept : list prayer) (ft : option datetime)
  : option datetime :=
  foldl (λ acc p, if String.eqb (p_name p) "Fajr" then Some (p_time p) else acc)
        ft kept.

(** The entry that the loop appends for [name] once the two components
    are read as [hour] (already adjusted) and [minute]. *)
Definition entry_of (config : config) (now : datetime) (name : string)
    (hour minute : Z) : prayer :=
  {| p_name := name;
     p_time := {| dt_date := dt_date now; dt_hour := hour; dt_minute := minute;
                  dt_second := 0; dt_microsecond := 0;
                  dt_tzinfo := dt_tzinfo now |};
     p_time_str := PyStr.format_02d hour +:+ ":" +:+ PyStr.format_02d minute;
     p_enabled := default false (Coordinator.enabled_map config !! name) |}.

(** The configuration asks for a Suhoor entry: Suhoor is enabled, and it
    is not limited to Ramadan or it is Ramadan. *)
Definition suhoor_due (config : config) (is_ramadan : bool) : bool :=
  default false (cfg_suhoor_enabled config)
  && (negb (default true (cfg_suhoor_ramadan_only config)) || is_ramadan).

(** The configured offset of Suhoor, in minutes. *)
Definition suhoor_offset (config : config) : Z :=
  default DEFAULT_SUHOOR_OFFSET (cfg_suhoor_offset_minutes config).

(** The Suhoor entry that goes with a Fajr entry. *)
Definition suhoor_for (config : config) (fajr : prayer) : prayer :=
  let suhoor_time := dt_sub_minutes (p_time fajr) (suhoor_offset config) in
  {| p_name := "Suhoor";
     p_time := suhoor_time;
     p_time_str := PyStr.format_02d (dt_hour suhoor_time) +:+ ":"
                   +:+ PyStr.format_02d (dt_minute suhoor_time);
     p_enabled := true |}.

(** An entry of [raw] on which the loop raises: the name is one of
    [PRAYER_ORDER], the cleaned string has two parts or more, and one of
    the first two is not an integer or the two are not a time of day. *)
Definition malformed (name time_str : string) : Prop :=
  name ∈ PRAYER_ORDER
  ∧ ∃ part0 part1 rest,
      PyStr.split ":" (Coordinator.time_clean time_str) = part0 :: part1 :: rest
      ∧ match PyStr.int part0, PyStr.int part1 with
        | Some hour, Some minute =>
            ¬ (0 ≤ Coordinator.adjust_hour name hour ≤ 23 ∧ 0 ≤ minute ≤ 59)
        | _, _ => True
        end.

(** Inputs for the examples. *)
Module Samples.

(** No key is set: every default applies. *)
Definition config_default : config :=
  mk_config None None None None None None None None None None.

(** Suhoor enabled, 60 minutes, in Ramadan only. *)
Definition config_suhoor : config :=
  mk_config None None None None None None None (Some true) (Some 60) (Some true).

(** Some midnight, and noon of the same day, in microseconds. *)
Definition midnight : Z := 738000 * 86400000000.
Definition at_time (h m s : Z) : Z :=
  midnight + ((h * 60 + m) * 60 + s) * 1000000.

Definition tz_doha : tzinfo :=
  {| tz_key := "Asia/Qatar"; tz_utcoffset := λ _, 3 * 3600000000 |}.

Definition raw_day : pydict :=
  [("Fajr", "4:30"); ("Sunrise", "5:45"); ("Dhuhr", "11:40");
   ("Asr", "3:15"); ("Maghrib", "5:50"); ("Isha", "7:20")]%string.

Definition raw_late_isha : pydict :=
  [("Maghrib", "6:45"); ("Isha", "10:15")]%string.

Definition raw_after_midnight : pydict :=
  [("Maghrib", "22:40"); ("Isha", "00:21")]%string.

Definition raw_bad_minute : pydict :=
  [("Fajr", "4:30"); ("Dhuhr", "4:3a")]%string.

Definition entry (name : string) (h m : Z) (enabled : bool) : prayer :=
  {| p_name := name;
     p_time := {| dt_date := 738000; dt_hour := h; dt_minute := m;
                  dt_second := 0; dt_microsecond := 0; dt_tzinfo := None |};
     p_time_str := PyStr.format_02d h +:+ ":" +:+ PyStr.format_02d m;
     p_enabled := enabled |}.

Definition snapshot (l : list prayer) (date : string)
    (played : gset string) : PrayerData :=
  {| prayers := l; date := date; played_today := played;
     hijri_month := None; hijri_day := None; hijri_month_name := None;
     is_ramadan := false |}.

Definition env_portal (th td : list string) (today : string) : env :=
  {| env_qatar := Ok (th, td);
     env_hijri_converter := None;
     env_aladhan := Raise ClientError;
     env_today := today;
     env_clock := at_time 1 0 0 |}.

Definition env_portal_down (today : string) : env :=
  {| env_qatar := Raise ClientError;
     env_hijri_converter := None;
     env_aladhan := Raise ClientError;
     env_today := today;
     env_clock := at_time 1 0 0 |}.

Definition sample_entry : ConfigEntry :=
  {| entry_id := "01HQ";
     ce_data := {[ CONF_SUHOOR_ENABLED := PBool true ]};
     ce_options := {[ CONF_SUHOOR_ENABLED := PBool false ]} |}.

Definition sample_hass_data : gmap string (gmap string (gmap string pyvalue)) :=
  {[ DOMAIN := {[ "01HQ"%string := {[ "coordinator"%string := PNone ]} ]} ]}.

Definition sample_entities : list entity :=
  (SensorSetup.new_PrayerTimeSensor sample_entry <$> PRAYER_ORDER)
  ++ [SensorSetup.new_NextPrayerSensor sample_entry;
      SensorSetup.new_AzanCountdownSensor sample_entry;
      SensorSetup.new_HijriDateSensor sample_entry;
      SensorSetup.new_RamadanSensor sample_entry;
      SensorSetup.new_AzanStatusSensor sample_entry].

End Samples.

(** An entry of [raw] that the loop reads: its name is one of
    [PRAYER_ORDER] and its cleaned value has a colon. *)
Definition is_relevant (e : string * string) : bool :=
  str_in e.1 PRAYER_ORDER
  && (2 <=? length (PyStr.split ":" (Coordinator.time_clean e.2)))%nat.

(** The first two components of the cleaned value read as [hour] and
    [minute]. *)
Definition parses_to (time_str : string) (hour minute : Z) : Prop :=
  ∃ part0 part1 rest,
    PyStr.split ":" (Coordinator.time_clean time_str) = part0 :: part1 :: rest
    ∧ PyStr.int part0 = Some hour
    ∧ PyStr.int part1 = Some minute.

(** The Suhoor entry computed from the recorded Fajr time [t]. *)
Definition suhoor_at (config : config) (t : datetime) : prayer :=
  let suhoor_time := dt_sub_minutes t (suhoor_offset config) in
  {| p_name := "Suhoor";
     p_time := suhoor_time;
     p_time_str := PyStr.format_02d (dt_hour suhoor_time) +:+ ":"
                   +:+ PyStr.format_02d (dt_minute suhoor_time);
     p_enabled := true |}.

(** [p] is the entry that the loop builds from an item of [entries]: the
    item has the name of [p], one of [PRAYER_ORDER], and its value reads as
    an hour and a minute that, after the 12-hour adjustment, are a time of
    day. *)
Definition read_from (config : config) (now : datetime)
    (entries : list (string * string)) (p : prayer) : Prop :=
  ∃ time_str hour minute,
    (p_name p, time_str) ∈ entries
    ∧ p_name p ∈ PRAYER_ORDER
    ∧ parses_to time_str hour minute
    ∧ 0 ≤ Coordinator.adjust_hour (p_name p) hour ≤ 23 ∧ 0 ≤ minute ≤ 59
    ∧ p = entry_of config now (p_name p)
                   (Coordinator.adjust_hour (p_name p) hour) minute.

(** The key under which the portal adapter files a header:
    [NAME_MAP.get(header.lower(), header)]. *)
Definition canonical_key (header : string) : string :=
  default header (NAME_MAP !! PyStr.lower header).

(** The headers and the cells that the portal adapter pairs. *)
Definition portal_headers (th : list string) : list string :=
  filter (λ h, h ≠ EmptyString) ((λ m, PyStr.strip (Fetch.strip_tags m)) <$> th).

Definition portal_cells (td : list string) : list string := PyStr.strip <$> td.

(** Every character of [s] satisfies [P]. *)
Fixpoint all_chars (P : ascii → bool) (s : string) : bool :=
  match s with
  | EmptyString => true
  | String c r => P c && all_chars P r
  end.

(** A character of a bare time: not white space, not an opening
    parenthesis. *)
Definition plain_char (c : ascii) : bool :=
  negb (PyStr.isspace c) && negb (Ascii.eqb c "(").

(** * Properties *)

(** ** The status sensor *)

Section status.
Import Sensor.AzanStatusSensor.

Lemma store_flag_insert_eq store key v :
  store_flag (<[key := v]> store) key = truthy v.
Proof. unfold store_flag. by rewrite lookup_insert_eq. Qed.

Lemma store_flag_insert_ne store key key' v :
  key ≠ key' → store_flag (<[key := v]> store) key' = store_flag store key'.
Proof. intros Hne. unfold store_flag. by rewrite lookup_insert_ne. Qed.

(** C9. The status is a function of the two flags: "downloading" when
    [is_downloading] holds, whatever [is_playing] is; otherwise "playing"
    when [is_playing] holds; otherwise "idle". The flags are read from
    the entry's store in [hass.data]. *)
Theorem status_precedence
    (hass_data : gmap string (gmap string (gmap string pyvalue)))
    (entry_id : string) (store : gmap string pyvalue)
    (is_downloading is_playing : bool) :
  let store' := <["is_downloading" := PBool is_downloading]>
                  (<["is_playing" := PBool is_playing]> store) in
  let hass_data' :=
    <[DOMAIN := <[entry_id := store']> (default ∅ (hass_data !! DOMAIN))]>
      hass_data in
  native_value hass_data' entry_id =
    (if is_downloading then "downloading"
     else if is_playing then "playing" else "idle")%string.
Proof.
  intros store' hass_data'. unfold native_value, store_of, hass_data'.
  rewrite lookup_insert_eq. simpl. rewrite lookup_insert_eq. simpl.
  unfold status, store'. rewrite store_flag_insert_eq.
  rewrite store_flag_insert_ne by done. rewrite store_flag_insert_eq.
  by destruct is_downloading, is_playing.
Qed.

(** Absent flags, and an absent store, read as false. *)
Lemma status_absent entry_id : native_value ∅ entry_id = "idle"%string.
Proof. reflexivity. Qed.

End status.

(** ** Observers before the first snapshot *)

(** C10. While the coordinator holds no snapshot, every observer answers
    with its empty value: the per-prayer and Suhoor time sensors give no
    value and no attributes, the next-prayer and countdown queries give
    none, and the Ramadan sensor reads "Unknown". *)
Theorem observers_without_data (prayer_name : string) (now now' : aware) :
  Sensor.PrayerTimeSensor._get_prayer None prayer_name = None
  ∧ Sensor.PrayerTimeSensor.native_value None prayer_name = None
  ∧ Sensor.PrayerTimeSensor.extra_state_attributes None prayer_name = ∅
  ∧ Sensor.SuhoorTimeSensor.native_value None = None
  ∧ Sensor.SuhoorTimeSensor.extra_state_attributes None = ∅
  ∧ Sensor.NextPrayerSensor._get_next_prayer None now = None
  ∧ Sensor.NextPrayerSensor.native_value None now = None
  ∧ Sensor.NextPrayerSensor.extra_state_attributes None now now' = ∅
  ∧ Sensor.AzanCountdownSensor._get_next_prayer None now = None
  ∧ Sensor.AzanCountdownSensor.native_value None now now' = None
  ∧ Sensor.RamadanSensor.native_value None = "Unknown"%string
  ∧ Sensor.RamadanSensor.extra_state_attributes None = ∅.
Proof. repeat split. Qed.

(** ** The next-event queries *)

Section next_event.
Import Sensor.

Lemma same_tz_refl tz : same_tz tz tz = true.
Proof. apply String.eqb_refl. Qed.

Lemma localize_naive t now :
  dt_tzinfo t = None →
  localize t now = {| aw_wall := dt_wall t; aw_tz := aw_tz now |}.
Proof. unfold localize. by intros ->. Qed.

Lemma next_enabled_scan now l :
  first_such (λ p, p_enabled p = true ∧ upcoming now p) l
             (NextPrayerSensor.scan now l).
Proof.
  induction l as [|q l IH]; simpl; [constructor|].
  destruct (p_enabled q) eqn:Hen; simpl.
  - destruct (aware_gt (localize (p_time q) now) now) eqn:Hgt.
    + exists [], l. by repeat split.
    + destruct (NextPrayerSensor.scan now l) as [p|]; simpl in *.
      * destruct IH as (pre & post & -> & HP & Hpre).
        exists (q :: pre), post. repeat split; [apply HP..|].
        constructor; [|done]. unfold upcoming. intros [_ ?]. congruence.
      * constructor; [|done]. unfold upcoming. intros [_ ?]. congruence.
  - destruct (NextPrayerSensor.scan now l) as [p|]; simpl in *.
    + destruct IH as (pre & post & -> & HP & Hpre).
      exists (q :: pre), post. repeat split; [apply HP..|].
      constructor; [|done]. intros [? _]. congruence.
    + constructor; [|done]. intros [? _]. congruence.
Qed.

Lemma next_any_scan now l :
  first_such (upcoming now) l (AzanCountdownSensor.scan now l).
Proof.
  induction l as [|q l IH]; simpl; [constructor|].
  destruct (aware_gt (localize (p_time q) now) now) eqn:Hgt.
  - exists [], l. by repeat split.
  - destruct (AzanCountdownSensor.scan now l) as [p|]; simpl in *.
    + destruct IH as (pre & post & -> & HP & Hpre).
      exists (q :: pre), post. repeat split; [done|].
      constructor; [|done]. unfold upcoming. congruence.
    + constructor; [|done]. unfold upcoming. congruence.
Qed.

(** C6. For a snapshot [d] and an instant [now], the next-enabled query
    returns the first entry of [prayers d] that is enabled and whose time
    is strictly after [now], and none when there is no such entry; the
    next-any query returns the first entry whose time is strictly after
    [now], enabled or not. In both, a time without [tzinfo] takes the
    zone of [now], so that it is compared by its wall-clock reading. *)
Theorem next_prayer_queries (d : PrayerData) (now : aware) :
  first_such (λ p, p_enabled p = true ∧ upcoming now p) (prayers d)
             (NextPrayerSensor._get_next_prayer (Some d) now)
  ∧ first_such (upcoming now) (prayers d)
               (AzanCountdownSensor._get_next_prayer (Some d) now)
  ∧ ∀ p, dt_tzinfo (p_time p) = None →
         aw_tz (localize (p_time p) now) = aw_tz now
         ∧ (upcoming now p ↔ aw_wall now < dt_wall (p_time p)).
Proof.
  split; [apply next_enabled_scan|]. split; [apply next_any_scan|].
  intros p Hnaive. unfold upcoming. rewrite (localize_naive _ _ Hnaive).
  split; [done|]. unfold aware_gt. simpl. rewrite same_tz_refl.
  apply Z.ltb_lt.
Qed.

End next_event.

(** ** The countdown *)

Section countdown.
Import Sensor.

Lemma aware_gt_false_sub a b : aware_gt a b = false → aware_sub a b ≤ 0.
Proof.
  unfold aware_gt, aware_sub. destruct (same_tz _ _); intros H%Z.ltb_ge; lia.
Qed.

Lemma whole_minutes_clamp us : us ≤ 0 → Z.max 0 (whole_minutes us) = 0.
Proof.
  intros H. unfold whole_minutes.
  assert (us ÷ 60000000 ≤ 0) by (apply Z.quot_le_upper_bound; lia). lia.
Qed.

Lemma whole_seconds_clamp us : us ≤ 0 → Z.max 0 (whole_seconds us) = 0.
Proof.
  intros H. unfold whole_seconds.
  assert (us ÷ 1000000 ≤ 0) by (apply Z.quot_le_upper_bound; lia). lia.
Qed.

(** The breakdown of a non-negative number of seconds. *)
Lemma breakdown_bounds t :
  0 ≤ t →
  0 ≤ t / 3600 ∧ 0 ≤ (t mod 3600) / 60 < 60 ∧ 0 ≤ t mod 60 < 60
  ∧ t = (t / 3600) * 3600 + ((t mod 3600) / 60) * 60 + t mod 60.
Proof.
  intros Ht.
  assert ((t mod 3600) mod 60 = t mod 60) as H5.
  { apply Z.mod_mod_divide. exists 60. lia. }
  pose proof (Z.mod_pos_bound t 3600 ltac:(lia)) as H1.
  pose proof (Z.mod_pos_bound t 60 ltac:(lia)) as H2.
  pose proof (Z.div_mod t 3600 ltac:(lia)) as H3.
  pose proof (Z.div_mod (t mod 3600) 60 ltac:(lia)) as H4.
  rewrite H5 in H4.
  assert (0 ≤ t / 3600) by (apply Z.div_pos; lia).
  assert (0 ≤ t mod 3600 / 60) by (apply Z.div_pos; lia).
  assert (t mod 3600 / 60 < 60) by (apply Z.div_lt_upper_bound; lia).
  lia.
Qed.

(** C8. Whatever the snapshot and the two readings of the clock (the one
    that selects the entry and the one that measures the distance), the
    countdown in minutes is not negative, and neither are the hours,
    minutes and seconds of the breakdown; when the selected entry's time
    is not after the second reading, all of them are zero. *)
Theorem countdown_never_negative (data : option PrayerData)
    (now1 now2 : aware) :
  match AzanCountdownSensor.native_value data now1 now2 with
  | Some n => 0 ≤ n
  | None => True
  end
  ∧ (∃ h m s,
       let attrs := AzanCountdownSensor.extra_state_attributes data now1 now2 in
       attrs !! "hours"%string = Some (PInt h)
       ∧ attrs !! "minutes"%string = Some (PInt m)
       ∧ attrs !! "seconds"%string = Some (PInt s)
       ∧ 0 ≤ h ∧ 0 ≤ m < 60 ∧ 0 ≤ s < 60)
  ∧ ∀ prayer,
      AzanCountdownSensor._get_next_prayer data now1 = Some prayer →
      aware_gt (localize (p_time prayer) now2) now2 = false →
      let attrs := AzanCountdownSensor.extra_state_attributes data now1 now2 in
      AzanCountdownSensor.native_value data now1 now2 = Some 0
      ∧ attrs !! "hours"%string = Some (PInt 0)
      ∧ attrs !! "minutes"%string = Some (PInt 0)
      ∧ attrs !! "seconds"%string = Some (PInt 0).
Proof.
  unfold AzanCountdownSensor.native_value,
    AzanCountdownSensor.extra_state_attributes.
  destruct (AzanCountdownSensor._get_next_prayer data now1) as [prayer|].
  - set (diff := aware_sub (localize (p_time prayer) now2) now2).
    split; [lia|]. split.
    + pose proof (breakdown_bounds (Z.max 0 (whole_seconds diff))
                    ltac:(lia)) as (? & ? & ? & _).
      eexists _, _, _. simpl. repeat split; try done; lia.
    + intros ? [= <-] Hle%aware_gt_false_sub. fold diff in Hle. simpl.
      rewrite whole_minutes_clamp, whole_seconds_clamp by done.
      repeat split.
  - split; [done|]. split; [|done].
    exists 0, 0, 0. simpl. repeat split; lia.
Qed.

(** The minutes that the next-prayer sensor shows are clamped alike. *)
Lemma next_prayer_countdown_minutes data now1 now2 v :
  NextPrayerSensor.extra_state_attributes data now1 now2
    !! "countdown_minutes"%string = Some v →
  ∃ n, v = PInt n ∧ 0 ≤ n.
Proof.
  unfold NextPrayerSensor.extra_state_attributes.
  destruct (NextPrayerSensor._get_next_prayer data now1); [|done].
  simpl. intros [= <-]. eexists. split; [done|lia].
Qed.

End countdown.

(** ** The refresh step *)

Section refresh.

Lemma dict_set_nonempty k v d : dict_set k v d ≠ [].
Proof. destruct d as [|[k' v'] d]; simpl; [done|]. by destruct (String.eqb k k'). Qed.

Lemma pair_loop_nonempty i headers cells times :
  times ≠ [] → Fetch.pair_loop i headers cells times ≠ [].
Proof.
  revert i times. induction headers as [|h hs IH]; intros i times Hne; simpl; [done|].
  apply IH. destruct (cells !! i); [apply dict_set_nonempty|done].
Qed.

(** The portal adapter fails exactly when the HTTP exchange raised or no
    pair of a header and a cell was found. *)
Lemma fetch_qatar_moi_raises resp err :
  Fetch._fetch_qatar_moi resp = Raise err ↔
  resp = Raise err
  ∨ ∃ th td, resp = Ok (th, td) ∧ err = UpdateFailed_no_times
      ∧ (filter (λ h, h ≠ EmptyString)
                ((λ m, PyStr.strip (Fetch.strip_tags m)) <$> th) = []
         ∨ td = []).
Proof.
  unfold Fetch._fetch_qatar_moi. destruct resp as [[th td]|e]; simpl.
  - remember (filter _ _) as headers eqn:Hhs. split.
    + destruct (Fetch.pair_loop 0 headers (PyStr.strip <$> td) []) eqn:Hl; [|done].
      intros [= <-]. right. exists th, td. repeat split.
      destruct headers as [|h hs]; [by left|right].
      destruct td as [|c cs]; [done|]. simpl in Hl.
      by apply pair_loop_nonempty in Hl.
    + intros [[=]|(th' & td' & [= <- <-] & -> & [Hh | ->])].
      * rewrite <- Hhs in Hh. by rewrite Hh.
      * simpl. assert (∀ i hs, Fetch.pair_loop i hs [] [] = []) as ->; [|done].
        intros i hs. revert i. induction hs; intros i; simpl; [done|].
        apply IHhs.
  - split; [intros [= ->]; by left|]. intros [[= ->]|(?&?&[=]&_)]. done.
Qed.

(** The API adapter fails when the exchange raised, when the timings are
    missing, or when one of the six names is missing from them. *)
Lemma fetch_aladhan_raises resp :
  (∃ err, Fetch._fetch_aladhan resp = Raise err) ↔
  (∃ err, resp = Raise err)
  ∨ ∃ body, resp = Ok body
      ∧ ((∃ err, ab_timings body = Raise err)
         ∨ ∃ t name, ab_timings body = Ok t ∧ name ∈ PRAYER_ORDER
                     ∧ t !! name = None).
Proof.
  unfold Fetch._fetch_aladhan. destruct resp as [body|e]; simpl.
  2:{ split; [intros _; left; eauto|eauto]. }
  destruct (ab_timings body) as [t|e] eqn:Ht; simpl.
  2:{ split; [intros _; right; exists body; eauto|eauto]. }
  unfold Fetch.subscript. split.
  - intros [err H]. right. exists body. split; [done|]. right. exists t.
    destruct (t !! "Fajr"%string) eqn:H1;
      [|exists "Fajr"%string; repeat split; [done|set_solver|done]].
    destruct (t !! "Sunrise"%string) eqn:H2;
      [|exists "Sunrise"%string; repeat split; [done|set_solver|done]].
    destruct (t !! "Dhuhr"%string) eqn:H3;
      [|exists "Dhuhr"%string; repeat split; [done|set_solver|done]].
    destruct (t !! "Asr"%string) eqn:H4;
      [|exists "Asr"%string; repeat split; [done|set_solver|done]].
    destruct (t !! "Maghrib"%string) eqn:H5;
      [|exists "Maghrib"%string; repeat split; [done|set_solver|done]].
    destruct (t !! "Isha"%string) eqn:H6;
      [|exists "Isha"%string; repeat split; [done|set_solver|done]].
    done.
  - intros [[? [=]]|(? & [= <-] & [[? Hn]|(t' & name & Ht' & Hin & Hnone)])];
      [congruence|].
    assert (t' = t) as -> by congruence.
    destruct (t !! "Fajr"%string) eqn:H1; simpl; [|by eauto].
    destruct (t !! "Sunrise"%string) eqn:H2; simpl; [|by eauto].
    destruct (t !! "Dhuhr"%string) eqn:H3; simpl; [|by eauto].
    destruct (t !! "Asr"%string) eqn:H4; simpl; [|by eauto].
    destruct (t !! "Maghrib"%string) eqn:H5; simpl; [|by eauto].
    destruct (t !! "Isha"%string) eqn:H6; simpl; [|by eauto].
    unfold PRAYER_ORDER in Hin.
    repeat (apply elem_of_cons in Hin as [->|Hin]; [congruence|]).
    by apply elem_of_nil in Hin.
Qed.

(** C5. When the fetch of a refresh fails with [err] (the HTTP exchange
    raised, the status was not a success, or the payload gave no times),
    the refresh raises [UpdateFailed], built from [err], and the
    coordinator is left as it was: the stored snapshot, with its entries,
    date, played set and Hijri fields, and the last date. *)
Theorem failed_fetch_keeps_snapshot (self : coordinator) (e : env)
    (err : exception) :
  Fetch.fetch (co_config self) e = Raise err →
  _async_update_data self e = (Raise (UpdateFailed_fetch err), self)
  ∧ is_UpdateFailed (UpdateFailed_fetch err) = true
  ∧ co_data (_async_update_data self e).2 = co_data self.
Proof.
  intros H. unfold _async_update_data. rewrite H. done.
Qed.

(** The three kinds of failure do make the fetch fail. *)
Lemma fetch_raises_qatar_exchange config e err :
  default SOURCE_QATAR_MOI (cfg_prayer_source config) = SOURCE_QATAR_MOI →
  env_qatar e = Raise err →
  Fetch.fetch config e = Raise err.
Proof. unfold Fetch.fetch. intros -> ->. done. Qed.

Lemma fetch_raises_qatar_empty config e th :
  default SOURCE_QATAR_MOI (cfg_prayer_source config) = SOURCE_QATAR_MOI →
  env_qatar e = Ok (th, []) →
  Fetch.fetch config e = Raise UpdateFailed_no_times.
Proof.
  unfold Fetch.fetch. intros -> Hq. simpl.
  assert (Fetch._fetch_qatar_moi (env_qatar e) = Raise UpdateFailed_no_times) as ->; [|done].
  apply fetch_qatar_moi_raises. right. exists th, []. eauto.
Qed.

Lemma fetch_raises_aladhan_exchange config e err :
  default SOURCE_QATAR_MOI (cfg_prayer_source config) ≠ SOURCE_QATAR_MOI →
  env_aladhan e = Raise err →
  Fetch.fetch config e = Raise err.
Proof.
  unfold Fetch.fetch. intros Hne%String.eqb_neq ->. by rewrite Hne.
Qed.

(** C4. After a refresh that succeeds, the new snapshot is dated today;
    its played set is the previous snapshot's when that one has the same
    date, and is empty when the date differs or when there was no
    snapshot. *)
Theorem refresh_played_today (self self' : coordinator) (e : env)
    (new : PrayerData) :
  _async_update_data self e = (Ok new, self') →
  date new = env_today e
  ∧ (∀ old, co_data self = Some old → date old = date new →
            played_today new = played_today old)
  ∧ (∀ old, co_data self = Some old → date old ≠ date new →
            played_today new = ∅)
  ∧ (co_data self = None → played_today new = ∅).
Proof.
  unfold _async_update_data.
  destruct (Fetch.fetch _ _) as [[raw [[hm hd] hn]]|]; [|done].
  destruct (Coordinator._normalize_times _ _ _ _) as [ps|]; [|done].
  destruct (co_data self) as [old|]; simpl.
  - destruct (String.eqb_spec (date old) (env_today e)) as [Heq|Hne];
      intros [= <- <-]; simpl; (split; [done|]);
      repeat split; try done; intros ? [= <-]; congruence.
  - intros [= <- <-]. simpl. repeat split; done.
Qed.

End refresh.

(** ** The normaliser: lists and sorting *)

(** Case analysis on membership in an explicit list: [tac] is run for each
    element. *)
Ltac elem_cases H tac :=
  repeat (apply elem_of_cons in H as [->|H]; [tac|]);
  try (by apply elem_of_nil in H).

Section lists.

Lemma str_in_elem_of x l : str_in x l = true ↔ x ∈ l.
Proof.
  unfold str_in. induction l as [|y l IH]; simpl.
  - split; [done|]. by intros ?%elem_of_nil.
  - rewrite orb_true_iff, IH, String.eqb_eq, elem_of_cons. done.
Qed.

Lemma str_in_not_elem_of x l : str_in x l = false ↔ x ∉ l.
Proof.
  rewrite <- str_in_elem_of. destruct (str_in x l); split; congruence.
Qed.

Lemma list_index_cons_ne x y l :
  x ≠ y → list_index x (y :: l) = S (list_index x l).
Proof. intros Hne%String.eqb_neq. simpl. by rewrite Hne. Qed.

Lemma insert_by_Permutation {A} (key : A → nat) x l :
  insert_by key x l ≡ₚ x :: l.
Proof.
  induction l as [|y l IH]; simpl; [done|].
  destruct (key x <=? key y)%nat; [done|].
  rewrite IH. apply Permutation_swap.
Qed.

Lemma sorted_Permutation {A} (key : A → nat) l : sorted l key ≡ₚ l.
Proof.
  unfold sorted. induction l as [|x l IH]; simpl; [done|].
  by rewrite insert_by_Permutation, IH.
Qed.

Lemma insert_by_StronglySorted {A} (key : A → nat) x l :
  StronglySorted (λ a b, (key a ≤ key b)%nat) l →
  StronglySorted (λ a b, (key a ≤ key b)%nat) (insert_by key x l).
Proof.
  induction 1 as [|y l Hl IH Hy]; simpl.
  - by repeat constructor.
  - destruct (Nat.leb_spec (key x) (key y)) as [Hle|Hgt].
    + constructor; [by constructor|].
      constructor; [done|]. eapply Forall_impl; [exact Hy|].
      intros z Hz. simpl in *. lia.
    + constructor; [done|].
      rewrite Forall_forall. intros z Hz.
      rewrite insert_by_Permutation in Hz.
      apply elem_of_cons in Hz as [->|Hz]; [lia|].
      rewrite Forall_forall in Hy. by apply Hy.
Qed.

Lemma sorted_StronglySorted {A} (key : A → nat) l :
  StronglySorted (λ a b, (key a ≤ key b)%nat) (sorted l key).
Proof.
  unfold sorted. induction l as [|x l IH]; simpl; [constructor|].
  by apply insert_by_StronglySorted.
Qed.

Lemma StronglySorted_sublist {A} (R : relation A) l k :
  l `sublist_of` k → StronglySorted R k → StronglySorted R l.
Proof.
  induction 1 as [|x l k Hsub IH|x l k Hsub IH]; intros Hk.
  - constructor.
  - apply StronglySorted_cons in Hk as [Hx Hk].
    constructor; [by apply IH|].
    rewrite Forall_forall in Hx |- *. intros y Hy. apply Hx.
    by eapply elem_of_sublist.
  - apply StronglySorted_cons in Hk as [_ Hk]. by apply IH.
Qed.

Lemma StronglySorted_impl_elem_of {A} (R R' : relation A) l :
  StronglySorted R l →
  (∀ x y, x ∈ l → y ∈ l → R x y → R' x y) →
  StronglySorted R' l.
Proof.
  induction 1 as [|x l Hl IH Hx]; intros HR; constructor.
  - apply IH. intros y z Hy Hz. apply HR; by right.
  - rewrite Forall_forall in Hx |- *. intros y Hy.
    apply HR; [by left|by right|by apply Hx].
Qed.

(** A list without repetition whose elements are all in [L] and come in
    the order of their positions in [L] is a subsequence of [L]. *)
Lemma index_sorted_sublist (L l : list string) :
  Forall (λ x, x ∈ L) l →
  NoDup l →
  StronglySorted (λ a b, (list_index a L ≤ list_index b L)%nat) l →
  l `sublist_of` L.
Proof.
  revert l. induction L as [|a L IH]; intros l Hin Hnd Hs.
  - destruct l as [|x l]; [constructor|].
    apply Forall_cons in Hin as [Hx%elem_of_nil _]. done.
  - destruct l as [|x l]; [apply sublist_nil_l|].
    apply NoDup_cons in Hnd as [Hxl Hnd].
    apply StronglySorted_cons in Hs as [Hx Hs].
    apply Forall_cons in Hin as [Hxin Hin].
    rewrite Forall_forall in Hx, Hin.
    destruct (decide (x = a)) as [->|Hne].
    + apply sublist_skip. apply IH; [|done|].
      * rewrite Forall_forall. intros y Hy.
        specialize (Hin y Hy). apply elem_of_cons in Hin as [->|?]; done.
      * apply (StronglySorted_impl_elem_of _ _ _ Hs).
        intros y z Hy Hz Hyz.
        rewrite !list_index_cons_ne in Hyz by (intros ->; done). lia.
    + assert (∀ y, y ∈ x :: l → y ≠ a) as Hall.
      { intros y [->|Hy]%elem_of_cons; [done|]. intros ->.
        specialize (Hx a Hy). rewrite list_index_cons_ne in Hx by done.
        simpl in Hx. rewrite String.eqb_refl in Hx. lia. }
      apply sublist_cons. apply IH.
      * rewrite Forall_forall. intros y Hy.
        assert (y ∈ a :: L) as [->|?]%elem_of_cons; [|by apply Hall in Hy|done].
        apply elem_of_cons in Hy as [->|Hy]; [done|by apply Hin].
      * by apply NoDup_cons.
      * assert (StronglySorted
                  (λ a0 b, (list_index a0 (a :: L) ≤ list_index b (a :: L))%nat)
                  (x :: l)) as Hs'.
        { constructor; [done|by apply Forall_forall]. }
        apply (StronglySorted_impl_elem_of _ _ _ Hs').
        intros y z Hy Hz Hyz.
        rewrite !list_index_cons_ne in Hyz by (by apply Hall). lia.
Qed.

End lists.

(** ** The normaliser: one entry *)

Section entry.
Import Coordinator.

Lemma adjust_hour_afternoon name hour :
  name ∈ ["Asr"; "Maghrib"; "Isha"]%string → hour < 10 →
  adjust_hour name hour = hour + 12.
Proof.
  intros Hin%str_in_elem_of Hlt%Z.ltb_lt. unfold adjust_hour.
  by rewrite Hin, Hlt.
Qed.

Lemma adjust_hour_morning name hour :
  name ∈ ["Fajr"; "Sunrise"; "Dhuhr"]%string → adjust_hour name hour = hour.
Proof.
  intros Hin. unfold adjust_hour.
  assert (str_in name ["Asr"; "Maghrib"; "Isha"]%string = false) as ->; [|done].
  elem_cases Hin ltac:(done).
Qed.

Lemma dt_replace_hm_Ok now h m :
  0 ≤ h ≤ 23 → 0 ≤ m ≤ 59 →
  dt_replace_hm now h m =
    Ok {| dt_date := dt_date now; dt_hour := h; dt_minute := m;
          dt_second := 0; dt_microsecond := 0; dt_tzinfo := dt_tzinfo now |}.
Proof.
  intros [? ?] [? ?]. unfold dt_replace_hm.
  assert ((0 <=? h) && (h <=? 23) = true) as ->
    by (apply andb_true_iff; split; by apply Z.leb_le).
  assert ((0 <=? m) && (m <=? 59) = true) as ->
    by (apply andb_true_iff; split; by apply Z.leb_le).
  done.
Qed.

Lemma dt_replace_hm_Raise now h m :
  ¬ (0 ≤ h ≤ 23 ∧ 0 ≤ m ≤ 59) → dt_replace_hm now h m = Raise ValueError.
Proof.
  intros Hn. unfold dt_replace_hm.
  destruct ((0 <=? h) && (h <=? 23)) eqn:Hh; [|done].
  destruct ((0 <=? m) && (m <=? 59)) eqn:Hm; [|done].
  apply andb_true_iff in Hh as [?%Z.leb_le ?%Z.leb_le].
  apply andb_true_iff in Hm as [?%Z.leb_le ?%Z.leb_le]. lia.
Qed.

Lemma dt_replace_hm_inv now h m t :
  dt_replace_hm now h m = Ok t →
  0 ≤ h ≤ 23 ∧ 0 ≤ m ≤ 59
  ∧ t = {| dt_date := dt_date now; dt_hour := h; dt_minute := m;
           dt_second := 0; dt_microsecond := 0; dt_tzinfo := dt_tzinfo now |}.
Proof.
  intros H.
  destruct (decide (0 ≤ h ≤ 23 ∧ 0 ≤ m ≤ 59)) as [[Hh Hm]|Hn].
  - rewrite dt_replace_hm_Ok in H by done. by injection H as <-.
  - rewrite dt_replace_hm_Raise in H by done. done.
Qed.

(** What one iteration does with an entry whose two components read as
    integers. *)
Lemma loop_body_parsed config now prayers fajr_time name time_str
    part0 part1 rest hour minute :
  name ∈ PRAYER_ORDER →
  PyStr.split ":" (time_clean time_str) = part0 :: part1 :: rest →
  PyStr.int part0 = Some hour →
  PyStr.int part1 = Some minute →
  loop_body config now (prayers, fajr_time) (name, time_str) =
    prayer_time ← dt_replace_hm now (adjust_hour name hour) minute;
    Ok (prayers ++ [entry_of config now name (adjust_hour name hour) minute],
        if String.eqb name "Fajr" then Some prayer_time else fajr_time).
Proof.
  intros Hin%str_in_elem_of Hsplit H0 H1. unfold loop_body.
  rewrite Hin, Hsplit. simpl. unfold int. rewrite H0, H1. simpl.
  destruct (decide (0 ≤ adjust_hour name hour ≤ 23 ∧ 0 ≤ minute ≤ 59))
    as [[Hh Hm]|Hn].
  - by rewrite dt_replace_hm_Ok by done.
  - by rewrite dt_replace_hm_Raise by done.
Qed.

(** C7. For an entry whose time string yields the integers [hour] and
    [minute]: when the name is Asr, Maghrib or Isha and [hour] is below
    10, the hour of the entry is [hour + 12]; when the name is Fajr,
    Sunrise or Dhuhr it is [hour], whatever [hour] is. The entry is
    appended when that hour and the minute are a time of day, and the
    iteration raises [ValueError] otherwise. *)
Theorem twelve_hour_disambiguation config now prayers fajr_time name
    time_str part0 part1 rest hour minute normalized :
  PyStr.split ":" (time_clean time_str) = part0 :: part1 :: rest →
  PyStr.int part0 = Some hour →
  PyStr.int part1 = Some minute →
  (name ∈ ["Asr"; "Maghrib"; "Isha"]%string ∧ hour < 10
     ∧ normalized = hour + 12)
  ∨ (name ∈ ["Fajr"; "Sunrise"; "Dhuhr"]%string ∧ normalized = hour) →
  adjust_hour name hour = normalized
  ∧ (0 ≤ normalized ≤ 23 ∧ 0 ≤ minute ≤ 59 →
     ∃ prayer fajr_time',
       loop_body config now (prayers, fajr_time) (name, time_str)
         = Ok (prayers ++ [prayer], fajr_time')
       ∧ p_name prayer = name
       ∧ dt_hour (p_time prayer) = normalized
       ∧ dt_minute (p_time prayer) = minute
       ∧ p_time_str prayer = PyStr.format_02d normalized +:+ ":"
                             +:+ PyStr.format_02d minute)
  ∧ (¬ (0 ≤ normalized ≤ 23 ∧ 0 ≤ minute ≤ 59) →
     loop_body config now (prayers, fajr_time) (name, time_str)
       = Raise ValueError).
Proof.
  intros Hsplit H0 H1 Hcase.
  assert (name ∈ PRAYER_ORDER ∧ adjust_hour name hour = normalized)
    as [Hin Hadj].
  { destruct Hcase as [(Hpm & Hlt & ->)|(Ham & ->)].
    - split; [|by apply adjust_hour_afternoon].
      elem_cases Hpm ltac:(by apply str_in_elem_of).
    - split; [|by apply adjust_hour_morning].
      elem_cases Ham ltac:(by apply str_in_elem_of). }
  rewrite (loop_body_parsed _ _ _ _ _ _ _ _ _ _ _ Hin Hsplit H0 H1), Hadj.
  split; [done|]. split.
  - intros [Hh Hm]. rewrite dt_replace_hm_Ok by done. simpl.
    eexists _, _. split; [done|]. done.
  - intros Hn. by rewrite dt_replace_hm_Raise.
Qed.

End entry.

(** ** The normaliser: the loop and the injection *)

Section normaliser.
Import Coordinator.

Lemma dt_wall_of_wall us tz : dt_wall (dt_of_wall us tz) = us.
Proof.
  unfold dt_wall, dt_of_wall. simpl.
  replace 86400000000 with (1000000 * 60 * 60 * 24) by done.
  replace 3600000000 with (1000000 * 60 * 60) by done.
  replace 60000000 with (1000000 * 60) by done.
  rewrite <- !Z.div_div by lia.
  set (a := us / 1000000). set (b := a / 60). set (c := b / 60).
  pose proof (Z.div_mod us 1000000 ltac:(lia)).
  pose proof (Z.div_mod a 60 ltac:(lia)).
  pose proof (Z.div_mod b 60 ltac:(lia)).
  pose proof (Z.div_mod c 24 ltac:(lia)).
  fold a in H. fold b in H0. fold c in H1. lia.
Qed.

Lemma dt_sub_minutes_wall t m :
  dt_wall (dt_sub_minutes t m) = dt_wall t - m * 60000000.
Proof. apply dt_wall_of_wall. Qed.

(** One iteration either leaves the state or appends one entry, named as
    the raw entry is, and records its time when the name is Fajr. *)
Lemma loop_body_Ok config now prayers fajr_time name time_str st :
  loop_body config now (prayers, fajr_time) (name, time_str) = Ok st →
  st = (prayers, fajr_time)
  ∨ ∃ p, name ∈ PRAYER_ORDER ∧ p_name p = name
         ∧ st = (prayers ++ [p],
                 if String.eqb name "Fajr" then Some (p_time p) else fajr_time).
Proof.
  unfold loop_body.
  destruct (str_in name PRAYER_ORDER) eqn:Hin; simpl;
    [|intros [= <-]; by left].
  destruct (PyStr.split ":" (time_clean time_str)) as [|part0 [|part1 rest]];
    [intros [= <-]; by left..|].
  destruct (int part0) as [hour|]; [simpl|done].
  destruct (int part1) as [minute|]; [simpl|done].
  destruct (dt_replace_hm _ _ _) as [prayer_time|]; [simpl|done].
  intros [= <-]. right. eexists (mk_prayer name prayer_time _ _).
  split; [by apply str_in_elem_of|]. split; reflexivity.
Qed.

(** Every exception of the normaliser is a [ValueError]. *)
Lemma loop_body_Raise config now st entry e :
  loop_body config now st entry = Raise e → e = ValueError.
Proof.
  unfold loop_body. destruct st as [prayers fajr_time], entry as [name time_str].
  destruct (str_in name PRAYER_ORDER); simpl; [|done].
  destruct (PyStr.split ":" (time_clean time_str)) as [|part0 [|part1 rest]];
    [done..|].
  unfold int, dt_replace_hm.
  destruct (PyStr.int part0); simpl; [|congruence].
  destruct (PyStr.int part1); simpl; [|congruence].
  repeat (case_match; simpl); congruence.
Qed.

Lemma loop_cons config now entry rest st :
  loop config now (entry :: rest) st =
    st' ← loop_body config now st entry; loop config now rest st'.
Proof. done. Qed.

Lemma loop_Raise config now entries st e :
  loop config now entries st = Raise e → e = ValueError.
Proof.
  revert st. induction entries as [|entry rest IH]; intros st; [done|].
  rewrite loop_cons.
  destruct (loop_body config now st entry) as [st'|e'] eqn:Hb; simpl.
  - apply IH.
  - intros [= <-]. by eapply loop_body_Raise.
Qed.

Lemma loop_Ok config now entries prayers fajr_time prayers' fajr_time' :
  loop config now entries (prayers, fajr_time) = Ok (prayers', fajr_time') →
  ∃ kept, prayers' = prayers ++ kept
          ∧ fajr_time' = last_fajr kept fajr_time
          ∧ (p_name <$> kept) `sublist_of` entries.*1
          ∧ Forall (λ p, p_name p ∈ PRAYER_ORDER) kept.
Proof.
  revert prayers fajr_time.
  induction entries as [|[name time_str] rest IH]; intros prayers fajr_time.
  - intros [= <- <-]. exists []. rewrite app_nil_r. repeat split; constructor.
  - rewrite loop_cons.
    destruct (loop_body config now (prayers, fajr_time) (name, time_str))
      as [st|] eqn:Hb; simpl; [|done].
    apply loop_body_Ok in Hb as [->|(p & Hin & Hname & ->)]; intros Hl.
    + apply IH in Hl as (kept & -> & -> & Hsub & Hall).
      exists kept. repeat split; [|done]. by apply sublist_cons.
    + apply IH in Hl as (kept & -> & -> & Hsub & Hall).
      exists (p :: kept). rewrite <- app_assoc. simpl. rewrite Hname.
      repeat split.
      * by apply sublist_skip.
      * constructor; [by rewrite Hname|done].
Qed.

Lemma order_key_name x :
  x.1 ∈ PRAYER_ORDER → order_key x = list_index x.1 PRAYER_ORDER.
Proof. intros Hin%str_in_elem_of. unfold order_key. by rewrite Hin. Qed.

(** After the loop over a dictionary, the names of [prayers] are a
    subsequence of [PRAYER_ORDER]. *)
Lemma loop_names_sublist config now (raw : pydict) prayers fajr_time :
  dict_wf raw →
  loop config now (sorted raw order_key) ([], None) = Ok (prayers, fajr_time) →
  (p_name <$> prayers) `sublist_of` PRAYER_ORDER
  ∧ fajr_time = last_fajr prayers None.
Proof.
  intros Hwf Hl.
  apply loop_Ok in Hl as (kept & -> & -> & Hsub & Hall). simpl.
  split; [|done].
  assert (Forall (λ n, n ∈ PRAYER_ORDER) (p_name <$> kept)) as Hnames
    by (by apply Forall_fmap).
  apply index_sorted_sublist.
  - done.
  - eapply sublist_NoDup; [|exact Hsub].
    unfold dict_wf in Hwf. by rewrite (sorted_Permutation order_key raw).
  - apply (StronglySorted_impl_elem_of
             (λ a b, (order_key (a, EmptyString) ≤ order_key (b, EmptyString))%nat)).
    + eapply StronglySorted_sublist; [exact Hsub|].
      eapply StronglySorted_fmap; [|apply (sorted_StronglySorted order_key)].
      by intros [a va] [b vb].
    + intros a b Ha Hb. rewrite Forall_forall in Hnames.
      rewrite !order_key_name by (simpl; by apply Hnames). done.
Qed.

Lemma last_fajr_no_fajr kept ft :
  Forall (λ p, p_name p ≠ "Fajr"%string) kept → last_fajr kept ft = ft.
Proof.
  unfold last_fajr. revert ft.
  induction kept as [|p kept IH]; intros ft Hall; simpl; [done|].
  apply Forall_cons in Hall as [Hp%String.eqb_neq Hall].
  rewrite Hp. by apply IH.
Qed.

Lemma names_after_fajr (l : list prayer) :
  (p_name <$> l) `sublist_of` ["Sunrise"; "Dhuhr"; "Asr"; "Maghrib"; "Isha"]%string →
  Forall (λ p, p_name p ≠ "Fajr"%string ∧ p_name p ≠ "Suhoor"%string) l.
Proof.
  intros Hsub. rewrite Forall_forall. intros p Hp.
  assert (p_name p ∈ ["Sunrise"; "Dhuhr"; "Asr"; "Maghrib"; "Isha"]%string)
    as Hin.
  { eapply elem_of_sublist; [|exact Hsub]. by apply list_elem_of_fmap_2. }
  elem_cases Hin ltac:(done).
Qed.

Lemma suhoor_due_spec config is_ramadan :
  suhoor_due config is_ramadan = true ↔
  default false (cfg_suhoor_enabled config) = true
  ∧ (default true (cfg_suhoor_ramadan_only config) = false ∨ is_ramadan = true).
Proof.
  unfold suhoor_due. rewrite andb_true_iff, orb_true_iff, negb_true_iff. done.
Qed.

(** The injection, on a list whose names are a subsequence of
    [PRAYER_ORDER] and with the [fajr_time] that the loop recorded. *)
Lemma inject_suhoor_shape config is_ramadan kept :
  (p_name <$> kept) `sublist_of` PRAYER_ORDER →
  (Forall (λ p, p_name p ≠ "Fajr"%string ∧ p_name p ≠ "Suhoor"%string) kept
   ∧ inject_suhoor config is_ramadan (kept, last_fajr kept None) = kept)
  ∨ ∃ f kept',
      kept = f :: kept' ∧ p_name f = "Fajr"%string
      ∧ Forall (λ p, p_name p ≠ "Fajr"%string ∧ p_name p ≠ "Suhoor"%string) kept'
      ∧ inject_suhoor config is_ramadan (kept, last_fajr kept None) =
          if suhoor_due config is_ramadan
          then suhoor_for config f :: f :: kept' else f :: kept'.
Proof.
  unfold PRAYER_ORDER. intros [Hsub|(l' & Hl & Hsub)]%sublist_cons_r.
  - left. apply names_after_fajr in Hsub. split; [done|].
    rewrite last_fajr_no_fajr
      by (eapply Forall_impl; [exact Hsub|]; by intros ? [? _]).
    unfold inject_suhoor. by destruct (default false (cfg_suhoor_enabled config)).
  - right. destruct kept as [|f kept']; [done|]. injection Hl as Hf Hl.
    subst l'. apply names_after_fajr in Hsub.
    exists f, kept'. repeat split; [done..|].
    assert (last_fajr (f :: kept') None = Some (p_time f)) as ->.
    { unfold last_fajr. simpl. rewrite Hf. simpl.
      apply last_fajr_no_fajr. eapply Forall_impl; [exact Hsub|].
      by intros ? [? _]. }
    unfold inject_suhoor, suhoor_due. simpl. rewrite Hf. simpl.
    destruct (default false (cfg_suhoor_enabled config)); simpl; [|done].
    destruct (negb (default true (cfg_suhoor_ramadan_only config)) || is_ramadan);
      done.
Qed.

Lemma normalize_times_shape config clock raw is_ramadan ps :
  dict_wf raw →
  _normalize_times config clock raw is_ramadan = Ok ps →
  ∃ kept, (p_name <$> kept) `sublist_of` PRAYER_ORDER
          ∧ ps = inject_suhoor config is_ramadan (kept, last_fajr kept None).
Proof.
  intros Hwf. unfold _normalize_times.
  destruct (loop config (datetime_now clock) (sorted raw order_key) ([], None))
    as [[kept ft]|] eqn:Hl; simpl; [|done].
  intros [= <-]. apply loop_names_sublist in Hl as [Hsub ->]; [|done].
  by exists kept.
Qed.

Lemma NoDup_CANONICAL_NAMES : NoDup CANONICAL_NAMES.
Proof. apply (bool_decide_unpack _). by vm_compute. Qed.

Lemma normalize_times_Raise config clock raw is_ramadan e :
  _normalize_times config clock raw is_ramadan = Raise e → e = ValueError.
Proof.
  unfold _normalize_times.
  destruct (loop config (datetime_now clock) (sorted raw order_key) ([], None))
    as [st|e'] eqn:Hl; simpl; [done|].
  intros [= <-]. by eapply loop_Raise.
Qed.

End normaliser.

(** ** The normaliser: the output *)

Section output.
Import Coordinator.

Lemma suhoor_for_wall config f :
  dt_wall (p_time (suhoor_for config f)) =
    dt_wall (p_time f) - suhoor_offset config * 60000000.
Proof. apply dt_sub_minutes_wall. Qed.

(** C1, as the code has it. For a dictionary [raw] and any configuration,
    the names of the entries that the normaliser returns are a subsequence
    of Suhoor, Fajr, Sunrise, Dhuhr, Asr, Maghrib, Isha: the entries are in
    the order of the prayers, not of their times, and no name occurs
    twice. A Suhoor entry stands immediately before the Fajr entry, at
    the head of the list, and its time is the Fajr time less the offset,
    so strictly earlier when the offset is positive. *)
Theorem normalized_entries_canonical config clock (raw : pydict)
    is_ramadan ps :
  dict_wf raw →
  _normalize_times config clock raw is_ramadan = Ok ps →
  (p_name <$> ps) `sublist_of` CANONICAL_NAMES
  ∧ NoDup (p_name <$> ps)
  ∧ ∀ s f, s ∈ ps → f ∈ ps →
           p_name s = "Suhoor"%string → p_name f = "Fajr"%string →
           (∃ rest, ps = s :: f :: rest)
           ∧ dt_wall (p_time s) =
               dt_wall (p_time f) - suhoor_offset config * 60000000
           ∧ (0 < suhoor_offset config →
              dt_wall (p_time s) < dt_wall (p_time f)).
Proof.
  intros Hwf Hn.
  apply normalize_times_shape in Hn as (kept & Hsub & ->); [|done].
  assert ((p_name <$> inject_suhoor config is_ramadan (kept, last_fajr kept None))
            `sublist_of` CANONICAL_NAMES
          ∧ ∀ s f, s ∈ inject_suhoor config is_ramadan (kept, last_fajr kept None) →
                   f ∈ inject_suhoor config is_ramadan (kept, last_fajr kept None) →
                   p_name s = "Suhoor"%string → p_name f = "Fajr"%string →
                   ∃ rest, inject_suhoor config is_ramadan (kept, last_fajr kept None)
                             = s :: f :: rest
                           ∧ s = suhoor_for config f) as [Hcan Hsf].
  { destruct (inject_suhoor_shape config is_ramadan kept Hsub)
      as [[Hno ->]|(f & kept' & -> & Hf & Hno & ->)].
    - split; [by apply sublist_cons|].
      intros s f _ Hfin _ Hf. rewrite Forall_forall in Hno.
      by destruct (Hno f Hfin).
    - rewrite Forall_forall in Hno.
      destruct (suhoor_due config is_ramadan).
      + split; [by apply sublist_skip|].
        intros s f0 Hs Hf0 Hsn Hfn.
        apply elem_of_cons in Hs as [->|Hs]; last first.
        { apply elem_of_cons in Hs as [->|Hs]; [congruence|].
          by destruct (Hno s Hs). }
        apply elem_of_cons in Hf0 as [->|Hf0]; [done|].
        apply elem_of_cons in Hf0 as [->|Hf0]; [by eexists|].
        by destruct (Hno f0 Hf0).
      + split; [by apply sublist_cons|].
        intros s f0 Hs _ Hsn _.
        apply elem_of_cons in Hs as [->|Hs]; [congruence|].
        by destruct (Hno s Hs). }
  split; [done|]. split.
  - eapply sublist_NoDup; [apply NoDup_CANONICAL_NAMES|done].
  - intros s f Hs Hf Hsn Hfn.
    destruct (Hsf s f Hs Hf Hsn Hfn) as (rest & Heq & ->).
    split; [by exists rest|]. rewrite suhoor_for_wall. split; [done|]. lia.
Qed.

(** C3. When Suhoor is enabled, and it is not limited to Ramadan or it is
    Ramadan, a Fajr entry of the output is second in the list, right
    after a Suhoor entry that is enabled and whose time is the Fajr time
    less the configured minutes. Whatever the configuration, an output
    without a Fajr entry has no Suhoor entry. *)
Theorem suhoor_injection config clock (raw : pydict) is_ramadan ps :
  dict_wf raw →
  _normalize_times config clock raw is_ramadan = Ok ps →
  (default false (cfg_suhoor_enabled config) = true →
   default true (cfg_suhoor_ramadan_only config) = false ∨ is_ramadan = true →
   ∀ fajr, fajr ∈ ps → p_name fajr = "Fajr"%string →
     ∃ suhoor rest,
       ps = suhoor :: fajr :: rest
       ∧ p_name suhoor = "Suhoor"%string
       ∧ p_enabled suhoor = true
       ∧ p_time suhoor = dt_sub_minutes (p_time fajr) (suhoor_offset config)
       ∧ dt_wall (p_time suhoor) =
           dt_wall (p_time fajr) - suhoor_offset config * 60000000)
  ∧ ((∀ p, p ∈ ps → p_name p ≠ "Fajr"%string) →
     ∀ p, p ∈ ps → p_name p ≠ "Suhoor"%string).
Proof.
  intros Hwf Hn.
  apply normalize_times_shape in Hn as (kept & Hsub & ->); [|done].
  destruct (inject_suhoor_shape config is_ramadan kept Hsub)
    as [[Hno ->]|(f & kept' & -> & Hf & Hno & ->)];
    rewrite Forall_forall in Hno.
  - split.
    + intros _ _ fajr Hin Hfajr. by destruct (Hno fajr Hin).
    + intros _ p Hin. by destruct (Hno p Hin).
  - split.
    + intros Hen Hram.
      rewrite (proj2 (suhoor_due_spec config is_ramadan)) by done.
      intros fajr Hin Hfajr.
      apply elem_of_cons in Hin as [->|Hin]; [done|].
      apply elem_of_cons in Hin as [Heq|Hin].
      * subst f. exists (suhoor_for config fajr), kept'.
        repeat split. apply suhoor_for_wall.
      * by destruct (Hno fajr Hin).
    + intros Hnone. exfalso. apply (Hnone f); [|done].
      destruct (suhoor_due config is_ramadan);
        [apply list_elem_of_further|]; apply list_elem_of_here.
Qed.

Lemma dict_set_keys k v (d : pydict) :
  (dict_set k v d).*1 = if bool_decide (k ∈ d.*1) then d.*1 else d.*1 ++ [k].
Proof.
  induction d as [|[k' v'] d IH]; csimpl; [done|].
  destruct (String.eqb_spec k k') as [->|Hne]; csimpl.
  - rewrite bool_decide_eq_true_2 by left. done.
  - rewrite IH. destruct (decide (k ∈ d.*1)) as [Hin|Hnin].
    + rewrite !bool_decide_eq_true_2; [done|by right|done].
    + rewrite !bool_decide_eq_false_2; [done| |done].
      by intros [?|?]%elem_of_cons.
Qed.

Lemma dict_set_wf k v d : dict_wf d → dict_wf (dict_set k v d).
Proof.
  unfold dict_wf. rewrite dict_set_keys. intros Hd. case_bool_decide; [done|].
  apply NoDup_app. split; [done|]. split; [|apply NoDup_singleton].
  by intros x Hx ->%list_elem_of_singleton.
Qed.

Lemma pair_loop_wf i headers cells times :
  dict_wf times → dict_wf (Fetch.pair_loop i headers cells times).
Proof.
  revert i times. induction headers as [|h hs IH]; intros i times Hwf; simpl;
    [done|].
  apply IH. destruct (cells !! i); [by apply dict_set_wf|done].
Qed.

(** The dictionaries that the adapters return have distinct keys. *)
Lemma fetch_wf config e raw hijri :
  Fetch.fetch config e = Ok (raw, hijri) → dict_wf raw.
Proof.
  unfold Fetch.fetch.
  destruct (String.eqb _ SOURCE_QATAR_MOI).
  - unfold Fetch._fetch_qatar_moi.
    destruct (env_qatar e) as [[th td]|]; simpl; [|done].
    destruct (Fetch.pair_loop 0 _ _ []) as [|x times] eqn:Hl; simpl; [done|].
    intros Heq.
    assert (raw = x :: times) as ->
      by (destruct (env_hijri_converter e) as [[[? ?] ?]|]; congruence).
    rewrite <- Hl. apply pair_loop_wf. constructor.
  - unfold Fetch._fetch_aladhan.
    destruct (env_aladhan e) as [body|]; simpl; [|done].
    destruct (ab_timings body) as [t|]; simpl; [|done].
    unfold Fetch.subscript.
    destruct (t !! "Fajr"%string); simpl; [|done].
    destruct (t !! "Sunrise"%string); simpl; [|done].
    destruct (t !! "Dhuhr"%string); simpl; [|done].
    destruct (t !! "Asr"%string); simpl; [|done].
    destruct (t !! "Maghrib"%string); simpl; [|done].
    destruct (t !! "Isha"%string); simpl; [|done].
    intros [= <- _]. apply (bool_decide_unpack _). by vm_compute.
Qed.

(** The entries of every snapshot that a refresh returns are in the order
    of the prayers, one per name. *)
Lemma refresh_entries_canonical self self' e new :
  _async_update_data self e = (Ok new, self') →
  (p_name <$> prayers new) `sublist_of` CANONICAL_NAMES.
Proof.
  unfold _async_update_data.
  destruct (Fetch.fetch (co_config self) e) as [[raw [[hm hd] hn]]|] eqn:Hf;
    [|done].
  apply fetch_wf in Hf.
  destruct (_normalize_times _ _ raw _) as [ps|] eqn:Hn; [|done].
  apply normalize_times_shape in Hn as (kept & Hsub & ->); [|done].
  intros [= <- _].
  assert (∀ d s, prayers (set_played_today s d) = prayers d) as Hp by done.
  assert ((p_name <$> inject_suhoor (co_config self) (ramadan_of hm)
                        (kept, last_fajr kept None))
            `sublist_of` CANONICAL_NAMES) as Hcan.
  { destruct (inject_suhoor_shape (co_config self) (ramadan_of hm) kept Hsub)
      as [[_ ->]|(f & kept' & -> & _ & _ & ->)].
    - by apply sublist_cons.
    - destruct (suhoor_due _ _); [by apply sublist_skip|by apply sublist_cons]. }
  destruct (co_data self) as [old|]; [|done].
  by destruct (String.eqb (date old) (env_today e)).
Qed.

End output.

(** ** The normaliser: malformed entries *)

Section malformed_entries.
Import Coordinator.

(** An entry without a colon is skipped. *)
Lemma loop_body_no_colon config now st name time_str part0 :
  PyStr.split ":" (time_clean time_str) = [part0] →
  loop_body config now st (name, time_str) = Ok st.
Proof.
  intros Hs. unfold loop_body. destruct st as [prayers fajr_time].
  rewrite Hs. by destruct (negb (str_in name PRAYER_ORDER)).
Qed.

(** An iteration raises exactly on a malformed entry. *)
Lemma loop_body_raises_iff config now st name time_str :
  (∃ e, loop_body config now st (name, time_str) = Raise e) ↔
  malformed name time_str.
Proof.
  unfold malformed, loop_body. destruct st as [prayers fajr_time].
  rewrite <- str_in_elem_of.
  destruct (str_in name PRAYER_ORDER); simpl.
  2:{ split; [by intros [? ?]|by intros [? _]]. }
  destruct (PyStr.split ":" (time_clean time_str)) as [|part0 [|part1 rest]].
  1,2: split; [by intros [? ?]|by intros (_ & ? & ? & ? & ? & _)].
  unfold int. split.
  - intros [e He]. split; [done|]. exists part0, part1, rest. split; [done|].
    destruct (PyStr.int part0) as [hour|]; [|done].
    destruct (PyStr.int part1) as [minute|]; [|done]. simpl in He.
    intros [Hh Hm]. by rewrite dt_replace_hm_Ok in He.
  - intros (_ & p0 & p1 & r & [= <- <- <-] & Hbad).
    destruct (PyStr.int part0) as [hour|]; [|by eexists].
    destruct (PyStr.int part1) as [minute|]; [|by eexists]. simpl.
    rewrite dt_replace_hm_Raise by done. by eexists.
Qed.

Lemma loop_raises_iff config now entries st :
  (∃ e, loop config now entries st = Raise e) ↔
  ∃ name time_str, (name, time_str) ∈ entries ∧ malformed name time_str.
Proof.
  revert st. induction entries as [|[name time_str] rest IH]; intros st.
  - split; [by intros [? ?]|]. by intros (? & ? & ?%elem_of_nil & _).
  - rewrite loop_cons.
    destruct (loop_body config now st (name, time_str)) as [st'|e] eqn:Hb;
      simpl.
    + rewrite IH. split.
      * intros (n & t & Hin & Hbad). exists n, t. split; [by right|done].
      * intros (n & t & [[= -> ->]|Hin]%elem_of_cons & Hbad); [|by eauto].
        apply (loop_body_raises_iff config now st) in Hbad as [e He].
        congruence.
    + split; [|by eauto]. intros _. exists name, time_str.
      split; [by left|]. apply (loop_body_raises_iff config now st). by eauto.
Qed.

(** The normaliser raises, and then [ValueError], exactly when [raw] has
    a malformed entry; otherwise it returns a list. *)
Lemma normalize_times_raises_iff config clock (raw : pydict) is_ramadan :
  _normalize_times config clock raw is_ramadan = Raise ValueError ↔
  ∃ name time_str, (name, time_str) ∈ raw ∧ malformed name time_str.
Proof.
  transitivity
    (∃ e, loop config (datetime_now clock) (sorted raw order_key) ([], None)
          = Raise e).
  - unfold _normalize_times.
    destruct (loop _ _ _ _) as [st|e] eqn:Hl; simpl.
    + split; [done|]. by intros [? ?].
    + apply loop_Raise in Hl as ->. split; by eauto.
  - rewrite loop_raises_iff. split; intros (n & t & Hin & Hbad);
      exists n, t; (split; [|done]).
    + by rewrite (sorted_Permutation order_key raw) in Hin.
    + by rewrite (sorted_Permutation order_key raw).
Qed.

Lemma normalize_times_total config clock (raw : pydict) is_ramadan :
  (∀ name time_str, (name, time_str) ∈ raw → ¬ malformed name time_str) →
  ∃ ps, _normalize_times config clock raw is_ramadan = Ok ps.
Proof.
  intros Hgood.
  destruct (_normalize_times config clock raw is_ramadan) as [ps|e] eqn:Hn;
    [by eexists|].
  pose proof (normalize_times_Raise _ _ _ _ _ Hn) as ->.
  apply normalize_times_raises_iff in Hn as (n & t & Hin & Hbad).
  by destruct (Hgood n t Hin).
Qed.

(** C2, on the code. A component that is not an integer is not dropped:
    with ["4:3a"] for Dhuhr next to a good Fajr, the normaliser raises
    [ValueError], and the refresh that called it raises the same
    [ValueError] (which is not [UpdateFailed]) and returns no snapshot. *)
Theorem bad_component_aborts :
  malformed "Dhuhr" "4:3a"
  ∧ Coordinator._normalize_times Samples.config_default
      (Samples.at_time 1 0 0) Samples.raw_bad_minute false
    = Raise ValueError
  ∧ ∀ data last_date,
      (_async_update_data
         {| co_config := Samples.config_default; co_data := data;
            co_last_date := last_date |}
         (Samples.env_portal ["Fajr"; "Dhuhr"] ["4:30"; "4:3a"] "2024-03-01")).1
      = Raise ValueError.
Proof.
  split; [|split].
  - split; [by apply str_in_elem_of|].
    exists "4"%string, "3a"%string, []. by split.
  - by vm_compute.
  - intros data last_date. by vm_compute.
Qed.

End malformed_entries.

(** ** Worked inputs *)

Section worked.
Import Samples.

Lemma dict_wf_raw_day : dict_wf raw_day.
Proof. apply (bool_decide_unpack _). by vm_compute. Qed.

(** A full day from a 12-hour source: Asr ["3:15"] becomes 15:15, Fajr
    ["4:30"] stays 04:30, Sunrise is disabled by default. *)
Example normalize_raw_day :
  Coordinator._normalize_times config_default (at_time 1 0 0) raw_day false
  = Ok [entry "Fajr" 4 30 true; entry "Sunrise" 5 45 false;
        entry "Dhuhr" 11 40 true; entry "Asr" 15 15 true;
        entry "Maghrib" 17 50 true; entry "Isha" 19 20 true].
Proof. by vm_compute. Qed.

(** Fajr at 04:30, offset 60, Ramadan only: no Suhoor outside Ramadan,
    Suhoor at 03:30 right before Fajr in Ramadan. *)
Example suhoor_outside_ramadan :
  Coordinator._normalize_times config_suhoor (at_time 1 0 0)
    [("Fajr", "04:30")]%string false
  = Ok [entry "Fajr" 4 30 true].
Proof. by vm_compute. Qed.

Example suhoor_in_ramadan :
  Coordinator._normalize_times config_suhoor (at_time 1 0 0)
    [("Fajr", "04:30")]%string true
  = Ok [entry "Suhoor" 3 30 true; entry "Fajr" 4 30 true].
Proof. by vm_compute. Qed.

(** Entries at 05:00 (disabled), 12:00 and 15:30: at 13:00 both queries
    give the 15:30 entry, and after the last entry both give none. *)
Example next_prayer_afternoon :
  let d := snapshot [entry "Fajr" 5 0 false; entry "Dhuhr" 12 0 true;
                     entry "Asr" 15 30 true] "2024-03-01" ∅ in
  let now := {| aw_wall := at_time 13 0 0; aw_tz := tz_doha |} in
  let late := {| aw_wall := at_time 20 0 0; aw_tz := tz_doha |} in
  Sensor.NextPrayerSensor._get_next_prayer (Some d) now
    = Some (entry "Asr" 15 30 true)
  ∧ Sensor.AzanCountdownSensor._get_next_prayer (Some d) now
    = Some (entry "Asr" 15 30 true)
  ∧ Sensor.NextPrayerSensor._get_next_prayer (Some d) late = None
  ∧ Sensor.AzanCountdownSensor._get_next_prayer (Some d) late = None.
Proof. by vm_compute. Qed.

(** A disabled entry is the next one for the countdown only. *)
Example next_prayer_disabled :
  let d := snapshot [entry "Sunrise" 5 45 false; entry "Dhuhr" 12 0 true]
                    "2024-03-01" ∅ in
  let now := {| aw_wall := at_time 5 0 0; aw_tz := tz_doha |} in
  Sensor.NextPrayerSensor._get_next_prayer (Some d) now
    = Some (entry "Dhuhr" 12 0 true)
  ∧ Sensor.AzanCountdownSensor._get_next_prayer (Some d) now
    = Some (entry "Sunrise" 5 45 false).
Proof. by vm_compute. Qed.

Example status_both_flags :
  Sensor.AzanStatusSensor.status
    {[ "is_downloading" := PBool true; "is_playing" := PBool true ]}%string
  = "downloading"%string.
Proof. by vm_compute. Qed.

(** The portal adapter: tags are removed from the headers, names go
    through [NAME_MAP], a later header of the same name overwrites. *)
Example fetch_portal :
  Fetch._fetch_qatar_moi
    (Ok (["<b>Fajer</b>"; " Sunrise "; "Zuhr"; "fajr"],
         ["04:30 "; "5:45"; "11:40"; "4:31"])%string)
  = Ok [("Fajr", "4:31"); ("Sunrise", "5:45"); ("Dhuhr", "11:40")]%string.
Proof. by vm_compute. Qed.

(** A 24-hour source with Isha after midnight: Isha stays last, and its
    hour 0 is below 10, so it is read as 12:21. *)
Example normalize_after_midnight :
  Coordinator._normalize_times config_default (at_time 1 0 0)
    raw_after_midnight false
  = Ok [entry "Maghrib" 22 40 true; entry "Isha" 12 21 true].
Proof. by vm_compute. Qed.

(** C1, as stated, fails. With Maghrib ["6:45"] and Isha ["10:15"] from a
    12-hour source, the normaliser returns Maghrib at 18:45 followed by
    Isha at 10:15: the entries are in the order of the prayers, and their
    times are not ascending. *)
Lemma entries_not_time_ascending :
  dict_wf raw_late_isha
  ∧ Coordinator._normalize_times config_default (at_time 1 0 0)
      raw_late_isha false
    = Ok [entry "Maghrib" 18 45 true; entry "Isha" 10 15 true]
  ∧ ¬ time_ascending [entry "Maghrib" 18 45 true; entry "Isha" 10 15 true].
Proof.
  split; [apply (bool_decide_unpack _); by vm_compute|].
  split; [by vm_compute|].
  intros [[H _]%Forall_cons _]%StronglySorted_cons.
  vm_compute in H. by apply H.
Qed.

End worked.

(** ** The theorems at concrete inputs *)

Section instances.
Import Samples.

(** C1 as amended, on a day with Fajr and Isha, in Ramadan. *)
Lemma normalized_entries_canonical_witness :
  let raw := [("Fajr", "04:30"); ("Isha", "7:20")]%string in
  let ps := [entry "Suhoor" 3 30 true; entry "Fajr" 4 30 true;
             entry "Isha" 19 20 true] in
  dict_wf raw
  ∧ Coordinator._normalize_times config_suhoor (at_time 1 0 0) raw true = Ok ps
  ∧ (p_name <$> ps) `sublist_of` CANONICAL_NAMES
  ∧ NoDup (p_name <$> ps)
  ∧ ∀ s f, s ∈ ps → f ∈ ps →
           p_name s = "Suhoor"%string → p_name f = "Fajr"%string →
           (∃ rest, ps = s :: f :: rest)
           ∧ dt_wall (p_time s) =
               dt_wall (p_time f) - suhoor_offset config_suhoor * 60000000
           ∧ (0 < suhoor_offset config_suhoor →
              dt_wall (p_time s) < dt_wall (p_time f)).
Proof.
  intros raw ps.
  assert (dict_wf raw) as Hwf by (apply (bool_decide_unpack _); by vm_compute).
  assert (Coordinator._normalize_times config_suhoor (at_time 1 0 0) raw true
          = Ok ps) as Hn by (by vm_compute).
  split; [exact Hwf|]. split; [exact Hn|].
  exact (normalized_entries_canonical _ _ _ _ _ Hwf Hn).
Defined.

(** C3 on the same day. *)
Lemma suhoor_injection_witness :
  let raw := [("Fajr", "04:30"); ("Isha", "7:20")]%string in
  let ps := [entry "Suhoor" 3 30 true; entry "Fajr" 4 30 true;
             entry "Isha" 19 20 true] in
  dict_wf raw
  ∧ Coordinator._normalize_times config_suhoor (at_time 1 0 0) raw true = Ok ps
  ∧ default false (cfg_suhoor_enabled config_suhoor) = true
  ∧ (default true (cfg_suhoor_ramadan_only config_suhoor) = false ∨ true = true)
  ∧ entry "Fajr" 4 30 true ∈ ps
  ∧ ∃ suhoor rest,
      ps = suhoor :: entry "Fajr" 4 30 true :: rest
      ∧ p_name suhoor = "Suhoor"%string
      ∧ p_enabled suhoor = true
      ∧ p_time suhoor = dt_sub_minutes (p_time (entry "Fajr" 4 30 true))
                                       (suhoor_offset config_suhoor)
      ∧ dt_wall (p_time suhoor) =
          dt_wall (p_time (entry "Fajr" 4 30 true))
          - suhoor_offset config_suhoor * 60000000.
Proof.
  intros raw ps.
  assert (dict_wf raw) as Hwf by (apply (bool_decide_unpack _); by vm_compute).
  assert (Coordinator._normalize_times config_suhoor (at_time 1 0 0) raw true
          = Ok ps) as Hn by (by vm_compute).
  assert (entry "Fajr" 4 30 true ∈ ps) as Hin
    by (apply list_elem_of_further, list_elem_of_here).
  split; [exact Hwf|]. split; [exact Hn|]. split; [reflexivity|].
  split; [by right|]. split; [exact Hin|].
  exact (proj1 (suhoor_injection _ _ _ _ _ Hwf Hn) eq_refl
           (or_intror eq_refl) _ Hin eq_refl).
Defined.

(** C7 on Asr ["3:15"]. *)
Lemma twelve_hour_disambiguation_witness :
  PyStr.split ":" (Coordinator.time_clean "3:15") = ["3"; "15"]%string
  ∧ PyStr.int "3" = Some 3
  ∧ PyStr.int "15" = Some 15
  ∧ "Asr"%string ∈ ["Asr"; "Maghrib"; "Isha"]%string
  ∧ Coordinator.adjust_hour "Asr" 3 = 15
  ∧ ∃ prayer fajr_time',
      Coordinator.loop_body config_default (datetime_now (at_time 1 0 0))
        ([], None) ("Asr", "3:15")%string
      = Ok ([] ++ [prayer], fajr_time')
      ∧ p_name prayer = "Asr"%string
      ∧ dt_hour (p_time prayer) = 15
      ∧ dt_minute (p_time prayer) = 15
      ∧ p_time_str prayer = "15:15"%string.
Proof.
  assert ("Asr"%string ∈ ["Asr"; "Maghrib"; "Isha"]%string) as Hin
    by apply list_elem_of_here.
  pose proof (twelve_hour_disambiguation config_default
                (datetime_now (at_time 1 0 0)) [] None "Asr" "3:15"
                "3" "15" [] 3 15 15 eq_refl eq_refl eq_refl
                (or_introl (conj Hin (conj eq_refl eq_refl))))
    as (Hadj & Hok & _).
  split; [reflexivity|]. split; [reflexivity|]. split; [reflexivity|].
  split; [exact Hin|]. split; [exact Hadj|].
  apply Hok. lia.
Defined.

(** C4 on a second refresh of the same day, after Fajr was played. *)
Lemma refresh_played_today_witness :
  let old := snapshot [entry "Fajr" 4 30 true] "2024-03-01" {["Fajr"%string]} in
  let self := {| co_config := config_default; co_data := Some old;
                 co_last_date := Some "2024-03-01"%string |} in
  let e := env_portal ["Fajr"; "Isha"]%string ["4:31"; "7:20"]%string "2024-03-01" in
  let new := snapshot [entry "Fajr" 4 31 true; entry "Isha" 19 20 true]
                      "2024-03-01" {["Fajr"%string]} in
  _async_update_data self e = (Ok new, self)
  ∧ date new = env_today e
  ∧ played_today new = played_today old.
Proof.
  intros old self e new.
  assert (_async_update_data self e = (Ok new, self)) as Hr by (by vm_compute).
  destruct (refresh_played_today self self e new Hr) as (Hd & Hsame & _ & _).
  split; [exact Hr|]. split; [exact Hd|].
  exact (Hsame old eq_refl eq_refl).
Defined.

(** C5 with the portal unreachable on the next day. *)
Lemma failed_fetch_keeps_snapshot_witness :
  let old := snapshot [entry "Fajr" 4 30 true] "2024-03-01" {["Fajr"%string]} in
  let self := {| co_config := config_default; co_data := Some old;
                 co_last_date := Some "2024-03-01"%string |} in
  let e := env_portal_down "2024-03-02" in
  Fetch.fetch (co_config self) e = Raise ClientError
  ∧ _async_update_data self e = (Raise (UpdateFailed_fetch ClientError), self)
  ∧ is_UpdateFailed (UpdateFailed_fetch ClientError) = true
  ∧ co_data (_async_update_data self e).2 = co_data self.
Proof.
  intros old self e.
  assert (Fetch.fetch (co_config self) e = Raise ClientError) as Hf
    by reflexivity.
  split; [exact Hf|].
  exact (failed_fetch_keeps_snapshot self e ClientError Hf).
Defined.

(** C8 with the clock passing the entry between the two readings. *)
Lemma countdown_never_negative_witness :
  let prayer := entry "Dhuhr" 12 0 true in
  let data := Some (snapshot [prayer] "2024-03-01" ∅) in
  let now1 := {| aw_wall := at_time 11 59 59; aw_tz := tz_doha |} in
  let now2 := {| aw_wall := at_time 12 0 1; aw_tz := tz_doha |} in
  let attrs :=
    Sensor.AzanCountdownSensor.extra_state_attributes data now1 now2 in
  Sensor.AzanCountdownSensor._get_next_prayer data now1 = Some prayer
  ∧ aware_gt (Sensor.localize (p_time prayer) now2) now2 = false
  ∧ Sensor.AzanCountdownSensor.native_value data now1 now2 = Some 0
  ∧ attrs !! "hours"%string = Some (PInt 0)
  ∧ attrs !! "minutes"%string = Some (PInt 0)
  ∧ attrs !! "seconds"%string = Some (PInt 0).
Proof.
  intros prayer data now1 now2 attrs.
  assert (Sensor.AzanCountdownSensor._get_next_prayer data now1 = Some prayer)
    as Hp by (by vm_compute).
  assert (aware_gt (Sensor.localize (p_time prayer) now2) now2 = false)
    as Hpast by (by vm_compute).
  split; [exact Hp|]. split; [exact Hpast|].
  exact (proj2 (proj2 (countdown_never_negative data now1 now2)) prayer Hp Hpast).
Defined.

(** C6 on three entries at 13:00. *)
Lemma next_prayer_queries_witness :
  let d := snapshot [entry "Fajr" 5 0 false; entry "Dhuhr" 12 0 true;
                     entry "Asr" 15 30 true] "2024-03-01" ∅ in
  let now := {| aw_wall := at_time 13 0 0; aw_tz := tz_doha |} in
  dt_tzinfo (p_time (entry "Asr" 15 30 true)) = None
  ∧ aw_tz (Sensor.localize (p_time (entry "Asr" 15 30 true)) now) = aw_tz now
  ∧ (upcoming now (entry "Asr" 15 30 true)
     ↔ aw_wall now < dt_wall (p_time (entry "Asr" 15 30 true)))
  ∧ first_such (λ p, p_enabled p = true ∧ upcoming now p) (prayers d)
               (Some (entry "Asr" 15 30 true)).
Proof.
  intros d now.
  destruct (next_prayer_queries d now) as (Hen & _ & Htz).
  split; [reflexivity|].
  destruct (Htz (entry "Asr" 15 30 true) eq_refl) as [H1 H2].
  split; [exact H1|]. split; [exact H2|]. exact Hen.
Defined.

End instances.

(** ** The string primitives on examples *)

(** [format_02d] writes a number below 100 with exactly two digits; the
    fuel of [digits_of] is enough there. *)
Lemma format_02d_two_digits n :
  0 ≤ n < 100 →
  PyStr.format_02d n =
    String (ascii_of_nat (Z.to_nat (48 + n / 10)))
      (String (ascii_of_nat (Z.to_nat (48 + n mod 10))) EmptyString).
Proof.
  intros Hn. replace n with (Z.of_nat (Z.to_nat n)) by lia.
  assert (Z.to_nat n < 100)%nat as Hk by lia.
  revert Hk. generalize (Z.to_nat n). clear.
  intros k Hk. do 100 (destruct k as [|k]; [by vm_compute|]). lia.
Qed.

Example strip_ex : PyStr.strip "  04:30 (AST) " = "04:30 (AST)"%string.
Proof. reflexivity. Qed.
Example split_ex1 : PyStr.split ":" "4:30" = ["4"; "30"]%string.
Proof. reflexivity. Qed.
Example split_ex2 : PyStr.split ":" "" = [""]%string.
Proof. reflexivity. Qed.
Example split_ex3 : PyStr.split ":" "a:" = ["a"; ""]%string.
Proof. reflexivity. Qed.
Example int_ex1 : PyStr.int "04" = Some 4.
Proof. reflexivity. Qed.
Example int_ex2 : PyStr.int "3a" = None.
Proof. reflexivity. Qed.
Example int_ex3 : PyStr.int " -1_0 " = Some (-10).
Proof. reflexivity. Qed.
Example int_ex4 : PyStr.int "1__0" = None ∧ PyStr.int "_1" = None ∧ PyStr.int "" = None.
Proof. repeat split; reflexivity. Qed.
Example format_ex : PyStr.format_02d 4 = "04"%string ∧ PyStr.format_02d 15 = "15"%string
  ∧ PyStr.format_02d 0 = "00"%string ∧ PyStr.format_02d 123 = "123"%string.
Proof. repeat split; reflexivity. Qed.


(** * Further properties *)

(** ** The normaliser: which raw entries matter *)

Section relevant_entries.
Import Coordinator.

Lemma loop_body_irrelevant config now st e :
  is_relevant e = false → loop_body config now st e = Ok st.
Proof.
  destruct st as [prayers fajr_time], e as [name time_str].
  unfold is_relevant, loop_body. cbn [fst snd].
  destruct (str_in name PRAYER_ORDER); cbn [negb andb]; [|done].
  destruct (PyStr.split ":" (time_clean time_str)) as [|part0 [|part1 rest]];
    done.
Qed.

Lemma loop_filter_relevant config now entries st :
  loop config now (filter (λ e, is_relevant e) entries) st
  = loop config now entries st.
Proof.
  revert st. induction entries as [|e rest IH]; intros st; [done|].
  rewrite filter_cons, loop_cons. case_decide as He.
  - rewrite loop_cons.
    destruct (loop_body config now st e); simpl; [apply IH|done].
  - rewrite loop_body_irrelevant by (by destruct (is_relevant e)).
    simpl. apply IH.
Qed.

Lemma insert_by_least {A} (key : A → nat) x l :
  Forall (λ y, (key x ≤ key y)%nat) l → insert_by key x l = x :: l.
Proof.
  destruct 1 as [|y l Hy _]; simpl; [done|].
  by rewrite (proj2 (Nat.leb_le _ _) Hy).
Qed.

Lemma filter_insert_by {A} (key : A → nat) (P : A → Prop)
    `{!∀ x, Decision (P x)} x l :
  StronglySorted (λ a b, (key a ≤ key b)%nat) l →
  filter P (insert_by key x l) =
    if decide (P x) then insert_by key x (filter P l) else filter P l.
Proof.
  induction 1 as [|y l Hl IH Hy]; simpl.
  - rewrite filter_cons, filter_nil. by destruct (decide (P x)).
  - destruct (Nat.leb_spec (key x) (key y)) as [Hle|Hgt].
    + rewrite (filter_cons _ x). destruct (decide (P x)) as [Hx|Hx]; [|done].
      rewrite (filter_cons _ y). destruct (decide (P y)) as [Hpy|Hpy]; simpl.
      * by rewrite (proj2 (Nat.leb_le _ _) Hle).
      * rewrite insert_by_least; [done|].
        rewrite Forall_forall in Hy |- *. intros z [_ Hz]%list_elem_of_filter.
        specialize (Hy z Hz). simpl in Hy. lia.
    + rewrite !(filter_cons _ y), IH.
      destruct (decide (P y)) as [Hpy|Hpy]; [|done].
      destruct (decide (P x)) as [Hx|Hx]; [|done]. simpl.
      by rewrite (proj2 (Nat.leb_gt _ _) Hgt).
Qed.

(** Filtering commutes with the stable sort. *)
Lemma filter_sorted {A} (key : A → nat) (P : A → Prop)
    `{!∀ x, Decision (P x)} l :
  filter P (sorted l key) = sorted (filter P l) key.
Proof.
  unfold sorted. induction l as [|x l IH]; simpl; [done|].
  rewrite filter_insert_by by apply (sorted_StronglySorted key).
  unfold sorted in IH. rewrite IH, filter_cons.
  by destruct (decide (P x)).
Qed.

(** The normaliser reads the relevant entries only. *)
Lemma normalize_times_filter_relevant config clock (raw : pydict) is_ramadan :
  _normalize_times config clock (filter (λ e, is_relevant e) raw) is_ramadan
  = _normalize_times config clock raw is_ramadan.
Proof.
  unfold _normalize_times. cbv zeta.
  rewrite <- (filter_sorted order_key (λ e, is_relevant e) raw).
  by rewrite loop_filter_relevant.
Qed.

(** X1. An entry whose name is not one of the six prayers, or whose cleaned
    value has no colon, can be taken out of [raw], wherever it stands,
    without changing what the normaliser returns or raises. *)
Theorem irrelevant_entry_ignored config clock (raw1 raw2 : pydict) e is_ramadan :
  is_relevant e = false →
  _normalize_times config clock (raw1 ++ e :: raw2) is_ramadan
  = _normalize_times config clock (raw1 ++ raw2) is_ramadan.
Proof.
  intros He.
  rewrite <- (normalize_times_filter_relevant _ _ (raw1 ++ e :: raw2)).
  rewrite <- (normalize_times_filter_relevant _ _ (raw1 ++ raw2)).
  unfold pydict in *.
  rewrite !filter_app, filter_cons. rewrite decide_False; [done|].
  rewrite He. by intros [].
Qed.

Lemma list_index_inj x y l :
  x ∈ l → y ∈ l → list_index x l = list_index y l → x = y.
Proof.
  induction l as [|a l IH]; [by intros ?%elem_of_nil|].
  intros Hx Hy. simpl.
  destruct (String.eqb_spec x a) as [->|Hxa], (String.eqb_spec y a) as [->|Hya];
    try done.
  intros [= Heq]. apply IH; [| |done].
  - by apply elem_of_cons in Hx as [?|?].
  - by apply elem_of_cons in Hy as [?|?].
Qed.

Lemma dict_wf_functional (d : pydict) k v1 v2 :
  dict_wf d → (k, v1) ∈ d → (k, v2) ∈ d → v1 = v2.
Proof.
  unfold dict_wf. induction d as [|[k' v'] d IH]; [by intros _ ?%elem_of_nil|].
  csimpl. intros [Hk Hd]%NoDup_cons H1 H2.
  apply elem_of_cons in H1 as [H1|H1], H2 as [H2|H2]; simplify_eq.
  - done.
  - destruct Hk. by apply (list_elem_of_fmap_2 fst) in H2.
  - destruct Hk. by apply (list_elem_of_fmap_2 fst) in H1.
  - by apply IH.
Qed.

(** X2. The result does not depend on the order in which the dictionary
    was filled: two dictionaries with the same items give the same
    entries, or raise alike. *)
Theorem normalize_times_order_independent config clock (raw raw' : pydict)
    is_ramadan :
  dict_wf raw → raw ≡ₚ raw' →
  _normalize_times config clock raw is_ramadan
  = _normalize_times config clock raw' is_ramadan.
Proof.
  intros Hwf Hperm.
  rewrite <- (normalize_times_filter_relevant _ _ raw).
  rewrite <- (normalize_times_filter_relevant _ _ raw').
  unfold _normalize_times.
  assert (sorted (filter (λ e, is_relevant e) raw) order_key
          = sorted (filter (λ e, is_relevant e) raw') order_key) as ->; [|done].
  apply (StronglySorted_unique_strong
           (λ a b : string * string, (order_key a ≤ order_key b)%nat)).
  - intros [k1 v1] [k2 v2] H1 H2 Hle Hge.
    rewrite sorted_Permutation in H1, H2.
    apply list_elem_of_filter in H1 as [Hr1 H1], H2 as [Hr2 H2].
    rewrite <- Hperm in H2.
    apply Is_true_true, andb_true_iff in Hr1 as [Hin1%str_in_elem_of _].
    apply Is_true_true, andb_true_iff in Hr2 as [Hin2%str_in_elem_of _].
    rewrite !order_key_name in Hle, Hge by done. cbn [fst] in Hle, Hge.
    assert (k1 = k2) as ->
      by (apply (list_index_inj _ _ PRAYER_ORDER); [done..|lia]).
    f_equal. by eapply dict_wf_functional.
  - apply sorted_StronglySorted.
  - apply sorted_StronglySorted.
  - rewrite !sorted_Permutation. by rewrite Hperm.
Qed.

End relevant_entries.

(** ** The normaliser: where the entries come from *)

Section provenance.
Import Coordinator.

Lemma loop_body_appends config now prayers fajr_time name time_str st :
  loop_body config now (prayers, fajr_time) (name, time_str) = Ok st →
  st = (prayers, fajr_time)
  ∨ ∃ hour minute,
      name ∈ PRAYER_ORDER ∧ parses_to time_str hour minute
      ∧ 0 ≤ adjust_hour name hour ≤ 23 ∧ 0 ≤ minute ≤ 59
      ∧ st = (prayers ++ [entry_of config now name (adjust_hour name hour) minute],
              if String.eqb name "Fajr"
              then Some (p_time (entry_of config now name
                                          (adjust_hour name hour) minute))
              else fajr_time).
Proof.
  destruct (str_in name PRAYER_ORDER) eqn:Hin.
  2:{ rewrite loop_body_irrelevant; [intros [= <-]; by left|].
      unfold is_relevant. cbn [fst snd]. by rewrite Hin. }
  apply str_in_elem_of in Hin.
  destruct (PyStr.split ":" (time_clean time_str)) as [|part0 [|part1 rest]] eqn:Hs.
  1,2: rewrite loop_body_irrelevant;
    [intros [= <-]; by left|unfold is_relevant; cbn [fst snd]; rewrite Hs;
                             by apply andb_false_intro2].
  destruct (PyStr.int part0) as [hour|] eqn:H0.
  2:{ unfold loop_body. rewrite (proj2 (str_in_elem_of _ _) Hin), Hs.
      unfold int. by rewrite H0. }
  destruct (PyStr.int part1) as [minute|] eqn:H1.
  2:{ unfold loop_body. rewrite (proj2 (str_in_elem_of _ _) Hin), Hs.
      unfold int. by rewrite H0, H1. }
  rewrite (loop_body_parsed _ _ _ _ _ _ _ _ _ _ _ Hin Hs H0 H1).
  destruct (dt_replace_hm now (adjust_hour name hour) minute) as [t|] eqn:Hr;
    simpl; [|done].
  apply dt_replace_hm_inv in Hr as (Hh & Hm & ->).
  intros [= <-]. right. exists hour, minute.
  repeat split; try done; try lia. by exists part0, part1, rest.
Qed.

Lemma read_from_cons config now e entries p :
  read_from config now entries p → read_from config now (e :: entries) p.
Proof.
  intros (ts & h & m & Hin & ?). exists ts, h, m. split; [by right|done].
Qed.

Lemma loop_provenance config now entries prayers fajr_time prayers' fajr_time' :
  loop config now entries (prayers, fajr_time) = Ok (prayers', fajr_time') →
  ∃ kept, prayers' = prayers ++ kept
          ∧ fajr_time' = last_fajr kept fajr_time
          ∧ Forall (read_from config now entries) kept.
Proof.
  revert prayers fajr_time.
  induction entries as [|[name time_str] rest IH]; intros prayers fajr_time.
  - intros [= <- <-]. exists []. by rewrite app_nil_r.
  - rewrite loop_cons.
    destruct (loop_body config now (prayers, fajr_time) (name, time_str))
      as [st|] eqn:Hb; simpl; [|done].
    apply loop_body_appends in Hb
      as [->|(hour & minute & Hin & Hp & Hh & Hm & ->)]; intros Hl.
    + apply IH in Hl as (kept & -> & -> & Hall).
      exists kept. repeat split.
      eapply Forall_impl; [exact Hall|]. intros p. apply read_from_cons.
    + apply IH in Hl as (kept & -> & -> & Hall).
      exists (entry_of config now name (adjust_hour name hour) minute :: kept).
      rewrite <- app_assoc. repeat split. constructor.
      * exists time_str, hour, minute. simpl. repeat split; try done; try lia.
        by left.
      * eapply Forall_impl; [exact Hall|]. intros p. apply read_from_cons.
Qed.

Lemma loop_complete config now entries st st' name time_str hour minute :
  loop config now entries st = Ok st' →
  (name, time_str) ∈ entries → name ∈ PRAYER_ORDER →
  parses_to time_str hour minute →
  entry_of config now name (adjust_hour name hour) minute ∈ st'.1.
Proof.
  intros Hl Hin Hname (part0 & part1 & rest & Hs & H0 & H1).
  revert st Hl. induction entries as [|e entries IH]; intros [prayers fajr_time];
    [by apply elem_of_nil in Hin|].
  rewrite loop_cons.
  destruct (loop_body config now (prayers, fajr_time) e) as [[ps1 ft1]|] eqn:Hb;
    simpl; [|done].
  apply elem_of_cons in Hin as [<-|Hin]; [|by apply IH].
  rewrite (loop_body_parsed _ _ _ _ _ _ _ _ _ _ _ Hname Hs H0 H1) in Hb.
  destruct (dt_replace_hm now (adjust_hour name hour) minute); simpl in Hb;
    [|done].
  injection Hb as <- <-. destruct st' as [prayers' fajr_time'].
  intros (kept & -> & _)%loop_Ok. simpl.
  apply elem_of_app. left. apply elem_of_app. right. by left.
Qed.

Lemma list_elem_of_insert_at {A} i (x y : A) l :
  y ∈ list_insert_at i x l ↔ y = x ∨ y ∈ l.
Proof.
  unfold list_insert_at. rewrite elem_of_app, elem_of_cons.
  rewrite <- (take_drop i l) at 3. rewrite elem_of_app. tauto.
Qed.

(** The injection leaves the list, or adds the entry computed from the
    recorded Fajr time. *)
Lemma elem_of_inject_suhoor config is_ramadan kept fajr_time p :
  p ∈ inject_suhoor config is_ramadan (kept, fajr_time) ↔
  p ∈ kept
  ∨ ∃ t, fajr_time = Some t ∧ suhoor_due config is_ramadan = true
         ∧ p = suhoor_at config t.
Proof.
  unfold inject_suhoor, suhoor_due.
  destruct (default false (cfg_suhoor_enabled config)); simpl.
  2:{ split; [by left|]. by intros [?|(? & _ & [=] & _)]. }
  destruct fajr_time as [t|].
  2:{ split; [by left|]. by intros [?|(? & [=] & _)]. }
  destruct (negb (default true (cfg_suhoor_ramadan_only config)) || is_ramadan).
  - rewrite list_elem_of_insert_at. split.
    + intros [->|?]; [right; by exists t|by left].
    + intros [?|(t' & [= <-] & _ & ->)]; [by right|by left].
  - split; [by left|]. by intros [?|(? & _ & [=] & _)].
Qed.

Lemma last_fajr_Some kept fajr_time t :
  last_fajr kept fajr_time = Some t →
  fajr_time = Some t
  ∨ ∃ f, f ∈ kept ∧ p_name f = "Fajr"%string ∧ t = p_time f.
Proof.
  unfold last_fajr. revert fajr_time.
  induction kept as [|p kept IH]; intros fajr_time; simpl; [by left|].
  intros [Heq|(f & Hf & Hname & ->)]%IH.
  - destruct (String.eqb_spec (p_name p) "Fajr"); [|by left].
    injection Heq as <-. right. exists p. repeat split; [by left|done].
  - right. exists f. repeat split; [by right|done].
Qed.

Lemma last_fajr_None kept fajr_time :
  last_fajr kept fajr_time = None →
  fajr_time = None ∧ Forall (λ p, p_name p ≠ "Fajr"%string) kept.
Proof.
  unfold last_fajr. revert fajr_time.
  induction kept as [|p kept IH]; intros fajr_time; simpl; [by split|].
  intros [Heq Hall]%IH.
  destruct (String.eqb_spec (p_name p) "Fajr"); [done|].
  split; [done|]. by constructor.
Qed.

Lemma last_fajr_present kept fajr_time f :
  f ∈ kept → p_name f = "Fajr"%string →
  ∃ t, last_fajr kept fajr_time = Some t.
Proof.
  intros Hin Hname. destruct (last_fajr kept fajr_time) as [t|] eqn:Hl;
    [by exists t|].
  apply last_fajr_None in Hl as [_ Hall]. rewrite Forall_forall in Hall.
  by destruct (Hall f Hin).
Qed.

(** The state with which the normaliser ends its loop. *)
Lemma normalize_times_kept config clock (raw : pydict) is_ramadan ps :
  _normalize_times config clock raw is_ramadan = Ok ps →
  ∃ kept, loop config (datetime_now clock) (sorted raw order_key) ([], None)
          = Ok (kept, last_fajr kept None)
          ∧ ps = inject_suhoor config is_ramadan (kept, last_fajr kept None)
          ∧ Forall (read_from config (datetime_now clock) raw) kept.
Proof.
  unfold _normalize_times.
  destruct (loop config (datetime_now clock) (sorted raw order_key) ([], None))
    as [[kept ft]|] eqn:Hl; simpl; [|done].
  intros [= <-].
  pose proof Hl as (kept' & Hk & -> & Hall)%loop_provenance. simpl in Hk.
  subst kept'. exists kept. repeat split.
  eapply Forall_impl; [exact Hall|].
  intros p (ts & h & m & Hin & Hrest). exists ts, h, m. split; [|done].
  by rewrite (sorted_Permutation order_key raw) in Hin.
Qed.

(** X3. The entries of the output other than Suhoor are exactly the items
    of [raw] that have one of the six names and two integer components:
    each such item gives the entry with its name, its adjusted hour and its
    minute, and nothing else is in the list. *)
Theorem normalized_entry_iff config clock (raw : pydict) is_ramadan ps p :
  _normalize_times config clock raw is_ramadan = Ok ps →
  p_name p ≠ "Suhoor"%string →
  p ∈ ps ↔
  ∃ time_str hour minute,
    (p_name p, time_str) ∈ raw
    ∧ p_name p ∈ PRAYER_ORDER
    ∧ parses_to time_str hour minute
    ∧ p = entry_of config (datetime_now clock) (p_name p)
                   (adjust_hour (p_name p) hour) minute.
Proof.
  intros Hn Hname.
  apply normalize_times_kept in Hn as (kept & Hl & -> & Hall).
  rewrite elem_of_inject_suhoor. split.
  - intros [Hin|(t & _ & _ & ->)]; [|done].
    rewrite Forall_forall in Hall.
    destruct (Hall p Hin) as (ts & h & m & ? & ? & ? & _ & _ & ?).
    by exists ts, h, m.
  - intros (ts & h & m & Hin & Hord & Hp & ->). left. simpl in *.
    apply (loop_complete _ _ _ _ _ _ ts h m Hl); [|done..].
    by rewrite (sorted_Permutation order_key raw).
Qed.

End provenance.

(** ** The normaliser: what every entry satisfies *)

Section entries.
Import Coordinator.

Lemma read_from_name config now entries p :
  read_from config now entries p → p_name p ∈ PRAYER_ORDER.
Proof. by intros (? & ? & ? & _ & ? & _). Qed.

Lemma not_Suhoor_in_PRAYER_ORDER : "Suhoor"%string ∉ PRAYER_ORDER.
Proof. by apply str_in_not_elem_of. Qed.

(** X4. The output has a Suhoor entry exactly when the configuration asks
    for one (enabled, and not limited to Ramadan or in Ramadan) and the
    output has a Fajr entry. *)
Theorem suhoor_present_iff config clock (raw : pydict) is_ramadan ps :
  _normalize_times config clock raw is_ramadan = Ok ps →
  (∃ s, s ∈ ps ∧ p_name s = "Suhoor"%string) ↔
  suhoor_due config is_ramadan = true
  ∧ ∃ f, f ∈ ps ∧ p_name f = "Fajr"%string.
Proof.
  intros (kept & _ & -> & Hall)%normalize_times_kept.
  rewrite Forall_forall in Hall. split.
  - intros (s & [Hin|(t & Ht & Hdue & ->)]%elem_of_inject_suhoor & Hname).
    { apply Hall, read_from_name in Hin. rewrite Hname in Hin.
      by apply not_Suhoor_in_PRAYER_ORDER in Hin. }
    split; [done|].
    apply last_fajr_Some in Ht as [[=]|(f & Hf & Hfn & _)].
    exists f. split; [|done]. apply elem_of_inject_suhoor. by left.
  - intros (Hdue & f & [Hin|(t & _ & _ & ->)]%elem_of_inject_suhoor & Hname);
      [|done].
    destruct (last_fajr_present kept None f Hin Hname) as [t Ht].
    exists (suhoor_at config t). split; [|done].
    apply elem_of_inject_suhoor. right. by exists t.
Qed.

Lemma dt_sub_minutes_fields t m :
  dt_second t = 0 → dt_microsecond t = 0 →
  0 ≤ dt_hour (dt_sub_minutes t m) ≤ 23
  ∧ 0 ≤ dt_minute (dt_sub_minutes t m) ≤ 59
  ∧ dt_second (dt_sub_minutes t m) = 0
  ∧ dt_microsecond (dt_sub_minutes t m) = 0
  ∧ dt_tzinfo (dt_sub_minutes t m) = dt_tzinfo t.
Proof.
  intros Hs Hus. unfold dt_sub_minutes.
  set (k := (dt_date t * 24 + dt_hour t) * 60 + dt_minute t - m).
  assert (dt_wall t - m * 60000000 = k * 60 * 1000000) as ->
    by (unfold dt_wall, k; rewrite Hs, Hus; lia).
  unfold dt_of_wall. cbn [dt_hour dt_minute dt_second dt_microsecond dt_tzinfo].
  rewrite Z.div_mul, !Z.mod_mul by lia.
  pose proof (Z.mod_pos_bound (k * 60 * 1000000 / 3600000000) 24 ltac:(lia)).
  pose proof (Z.mod_pos_bound (k * 60 * 1000000 / 60000000) 60 ltac:(lia)).
  repeat split; lia.
Qed.

Lemma time_str_length h m :
  0 ≤ h ≤ 23 → 0 ≤ m ≤ 59 →
  String.length (PyStr.format_02d h +:+ ":" +:+ PyStr.format_02d m) = 5%nat.
Proof.
  intros Hh Hm. by rewrite !format_02d_two_digits by lia.
Qed.

(** X5. Every entry of the output carries a naive time of day at a whole
    minute (hour in 0..23, minute in 0..59, no seconds), and its
    [time_str] is that hour and minute written ["HH:MM"], five characters
    long. *)
Theorem entry_time_and_time_str config clock (raw : pydict) is_ramadan ps p :
  _normalize_times config clock raw is_ramadan = Ok ps →
  p ∈ ps →
  0 ≤ dt_hour (p_time p) ≤ 23
  ∧ 0 ≤ dt_minute (p_time p) ≤ 59
  ∧ dt_second (p_time p) = 0
  ∧ dt_microsecond (p_time p) = 0
  ∧ dt_tzinfo (p_time p) = None
  ∧ p_time_str p = PyStr.format_02d (dt_hour (p_time p)) +:+ ":"
                   +:+ PyStr.format_02d (dt_minute (p_time p))
  ∧ String.length (p_time_str p) = 5%nat.
Proof.
  intros (kept & _ & -> & Hall)%normalize_times_kept.
  rewrite Forall_forall in Hall.
  assert (∀ q, q ∈ kept →
               0 ≤ dt_hour (p_time q) ≤ 23 ∧ 0 ≤ dt_minute (p_time q) ≤ 59
               ∧ dt_second (p_time q) = 0 ∧ dt_microsecond (p_time q) = 0
               ∧ dt_tzinfo (p_time q) = None
               ∧ p_time_str q = PyStr.format_02d (dt_hour (p_time q)) +:+ ":"
                                +:+ PyStr.format_02d (dt_minute (p_time q)))
    as Hkept.
  { intros q (ts & h & m & _ & _ & _ & Hh & Hm & ->)%Hall. simpl.
    repeat split; done || lia. }
  intros [Hin|(t & Ht & _ & ->)]%elem_of_inject_suhoor.
  - destruct (Hkept p Hin) as (Hh & Hm & Hs & Hus & Htz & Hstr).
    repeat split; try done; try lia.
    rewrite Hstr. by apply time_str_length.
  - apply last_fajr_Some in Ht as [[=]|(f & Hf & _ & ->)].
    destruct (Hkept f Hf) as (_ & _ & Hs & Hus & Htz & _).
    destruct (dt_sub_minutes_fields (p_time f) (suhoor_offset config) Hs Hus)
      as (Hh' & Hm' & Hs' & Hus' & Htz').
    unfold suhoor_at. cbn [p_time p_time_str].
    repeat split; try done; try lia; try congruence.
    by apply time_str_length.
Qed.

(** X6. The [enabled] flag of an entry is the toggle of its name in the
    configuration: on by default for Fajr, Dhuhr, Asr, Maghrib and Isha,
    off by default for Sunrise; a Suhoor entry is always enabled. *)
Theorem entry_enabled_flag config clock (raw : pydict) is_ramadan ps p :
  _normalize_times config clock raw is_ramadan = Ok ps →
  p ∈ ps →
  (p_name p = "Suhoor"%string → p_enabled p = true)
  ∧ (p_name p = "Fajr"%string →
     p_enabled p = default true (cfg_prayer_fajr config))
  ∧ (p_name p = "Sunrise"%string →
     p_enabled p = default false (cfg_prayer_sunrise config))
  ∧ (p_name p = "Dhuhr"%string →
     p_enabled p = default true (cfg_prayer_dhuhr config))
  ∧ (p_name p = "Asr"%string →
     p_enabled p = default true (cfg_prayer_asr config))
  ∧ (p_name p = "Maghrib"%string →
     p_enabled p = default true (cfg_prayer_maghrib config))
  ∧ (p_name p = "Isha"%string →
     p_enabled p = default true (cfg_prayer_isha config)).
Proof.
  intros (kept & _ & -> & Hall)%normalize_times_kept.
  rewrite Forall_forall in Hall.
  intros [Hin|(t & _ & _ & ->)]%elem_of_inject_suhoor.
  - pose proof (read_from_name _ _ _ _ (Hall p Hin)) as Hord.
    destruct (Hall p Hin) as (ts & h & m & _ & _ & _ & _ & _ & Hp).
    rewrite Hp. simpl.
    split; [intros Hs; rewrite Hs in Hord;
            by apply not_Suhoor_in_PRAYER_ORDER in Hord|].
    repeat split; intros ->; reflexivity.
  - simpl. repeat split; done.
Qed.


End entries.

(** ** The adapters *)

Section adapters.

Lemma elem_of_dict_set k v k0 v0 (d : pydict) :
  dict_wf d →
  (k, v) ∈ dict_set k0 v0 d ↔
  (k = k0 ∧ v = v0) ∨ (k ≠ k0 ∧ (k, v) ∈ d).
Proof.
  unfold dict_wf. induction d as [|[k' v'] d IH]; csimpl.
  - intros _. rewrite list_elem_of_singleton. split.
    + intros [= -> ->]. by left.
    + intros [[-> ->]|[_ ?%elem_of_nil]]; done.
  - intros [Hk' Hd]%NoDup_cons.
    destruct (String.eqb_spec k0 k') as [->|Hne].
    + rewrite !elem_of_cons. split.
      * intros [[= -> ->]|Hin]; [by left|].
        right. split; [|by right]. intros ->. destruct Hk'.
        by apply (list_elem_of_fmap_2 fst) in Hin.
      * intros [[-> ->]|[Hne [[= -> ->]|Hin]]]; [by left|done|by right].
    + rewrite !elem_of_cons, IH by done. split.
      * intros [[= -> ->]|[[-> ->]|[? ?]]].
        -- right. split; [done|by left].
        -- by left.
        -- right. split; [done|by right].
      * intros [[-> ->]|[Hk [[= -> ->]|Hin]]].
        -- right. by left.
        -- by left.
        -- right. right. by split.
Qed.

(** The loop over the indices pairs the headers with the cells by
    position: it is a fold over [zip]. *)
Lemma pair_loop_zip i headers cells times :
  Fetch.pair_loop i headers cells times =
  foldl (λ d hc, dict_set (canonical_key hc.1) hc.2 d) times
        (zip headers (drop i cells)).
Proof.
  revert i times. induction headers as [|h hs IH]; intros i times; [done|].
  simpl Fetch.pair_loop. rewrite IH.
  destruct (cells !! i) as [c|] eqn:Hc.
  - by rewrite (drop_S _ _ _ Hc).
  - apply lookup_ge_None in Hc.
    rewrite !drop_ge by lia. by destruct hs.
Qed.

Lemma foldl_dict_set_wf (l : list (string * string)) (d : pydict) :
  dict_wf d →
  dict_wf (foldl (λ d hc, dict_set (canonical_key hc.1) hc.2 d) d l).
Proof.
  revert d. induction l as [|hc l IH]; intros d Hd; simpl; [done|].
  apply IH. by apply dict_set_wf.
Qed.

Lemma elem_of_foldl_dict_set k v (l : list (string * string)) (d : pydict) :
  dict_wf d →
  (k, v) ∈ foldl (λ d hc, dict_set (canonical_key hc.1) hc.2 d) d l ↔
  (∃ pre h post, l = pre ++ (h, v) :: post ∧ canonical_key h = k
                 ∧ Forall (λ hc, canonical_key hc.1 ≠ k) post)
  ∨ ((k, v) ∈ d ∧ Forall (λ hc, canonical_key hc.1 ≠ k) l).
Proof.
  revert d. induction l as [|[h c] l IH]; intros d Hd; simpl.
  - split; [intros ?; right; by split|].
    intros [(pre & ? & ? & Heq & _)|[? _]]; [by destruct pre|done].
  - rewrite IH by (by apply dict_set_wf).
    rewrite elem_of_dict_set by done. simpl. split.
    + intros [(pre & h' & post & -> & Hk & Hpost)|[[[-> ->]|[Hne Hin]] Hall]].
      * left. by exists ((h, c) :: pre), h', post.
      * left. by exists [], h, l.
      * right. split; [done|]. constructor; [by intros <-|done].
    + intros [(pre & h' & post & Heq & Hk & Hpost)|[Hin Hall]].
      * destruct pre as [|x pre]; simpl in Heq.
        -- simplify_eq. right. split; [by left|done].
        -- simplify_eq. left. by exists pre, h', post.
      * apply Forall_cons in Hall as [Hne Hall]. simpl in Hne.
        right. split; [|done]. right. split; [by intros ->|done].
Qed.

(** X8. When the portal adapter returns, its dictionary is not empty and
    has distinct keys; headers and cells are paired by position (a header
    without a cell, or a cell without a header, is left out), and the
    value of a key is the cell of the last header filed under that key. *)
Theorem fetch_qatar_moi_times th td times :
  Fetch._fetch_qatar_moi (Ok (th, td)) = Ok times →
  times ≠ []
  ∧ dict_wf times
  ∧ ∀ k v, (k, v) ∈ times ↔
           ∃ pre h post,
             zip (portal_headers th) (portal_cells td) = pre ++ (h, v) :: post
             ∧ canonical_key h = k
             ∧ Forall (λ hc, canonical_key hc.1 ≠ k) post.
Proof.
  unfold Fetch._fetch_qatar_moi. simpl.
  fold (portal_headers th). fold (portal_cells td).
  destruct (Fetch.pair_loop 0 (portal_headers th) (portal_cells td) [])
    as [|x times'] eqn:Hl; [done|].
  intros [= <-]. rewrite <- Hl. split; [by rewrite Hl|].
  split; [apply pair_loop_wf; constructor|].
  intros k v. rewrite pair_loop_zip, drop_0.
  rewrite elem_of_foldl_dict_set by constructor. split.
  - by intros [?|[?%elem_of_nil _]].
  - by left.
Qed.

(** X9. When the API adapter returns, its dictionary has exactly the six
    names as keys, in the order of the prayers, each with the value of the
    timings (other timings are left out); and of the Hijri fields a later
    one is present only if the earlier ones are. *)
Theorem fetch_aladhan_times resp raw hijri_info :
  Fetch._fetch_aladhan resp = Ok (raw, hijri_info) →
  ∃ body timings,
    resp = Ok body ∧ ab_timings body = Ok timings
    ∧ raw.*1 = PRAYER_ORDER
    ∧ (∀ name v, (name, v) ∈ raw ↔
                 name ∈ PRAYER_ORDER ∧ timings !! name = Some v)
    ∧ (is_Some (hi_day hijri_info) → is_Some (hi_month hijri_info))
    ∧ (is_Some (hi_month_name hijri_info) → is_Some (hi_day hijri_info)).
Proof.
  unfold Fetch._fetch_aladhan. destruct resp as [body|]; simpl; [|done].
  destruct (ab_timings body) as [t|] eqn:Ht; simpl; [|done].
  unfold Fetch.subscript.
  destruct (t !! "Fajr"%string) as [v1|] eqn:H1; simpl; [|done].
  destruct (t !! "Sunrise"%string) as [v2|] eqn:H2; simpl; [|done].
  destruct (t !! "Dhuhr"%string) as [v3|] eqn:H3; simpl; [|done].
  destruct (t !! "Asr"%string) as [v4|] eqn:H4; simpl; [|done].
  destruct (t !! "Maghrib"%string) as [v5|] eqn:H5; simpl; [|done].
  destruct (t !! "Isha"%string) as [v6|] eqn:H6; simpl; [|done].
  intros [= <- <-]. exists body, t. split; [done|]. split; [done|].
  split; [done|]. split.
  - intros name v. unfold PRAYER_ORDER. split.
    + intros Hin.
      repeat (apply elem_of_cons in Hin as [[= -> ->]|Hin];
              [split; [by apply str_in_elem_of|done]|]).
      by apply elem_of_nil in Hin.
    + intros [Hin Hv].
      repeat (apply elem_of_cons in Hin as [->|Hin];
              [rewrite Hv in *; simplify_eq;
               repeat (first [apply list_elem_of_here
                             |apply list_elem_of_further])|]).
      by apply elem_of_nil in Hin.
  - unfold Fetch.parse_hijri.
    destruct (ab_hijri body) as [h|]; simpl; [|split; by intros [? [=]]].
    destruct (ah_month_number h); simpl; [|split; by intros [? [=]]].
    destruct (ah_day h); simpl; [|split; by intros [? [=]]].
    split; eauto.
Qed.

End adapters.

(** ** The refresh step and the sensors that read its snapshot *)

Section refresh_extra.
Import Coordinator.

(** What a refresh that returns went through. *)
Lemma async_update_data_Ok self self' e new :
  _async_update_data self e = (Ok new, self') →
  ∃ raw,
    Fetch.fetch (co_config self) e
      = Ok (raw, (hijri_month new, hijri_day new, hijri_month_name new))
    ∧ dict_wf raw
    ∧ _normalize_times (co_config self) (env_clock e) raw (is_ramadan new)
      = Ok (prayers new)
    ∧ is_ramadan new = ramadan_of (hijri_month new)
    ∧ date new = env_today e.
Proof.
  unfold _async_update_data.
  destruct (Fetch.fetch (co_config self) e) as [[raw [[hm hd] hn]]|] eqn:Hf;
    [|done].
  pose proof (fetch_wf _ _ _ _ Hf) as Hwf.
  destruct (_normalize_times _ _ raw _) as [ps|] eqn:Hn; [|done].
  intros [= <- _]. exists raw.
  destruct (co_data self) as [old|];
    [destruct (String.eqb (date old) (env_today e))|]; done.
Qed.

(** X10. A refresh never touches the configuration or the stored
    snapshot; it records the date of the snapshot it returns, and leaves
    the coordinator as it was when it raises. *)
Theorem refresh_coordinator_state self e :
  co_config (_async_update_data self e).2 = co_config self
  ∧ co_data (_async_update_data self e).2 = co_data self
  ∧ match (_async_update_data self e).1 with
    | Ok new => co_last_date (_async_update_data self e).2 = Some (date new)
                ∧ date new = env_today e
    | Raise _ => (_async_update_data self e).2 = self
    end.
Proof.
  unfold _async_update_data.
  destruct (Fetch.fetch (co_config self) e) as [[raw [[hm hd] hn]]|]; [|done].
  destruct (_normalize_times _ _ raw _) as [ps|]; [|done].
  destruct (co_data self) as [old|];
    [destruct (String.eqb (date old) (env_today e))|]; done.
Qed.

Lemma normalize_times_Ok_irrelevant_flag config clock (raw : pydict) r r' :
  (∃ ps, _normalize_times config clock raw r = Ok ps) →
  ∃ ps', _normalize_times config clock raw r' = Ok ps'.
Proof.
  intros [ps Hn]. apply normalize_times_total. intros name ts Hin Hbad.
  assert (_normalize_times config clock raw r = Raise ValueError) as Hr
    by (apply normalize_times_raises_iff; eauto).
  congruence.
Qed.

(** X11. A refresh returns a snapshot exactly when the adapter of the
    configured source returns a dictionary and none of its items is
    malformed. The Hijri conversion has no part in it: its failure never
    fails the refresh. *)
Theorem refresh_returns_iff self e :
  (∃ new self', _async_update_data self e = (Ok new, self')) ↔
  ∃ raw,
    (if String.eqb (default SOURCE_QATAR_MOI (cfg_prayer_source (co_config self)))
                   SOURCE_QATAR_MOI
     then Fetch._fetch_qatar_moi (env_qatar e) = Ok raw
     else ∃ hijri_info, Fetch._fetch_aladhan (env_aladhan e) = Ok (raw, hijri_info))
    ∧ ∀ name time_str, (name, time_str) ∈ raw → ¬ malformed name time_str.
Proof.
  split.
  - intros (new & self' & (raw & Hf & _ & Hn & _)%async_update_data_Ok).
    exists raw. split.
    + unfold Fetch.fetch in Hf.
      destruct (String.eqb _ SOURCE_QATAR_MOI).
      * destruct (Fetch._fetch_qatar_moi (env_qatar e)) as [raw'|]; [|done].
        simpl in Hf.
        destruct (env_hijri_converter e) as [[[? ?] ?]|]; by simplify_eq.
      * destruct (Fetch._fetch_aladhan (env_aladhan e)) as [[raw' hi]|]; [|done].
        simpl in Hf. simplify_eq. by exists hi.
    + intros name ts Hin Hbad.
      assert (_normalize_times (co_config self) (env_clock e) raw (is_ramadan new)
              = Raise ValueError) as Hr
        by (apply normalize_times_raises_iff; eauto).
      congruence.
  - intros (raw & Hfetch & Hgood).
    assert (∃ h, Fetch.fetch (co_config self) e = Ok (raw, h)) as [[[hm hd] hn] Hf].
    { unfold Fetch.fetch. destruct (String.eqb _ SOURCE_QATAR_MOI).
      - rewrite Hfetch. simpl.
        destruct (env_hijri_converter e) as [[[? ?] ?]|]; by eexists.
      - destruct Hfetch as [hi ->]. simpl. by eexists. }
    destruct (normalize_times_total (co_config self) (env_clock e) raw
                (ramadan_of hm) Hgood) as [ps Hn].
    unfold _async_update_data. rewrite Hf, Hn. by eexists _, _.
Qed.

Lemma suhoor_only_when_due config clock (raw : pydict) is_ramadan ps s :
  _normalize_times config clock raw is_ramadan = Ok ps →
  s ∈ ps → p_name s = "Suhoor"%string → suhoor_due config is_ramadan = true.
Proof.
  intros (kept & _ & -> & Hall)%normalize_times_kept.
  rewrite Forall_forall in Hall.
  intros [Hin|(t & _ & Hdue & _)]%elem_of_inject_suhoor Hname; [|done].
  apply Hall, read_from_name in Hin. rewrite Hname in Hin.
  by apply not_Suhoor_in_PRAYER_ORDER in Hin.
Qed.

(** X12. On a snapshot that a refresh returned, the Ramadan sensor reads
    "Yes" exactly when the Hijri month is 9, and "No" otherwise, also when
    the month is unknown; and the flag it shows is the one that gated
    Suhoor: when Suhoor is limited to Ramadan and the sensor reads "No",
    the snapshot has no Suhoor entry. *)
Theorem ramadan_sensor_after_refresh self self' e new :
  _async_update_data self e = (Ok new, self') →
  (Sensor.RamadanSensor.native_value (Some new) = "Yes"%string
   ↔ hijri_month new = Some 9)
  ∧ (Sensor.RamadanSensor.native_value (Some new) = "No"%string
     ↔ hijri_month new ≠ Some 9)
  ∧ (default true (cfg_suhoor_ramadan_only (co_config self)) = true →
     Sensor.RamadanSensor.native_value (Some new) = "No"%string →
     ∀ s, s ∈ prayers new → p_name s ≠ "Suhoor"%string).
Proof.
  intros (raw & _ & _ & Hn & Hram & _)%async_update_data_Ok.
  unfold Sensor.RamadanSensor.native_value.
  assert (is_ramadan new = true ↔ hijri_month new = Some 9) as Hiff.
  { rewrite Hram. unfold ramadan_of. destruct (hijri_month new) as [m|]; [|done].
    destruct (Z.eqb_spec m 0) as [->|?]; [done|].
    destruct (Z.eqb_spec m 9) as [->|?]; [done|]. split; [done|congruence]. }
  destruct (is_ramadan new) eqn:Hr.
  - split; [by rewrite <- Hiff|]. split; [|done].
    split; [done|]. intros Hne. destruct Hne. by apply Hiff.
  - split; [split; [done|]; intros ?%Hiff; done|].
    split; [split; [|done]; intros _ ?%Hiff; done|].
    intros Honly _ s Hs Hname.
    pose proof (suhoor_only_when_due _ _ _ _ _ _ Hn Hs Hname) as Hdue.
    unfold suhoor_due in Hdue. rewrite Honly in Hdue.
    by rewrite andb_false_r in Hdue.
Qed.

Lemma scan_Some name l p :
  Sensor.PrayerTimeSensor.scan name l = Some p → p ∈ l ∧ p_name p = name.
Proof.
  induction l as [|q l IH]; simpl; [done|].
  destruct (String.eqb_spec (p_name q) name) as [Heq|Hne].
  - intros [= ->]. split; [by left|done].
  - intros [? ?]%IH. split; [by right|done].
Qed.

Lemma scan_NoDup l p :
  NoDup (p_name <$> l) → p ∈ l →
  Sensor.PrayerTimeSensor.scan (p_name p) l = Some p.
Proof.
  induction l as [|q l IH]; csimpl; [by intros _ ?%elem_of_nil|].
  intros [Hq Hnd]%NoDup_cons [->|Hin]%elem_of_cons.
  - by rewrite String.eqb_refl.
  - destruct (String.eqb_spec (p_name q) (p_name p)) as [Heq|Hne]; [|by apply IH].
    destruct Hq. rewrite Heq. by apply list_elem_of_fmap_2.
Qed.

(** X13. On a snapshot that a refresh returned, from either adapter, the
    names are in the order Suhoor, Fajr, ..., Isha without repetition, so
    the time sensor of a name shows the one entry of that name: each entry
    is found by the sensor of its name, and a sensor finds nothing when no
    entry has its name. *)
Theorem time_sensors_after_refresh self self' e new :
  _async_update_data self e = (Ok new, self') →
  (p_name <$> prayers new) `sublist_of` CANONICAL_NAMES
  ∧ (∀ p, p ∈ prayers new →
          Sensor.PrayerTimeSensor._get_prayer (Some new) (p_name p) = Some p
          ∧ Sensor.PrayerTimeSensor.native_value (Some new) (p_name p)
            = Some (p_time_str p))
  ∧ (∀ name, Sensor.PrayerTimeSensor._get_prayer (Some new) name = None
             ↔ ∀ p, p ∈ prayers new → p_name p ≠ name)
  ∧ (∀ p, Sensor.SuhoorTimeSensor._get_suhoor (Some new) = Some p
          ↔ p ∈ prayers new ∧ p_name p = "Suhoor"%string).
Proof.
  intros Hcan%refresh_entries_canonical.
  assert (NoDup (p_name <$> prayers new)) as Hnd
    by (eapply sublist_NoDup; [apply NoDup_CANONICAL_NAMES|done]).
  split; [done|]. split; [|split].
  - intros p Hin. unfold Sensor.PrayerTimeSensor.native_value.
    unfold Sensor.PrayerTimeSensor._get_prayer.
    by rewrite (scan_NoDup _ _ Hnd Hin).
  - intros name. unfold Sensor.PrayerTimeSensor._get_prayer. split.
    + intros Hnone p Hin <-. by rewrite (scan_NoDup _ _ Hnd Hin) in Hnone.
    + intros Hno.
      destruct (Sensor.PrayerTimeSensor.scan name (prayers new)) as [p|] eqn:Hs;
        [|done].
      apply scan_Some in Hs as [Hin Hname]. by destruct (Hno p Hin).
  - intros p. unfold Sensor.SuhoorTimeSensor._get_suhoor. split.
    + apply scan_Some.
    + intros [Hin <-]. by apply scan_NoDup.
Qed.

End refresh_extra.

(** ** The two next-prayer queries together, and the countdown *)

Section queries.
Import Sensor.

Lemma next_any_of_enabled now l p :
  NextPrayerSensor.scan now l = Some p →
  ∃ q, AzanCountdownSensor.scan now l = Some q.
Proof.
  induction l as [|x l IH]; simpl; [done|].
  destruct (aware_gt (localize (p_time x) now) now); [by eexists|].
  destruct (p_enabled x); simpl; apply IH.
Qed.

Lemma next_enabled_of_any now l q :
  AzanCountdownSensor.scan now l = Some q → p_enabled q = true →
  NextPrayerSensor.scan now l = Some q.
Proof.
  induction l as [|x l IH]; simpl; [done|].
  destruct (aware_gt (localize (p_time x) now) now) eqn:Hgt.
  - intros [= ->] ->. done.
  - intros Hs Hen. destruct (p_enabled x); simpl; by apply IH.
Qed.

(** X14. The two queries agree where they can: when the countdown's next
    entry is enabled, it is also the next prayer; when there is a next
    prayer there is a countdown entry; and when the countdown has no entry
    there is no next prayer. *)
Theorem next_queries_agree (data : option PrayerData) (now : aware) :
  (∀ q, AzanCountdownSensor._get_next_prayer data now = Some q →
        p_enabled q = true →
        NextPrayerSensor._get_next_prayer data now = Some q)
  ∧ (∀ p, NextPrayerSensor._get_next_prayer data now = Some p →
          ∃ q, AzanCountdownSensor._get_next_prayer data now = Some q)
  ∧ (AzanCountdownSensor._get_next_prayer data now = None →
     NextPrayerSensor._get_next_prayer data now = None).
Proof.
  unfold AzanCountdownSensor._get_next_prayer, NextPrayerSensor._get_next_prayer.
  destruct data as [d|]; [|done].
  split; [intros q; apply next_enabled_of_any|].
  split; [intros p; apply next_any_of_enabled|].
  intros Hnone.
  destruct (NextPrayerSensor.scan now (prayers d)) as [p|] eqn:Hp; [|done].
  apply next_any_of_enabled in Hp as [q Hq]. congruence.
Qed.

Lemma minutes_of_seconds us :
  Z.max 0 (whole_minutes us) = Z.max 0 (whole_seconds us) / 60.
Proof.
  unfold whole_minutes, whole_seconds.
  destruct (Z.le_gt_cases 0 us) as [Hpos|Hneg].
  - rewrite !Z.quot_div_nonneg by lia.
    replace 60000000 with (1000000 * 60) by done.
    rewrite <- Z.div_div by lia.
    assert (0 ≤ us / 1000000) by (apply Z.div_pos; lia).
    assert (0 ≤ us / 1000000 / 60) by (apply Z.div_pos; lia).
    by rewrite !Z.max_r by lia.
  - assert (us ÷ 60000000 ≤ 0) by (apply Z.quot_le_upper_bound; lia).
    assert (us ÷ 1000000 ≤ 0) by (apply Z.quot_le_upper_bound; lia).
    by rewrite !Z.max_l by lia.
Qed.

(** X15. The countdown in minutes and the hours, minutes and seconds of
    its attributes tell the same distance when they read the clock at the
    same instants: the minutes are 60 times the hours plus the minutes of
    the breakdown, and the breakdown adds up to the whole seconds that are
    left. *)
Theorem countdown_breakdown_consistent (data : option PrayerData)
    (now1 now2 : aware) prayer :
  AzanCountdownSensor._get_next_prayer data now1 = Some prayer →
  ∃ h m s,
    let attrs := AzanCountdownSensor.extra_state_attributes data now1 now2 in
    attrs !! "hours"%string = Some (PInt h)
    ∧ attrs !! "minutes"%string = Some (PInt m)
    ∧ attrs !! "seconds"%string = Some (PInt s)
    ∧ attrs !! "prayer_name"%string = Some (PStr (p_name prayer))
    ∧ AzanCountdownSensor.native_value data now1 now2 = Some (h * 60 + m)
    ∧ h * 3600 + m * 60 + s
      = Z.max 0 (whole_seconds (aware_sub (localize (p_time prayer) now2) now2)).
Proof.
  intros Hp. unfold AzanCountdownSensor.extra_state_attributes,
    AzanCountdownSensor.native_value. rewrite Hp.
  set (us := aware_sub (localize (p_time prayer) now2) now2).
  set (t := Z.max 0 (whole_seconds us)).
  exists (t / 3600), (t mod 3600 / 60), (t mod 60). simpl.
  repeat split.
  - f_equal. rewrite minutes_of_seconds. fold t.
    pose proof (Z.div_mod t 3600 ltac:(lia)) as Hd.
    rewrite Hd at 1.
    replace (3600 * (t / 3600) + t mod 3600)
      with (t mod 3600 + (t / 3600 * 60) * 60) by lia.
    by rewrite Z.div_add, Z.add_comm by lia.
  - pose proof (breakdown_bounds t ltac:(lia)) as (_ & _ & _ & Hsum). lia.
Qed.

(** X16. On a snapshot whose entries have times that do not decrease along
    the list, the countdown's next entry is the earliest entry after [now],
    and the next prayer is the earliest enabled entry after [now]. *)
Theorem next_is_earliest (d : PrayerData) (now : aware) :
  time_ascending (prayers d) →
  (∀ p q, AzanCountdownSensor._get_next_prayer (Some d) now = Some p →
          q ∈ prayers d → upcoming now q →
          dt_wall (p_time p) ≤ dt_wall (p_time q))
  ∧ (∀ p q, NextPrayerSensor._get_next_prayer (Some d) now = Some p →
            q ∈ prayers d → p_enabled q = true → upcoming now q →
            dt_wall (p_time p) ≤ dt_wall (p_time q)).
Proof.
  intros Hasc.
  assert (∀ P p q,
            first_such P (prayers d) (Some p) → q ∈ prayers d → P q →
            dt_wall (p_time p) ≤ dt_wall (p_time q)) as Hfirst.
  { intros P p q (pre & post & Heq & _ & Hpre) Hq HPq.
    rewrite Heq in Hq, Hasc.
    apply elem_of_app in Hq as [Hq|Hq].
    { rewrite Forall_forall in Hpre. by destruct (Hpre q Hq). }
    apply StronglySorted_app in Hasc as (_ & _ & Hpost).
    apply elem_of_cons in Hq as [->|Hq]; [done|].
    apply StronglySorted_cons in Hpost as [Hle _].
    rewrite Forall_forall in Hle. by apply Hle. }
  split.
  - intros p q Hp Hq Hup.
    apply (Hfirst (upcoming now)); [|done..].
    rewrite <- Hp. apply next_any_scan.
  - intros p q Hp Hq Hen Hup.
    apply (Hfirst (λ x, p_enabled x = true ∧ upcoming now x)); [|done..].
    rewrite <- Hp. apply next_enabled_scan.
Qed.

End queries.

(** ** Configuration and set-up *)

Section setup.

(** X17. With a config entry, the coordinator's accessor reads the merged
    dictionary that the sensor set-up builds: an option hides the data of
    the same key, the data is read when there is no option, the default
    when there is neither; the constructor's dictionary is not read.
    Without a config entry it reads the constructor's dictionary. *)
Theorem get_config_value_merged ce config key dflt :
  get_config_value (Some ce) config key dflt
    = default dflt (merged_config ce !! key)
  ∧ (∀ v, ce_options ce !! key = Some v →
          get_config_value (Some ce) config key dflt = v)
  ∧ (∀ v, ce_options ce !! key = None → ce_data ce !! key = Some v →
          get_config_value (Some ce) config key dflt = v)
  ∧ (ce_options ce !! key = None → ce_data ce !! key = None →
     get_config_value (Some ce) config key dflt = dflt)
  ∧ get_config_value None config key dflt = default dflt (config !! key).
Proof.
  unfold get_config_value, merged_config. rewrite lookup_union.
  destruct (ce_options ce !! key) as [vo|], (ce_data ce !! key) as [vd|];
    simpl; repeat split; intros; by simplify_eq.
Qed.

Lemma sensor_setup_Ok hass_data entry entities :
  SensorSetup.async_setup_entry hass_data entry = Ok entities →
  entities =
    (SensorSetup.new_PrayerTimeSensor entry <$> PRAYER_ORDER)
    ++ (if truthy (default (PBool false)
                           (merged_config entry !! CONF_SUHOOR_ENABLED))
        then [SensorSetup.new_SuhoorTimeSensor entry] else [])
    ++ [SensorSetup.new_NextPrayerSensor entry;
        SensorSetup.new_AzanCountdownSensor entry;
        SensorSetup.new_HijriDateSensor entry;
        SensorSetup.new_RamadanSensor entry;
        SensorSetup.new_AzanStatusSensor entry].
Proof.
  unfold SensorSetup.async_setup_entry, SensorSetup.subscript.
  destruct (hass_data !! DOMAIN) as [dd|]; simpl; [|done].
  destruct (dd !! entry_id entry) as [store|]; simpl; [|done].
  destruct (store !! "coordinator"%string); simpl; [|done].
  intros [= <-].
  by destruct (truthy _).
Qed.

(** X18. The unique ids that the sensor and the button platforms give to
    the entities of one config entry are pairwise distinct, whatever the
    entry id is; there are eleven sensors, and a twelfth when Suhoor is
    enabled. *)
Theorem entity_unique_ids_distinct hass_data entry entities :
  SensorSetup.async_setup_entry hass_data entry = Ok entities →
  NoDup (en_unique_id <$> (entities ++ ButtonSetup.async_setup_entry entry))
  ∧ length entities =
      (if truthy (default (PBool false)
                          (merged_config entry !! CONF_SUHOOR_ENABLED))
       then 12 else 11)%nat.
Proof.
  intros ->%sensor_setup_Ok.
  destruct (truthy _); (split; [|done]).
  - change (NoDup ((String.app (entry_id entry)) <$>
                     ["_fajr"; "_sunrise"; "_dhuhr"; "_asr"; "_maghrib";
                      "_isha"; "_suhoor"; "_next_prayer"; "_countdown";
                      "_hijri_date"; "_ramadan"; "_status"; "_test_play";
                      "_refresh_times"]%string)).
    apply (NoDup_fmap_2 _). apply (bool_decide_unpack _). by vm_compute.
  - change (NoDup ((String.app (entry_id entry)) <$>
                     ["_fajr"; "_sunrise"; "_dhuhr"; "_asr"; "_maghrib";
                      "_isha"; "_next_prayer"; "_countdown";
                      "_hijri_date"; "_ramadan"; "_status"; "_test_play";
                      "_refresh_times"]%string)).
    apply (NoDup_fmap_2 _). apply (bool_decide_unpack _). by vm_compute.
Qed.

(** X19. The set-up always creates the six prayer time sensors, and the
    Suhoor sensor exactly when [suhoor_enabled] is true in the merged
    configuration, where the options decide when they have the key. *)
Theorem suhoor_sensor_created_iff hass_data entry entities :
  SensorSetup.async_setup_entry hass_data entry = Ok entities →
  (∀ name, name ∈ PRAYER_ORDER →
           SensorSetup.new_PrayerTimeSensor entry name ∈ entities)
  ∧ ((∃ en, en ∈ entities ∧ en_class en = SuhoorTimeSensor_) ↔
     truthy (default (PBool false) (merged_config entry !! CONF_SUHOOR_ENABLED))
       = true)
  ∧ (∀ v, ce_options entry !! CONF_SUHOOR_ENABLED = Some v →
          (∃ en, en ∈ entities ∧ en_class en = SuhoorTimeSensor_) ↔
          truthy v = true).
Proof.
  intros ->%sensor_setup_Ok.
  assert ((∃ en,
             en ∈ (SensorSetup.new_PrayerTimeSensor entry <$> PRAYER_ORDER)
                  ++ (if truthy (default (PBool false)
                                   (merged_config entry !! CONF_SUHOOR_ENABLED))
                      then [SensorSetup.new_SuhoorTimeSensor entry] else [])
                  ++ [SensorSetup.new_NextPrayerSensor entry;
                      SensorSetup.new_AzanCountdownSensor entry;
                      SensorSetup.new_HijriDateSensor entry;
                      SensorSetup.new_RamadanSensor entry;
                      SensorSetup.new_AzanStatusSensor entry]
             ∧ en_class en = SuhoorTimeSensor_) ↔
          truthy (default (PBool false)
                          (merged_config entry !! CONF_SUHOOR_ENABLED)) = true)
    as Hiff.
  { destruct (truthy _); split; try done.
    - intros _. exists (SensorSetup.new_SuhoorTimeSensor entry).
      split; [|done]. apply elem_of_app. right. by left.
    - intros (en & Hin & Hc). exfalso.
      apply elem_of_app in Hin as [Hin|Hin].
      + apply list_elem_of_fmap in Hin as (n & -> & _). done.
      + simpl in Hin. elem_cases Hin ltac:(done). }
  split; [|split; [done|]].
  - intros name Hin. apply elem_of_app. left. by apply list_elem_of_fmap_2.
  - intros v Hv. rewrite Hiff. unfold merged_config.
    by rewrite lookup_union, Hv, union_Some_l.
Qed.

(** X20. The sensor set-up returns exactly when [hass.data] holds, under
    the domain and the entry id, a store with a coordinator; otherwise it
    raises [KeyError]. *)
Theorem sensor_setup_returns_iff hass_data entry :
  ((∃ entities, SensorSetup.async_setup_entry hass_data entry = Ok entities) ↔
   ∃ domain_data store coordinator,
     hass_data !! DOMAIN = Some domain_data
     ∧ domain_data !! entry_id entry = Some store
     ∧ store !! "coordinator"%string = Some coordinator)
  ∧ ∀ err, SensorSetup.async_setup_entry hass_data entry = Raise err →
           err = KeyError.
Proof.
  unfold SensorSetup.async_setup_entry, SensorSetup.subscript.
  destruct (hass_data !! DOMAIN) as [dd|] eqn:Hd; simpl.
  2:{ split; [split; [by intros [? ?]|by intros (? & ? & ? & ? & _)]|].
      by intros ? [= <-]. }
  destruct (dd !! entry_id entry) as [store|] eqn:Hs; simpl.
  2:{ split; [split; [by intros [? ?]|]|by intros ? [= <-]].
      intros (dd' & store & c & Hd' & Hs' & _). congruence. }
  destruct (store !! "coordinator"%string) as [c|] eqn:Hc; simpl.
  2:{ split; [split; [by intros [? ?]|]|by intros ? [= <-]].
      intros (dd' & store' & c & Hd' & Hs' & Hc'). congruence. }
  split; [|done]. split; [|by eexists].
  intros _. by exists dd, store, c.
Qed.

End setup.

(** ** Cleaning a raw time *)

Section cleaning.
Import Coordinator.

Lemma lstrip_spaces ws s :
  all_chars PyStr.isspace ws = true → PyStr.lstrip (ws +:+ s) = PyStr.lstrip s.
Proof.
  induction ws as [|c ws IH]; simpl; [done|].
  intros [Hc Hws]%andb_true_iff. rewrite Hc. by apply IH.
Qed.

Lemma lstrip_plain t s :
  t ≠ EmptyString → all_chars plain_char t = true →
  PyStr.lstrip (t +:+ s) = t +:+ s.
Proof.
  destruct t as [|c t]; [done|]. simpl.
  intros _ [[Hc _]%andb_true_iff _]%andb_true_iff.
  by rewrite (proj1 (negb_true_iff _) Hc).
Qed.

Lemma rstrip_plain_app t s :
  all_chars plain_char t = true →
  PyStr.rstrip (t +:+ s) = t +:+ PyStr.rstrip s.
Proof.
  induction t as [|c t IH]; simpl; [done|].
  intros [[Hc _]%andb_true_iff Ht]%andb_true_iff.
  rewrite IH by done. apply negb_true_iff in Hc. rewrite Hc.
  change (String c t +:+ PyStr.rstrip s) with (String c (t +:+ PyStr.rstrip s)).
  by destruct (t +:+ PyStr.rstrip s).
Qed.

Lemma split_first_cons_eq c s : PyStr.split_first c (String c s) = EmptyString.
Proof. unfold PyStr.split_first. simpl. by rewrite Ascii.eqb_refl. Qed.

Lemma split_first_cons_ne c a s :
  Ascii.eqb a c = false →
  PyStr.split_first c (String a s) = String a (PyStr.split_first c s).
Proof.
  intros Hne. unfold PyStr.split_first. simpl. rewrite Hne.
  by destruct (PyStr.split c s).
Qed.

Lemma split_first_nil c : PyStr.split_first c EmptyString = EmptyString.
Proof. done. Qed.

Lemma split_first_app c t s :
  all_chars (λ a, negb (Ascii.eqb a c)) t = true →
  PyStr.split_first c (t +:+ s) = t +:+ PyStr.split_first c s.
Proof.
  induction t as [|a t IH]; [done|].
  intros [Ha%negb_true_iff Ht]%andb_true_iff.
  change (String a t +:+ s) with (String a (t +:+ s)).
  by rewrite split_first_cons_ne, IH.
Qed.

Lemma all_chars_impl (P Q : ascii → bool) s :
  (∀ c, P c = true → Q c = true) → all_chars P s = true → all_chars Q s = true.
Proof.
  intros HPQ. induction s as [|c s IH]; simpl; [done|].
  intros [Hc Hs]%andb_true_iff. by rewrite (HPQ c Hc), IH.
Qed.

Lemma plain_no_space t :
  all_chars plain_char t = true →
  all_chars (λ a, negb (Ascii.eqb a " ")) t = true.
Proof.
  apply all_chars_impl. intros c [Hc _]%andb_true_iff.
  apply negb_true_iff. destruct (Ascii.eqb_spec c " ") as [->|]; [|done].
  by vm_compute in Hc.
Qed.

Lemma plain_no_paren t :
  all_chars plain_char t = true →
  all_chars (λ a, negb (Ascii.eqb a "(")) t = true.
Proof. apply all_chars_impl. by intros c [_ Hc]%andb_true_iff. Qed.

Lemma app_empty_r (s : string) : s +:+ EmptyString = s.
Proof.
  induction s as [|c s IH]; [done|].
  change (String c (s +:+ EmptyString) = String c s). by f_equal.
Qed.

Lemma lstrip_plain_only t :
  t ≠ EmptyString → all_chars plain_char t = true → PyStr.lstrip t = t.
Proof.
  intros Hne Ht. rewrite <- (app_empty_r t) at 1.
  rewrite lstrip_plain by done. apply app_empty_r.
Qed.

Lemma rstrip_plain t : all_chars plain_char t = true → PyStr.rstrip t = t.
Proof.
  intros Ht. rewrite <- (app_empty_r t) at 1.
  rewrite rstrip_plain_app by done. apply app_empty_r.
Qed.

Lemma split_first_plain_space t :
  all_chars plain_char t = true → PyStr.split_first " " t = t.
Proof.
  intros Ht. rewrite <- (app_empty_r t) at 1.
  rewrite split_first_app by (by apply plain_no_space). apply app_empty_r.
Qed.

Lemma split_first_plain_paren t :
  all_chars plain_char t = true → PyStr.split_first "(" t = t.
Proof.
  intros Ht. rewrite <- (app_empty_r t) at 1.
  rewrite split_first_app by (by apply plain_no_paren). apply app_empty_r.
Qed.

Lemma rstrip_after_space s :
  PyStr.split_first " " (PyStr.rstrip (String " " s)) = EmptyString.
Proof.
  simpl. destruct (PyStr.rstrip s); [done|]. apply split_first_cons_eq.
Qed.

Lemma rstrip_after_paren s :
  ∃ r, PyStr.rstrip (String "(" s) = String "(" r.
Proof. simpl. destruct (PyStr.rstrip s); by eexists. Qed.

Lemma loop_body_time_clean config now st name time_str time_str' :
  time_clean time_str = time_clean time_str' →
  loop_body config now st (name, time_str)
  = loop_body config now st (name, time_str').
Proof. intros Heq. unfold loop_body. destruct st. by rewrite Heq. Qed.

(** X21. A bare time, written without white space or parenthesis, is what
    the cleaning keeps: white space before it, and whatever follows it
    after a space or an opening parenthesis (a time zone note), are
    dropped, so the loop does with the annotated value what it does with
    the bare time. *)
Theorem time_clean_drops_annotation t ws suffix :
  t ≠ EmptyString → all_chars plain_char t = true →
  all_chars PyStr.isspace ws = true →
  time_clean t = t
  ∧ time_clean (ws +:+ t +:+ String " " suffix) = t
  ∧ time_clean (ws +:+ t +:+ String "(" suffix) = t
  ∧ ∀ config now st name,
      loop_body config now st (name, ws +:+ t +:+ String " " suffix)
        = loop_body config now st (name, t)
      ∧ loop_body config now st (name, ws +:+ t +:+ String "(" suffix)
        = loop_body config now st (name, t).
Proof.
  intros Hne Ht Hws.
  assert (time_clean t = t) as H1.
  { unfold time_clean, PyStr.strip.
    rewrite (lstrip_plain_only t), (rstrip_plain t) by done.
    rewrite (split_first_plain_space t), (split_first_plain_paren t) by done.
    by rewrite (lstrip_plain_only t), (rstrip_plain t). }
  assert (time_clean (ws +:+ t +:+ String " " suffix) = t) as H2.
  { unfold time_clean. unfold PyStr.strip at 2.
    rewrite (lstrip_spaces ws), (lstrip_plain t), (rstrip_plain_app t) by done.
    rewrite (split_first_app " " t) by (by apply plain_no_space).
    rewrite rstrip_after_space, app_empty_r.
    rewrite (split_first_plain_paren t) by done. unfold PyStr.strip.
    by rewrite (lstrip_plain_only t), (rstrip_plain t). }
  assert (time_clean (ws +:+ t +:+ String "(" suffix) = t) as H3.
  { unfold time_clean. unfold PyStr.strip at 2.
    rewrite (lstrip_spaces ws), (lstrip_plain t), (rstrip_plain_app t) by done.
    destruct (rstrip_after_paren suffix) as [r ->].
    rewrite (split_first_app " " t) by (by apply plain_no_space).
    rewrite split_first_cons_ne by done.
    rewrite (split_first_app "(" t) by (by apply plain_no_paren).
    rewrite split_first_cons_eq, app_empty_r. unfold PyStr.strip.
    by rewrite (lstrip_plain_only t), (rstrip_plain t). }
  repeat split; try done.
  - apply loop_body_time_clean. by rewrite H1, H2.
  - apply loop_body_time_clean. by rewrite H1, H3.
Qed.

End cleaning.

(** ** Suhoor on the clock, and the played mark across refreshes *)

Section suhoor_and_played.
Import Coordinator.

Lemma dt_sub_minutes_time_of_day t m :
  dt_second t = 0 → dt_microsecond t = 0 →
  dt_hour (dt_sub_minutes t m) * 60 + dt_minute (dt_sub_minutes t m)
    = (dt_hour t * 60 + dt_minute t - m) mod 1440
  ∧ dt_date (dt_sub_minutes t m)
    = dt_date t + (dt_hour t * 60 + dt_minute t - m) / 1440.
Proof.
  intros Hs Hus. unfold dt_sub_minutes.
  set (T := dt_hour t * 60 + dt_minute t - m).
  set (k := dt_date t * 1440 + T).
  assert (dt_wall t - m * 60000000 = k * 60000000) as ->
    by (unfold dt_wall, k, T; rewrite Hs, Hus; lia).
  unfold dt_of_wall. cbn [dt_hour dt_minute dt_date].
  rewrite Z.div_mul by lia.
  replace (k * 60000000 / 3600000000) with (k / 60)
    by (replace 3600000000 with (60 * 60000000) by done;
        by rewrite Z.div_mul_cancel_r by lia).
  replace (k * 60000000 / 86400000000) with (k / 1440)
    by (replace 86400000000 with (1440 * 60000000) by done;
        by rewrite Z.div_mul_cancel_r by lia).
  pose proof (Z.rem_mul_r k 60 24 ltac:(lia) ltac:(lia)) as Hk.
  change (60 * 24) with 1440 in Hk.
  assert (k mod 1440 = T mod 1440) as Hmod
    by (unfold k; rewrite Z.add_comm, Z.mod_add; [done|lia]).
  assert (k / 1440 = dt_date t + T / 1440) as Hdiv
    by (unfold k; rewrite Z.add_comm, Z.div_add; lia).
  split; lia.
Qed.

(** X22. The time of day of the Suhoor entry is that of Fajr less the
    offset, counted around the clock: when the offset reaches back before
    midnight the entry is dated on the day before. *)
Theorem suhoor_time_of_day config clock (raw : pydict) is_ramadan ps s f :
  dict_wf raw →
  _normalize_times config clock raw is_ramadan = Ok ps →
  s ∈ ps → f ∈ ps →
  p_name s = "Suhoor"%string → p_name f = "Fajr"%string →
  dt_hour (p_time s) * 60 + dt_minute (p_time s)
    = (dt_hour (p_time f) * 60 + dt_minute (p_time f) - suhoor_offset config)
      mod 1440
  ∧ dt_date (p_time s)
    = dt_date (p_time f)
      + (dt_hour (p_time f) * 60 + dt_minute (p_time f) - suhoor_offset config)
        / 1440.
Proof.
  intros Hwf Hn.
  pose proof Hn as (kept & Hl & -> & Hall)%normalize_times_kept.
  apply loop_names_sublist in Hl as [Hsub _]; [|done].
  rewrite Forall_forall in Hall.
  destruct (inject_suhoor_shape config is_ramadan kept Hsub)
    as [[Hno ->]|(f0 & kept' & -> & Hf0 & Hno & ->)];
    rewrite Forall_forall in Hno.
  { intros Hs _ Hsn _. by destruct (Hno s Hs). }
  assert (dt_second (p_time f0) = 0 ∧ dt_microsecond (p_time f0) = 0)
    as [Hsec Hus].
  { destruct (Hall f0 ltac:(by left)) as (? & ? & ? & _ & _ & _ & _ & _ & ->).
    done. }
  destruct (suhoor_due config is_ramadan).
  - intros Hs Hf Hsn Hfn.
    assert (f = f0) as ->.
    { apply elem_of_cons in Hf as [->|Hf]; [done|].
      apply elem_of_cons in Hf as [->|Hf]; [done|]. by destruct (Hno f Hf). }
    assert (s = suhoor_for config f0) as ->.
    { apply elem_of_cons in Hs as [->|Hs]; [done|].
      apply elem_of_cons in Hs as [->|Hs]; [congruence|].
      by destruct (Hno s Hs). }
    by apply dt_sub_minutes_time_of_day.
  - intros Hs _ Hsn _.
    apply elem_of_cons in Hs as [->|Hs]; [congruence|]. by destruct (Hno s Hs).
Qed.

(** X23. After a refresh on the same date as the stored snapshot, the time
    sensor of an entry whose name was marked as played still shows it as
    played; after a refresh on another date, or without a stored snapshot,
    every time sensor shows its entry as not played. *)
Theorem played_mark_after_refresh self self' e new p :
  _async_update_data self e = (Ok new, self') →
  p ∈ prayers new →
  (∀ old, co_data self = Some old → date old = env_today e →
          Sensor.PrayerTimeSensor.extra_state_attributes (Some new) (p_name p)
            !! "played"%string
          = Some (PBool (bool_decide (p_name p ∈ played_today old))))
  ∧ ((co_data self = None
      ∨ ∃ old, co_data self = Some old ∧ date old ≠ env_today e) →
     Sensor.PrayerTimeSensor.extra_state_attributes (Some new) (p_name p)
       !! "played"%string
     = Some (PBool false)).
Proof.
  intros Hr Hin.
  pose proof (refresh_entries_canonical _ _ _ _ Hr) as Hcan.
  assert (NoDup (p_name <$> prayers new)) as Hnd
    by (eapply sublist_NoDup; [apply NoDup_CANONICAL_NAMES|done]).
  unfold Sensor.PrayerTimeSensor.extra_state_attributes,
    Sensor.PrayerTimeSensor._get_prayer.
  rewrite (scan_NoDup _ _ Hnd Hin).
  assert (played_today new =
            match co_data self with
            | Some old => if String.eqb (date old) (env_today e)
                          then played_today old else ∅
            | None => ∅
            end) as Hplayed.
  { revert Hr. unfold _async_update_data.
    destruct (Fetch.fetch (co_config self) e) as [[raw [[hm hd] hn]]|]; [|done].
    destruct (_normalize_times _ _ raw _) as [ps|]; [|done].
    destruct (co_data self) as [old|];
      [destruct (String.eqb (date old) (env_today e))|]; by intros [= <- _]. }
  split.
  - intros old Hold Hdate. rewrite Hold, Hdate, String.eqb_refl in Hplayed.
    by rewrite Hplayed.
  - intros [Hnone|(old & Hold & Hdate)].
    + rewrite Hnone in Hplayed. by rewrite Hplayed.
    + rewrite Hold in Hplayed. apply String.eqb_neq in Hdate.
      rewrite Hdate in Hplayed. by rewrite Hplayed.
Qed.

End suhoor_and_played.

(** ** The next-prayer sensor beside the others *)

Section next_sensor.
Import Sensor.

(** X24. After a refresh the icon of the next-prayer sensor is always
    taken from the table of icons, never the fallback: it is the icon of
    the time sensor of the next prayer, or of the Suhoor sensor when Suhoor
    is next. *)
Theorem next_prayer_icon_after_refresh self self' e new entry now p :
  _async_update_data self e = (Ok new, self') →
  NextPrayerSensor._get_next_prayer (Some new) now = Some p →
  NextPrayerSensor.native_value (Some new) now = Some (p_name p)
  ∧ PRAYER_ICONS !! p_name p = Some (next_prayer_icon (Some new) now)
  ∧ (p_name p ∈ PRAYER_ORDER →
     next_prayer_icon (Some new) now
     = en_icon (SensorSetup.new_PrayerTimeSensor entry (p_name p)))
  ∧ (p_name p = "Suhoor"%string →
     next_prayer_icon (Some new) now
     = en_icon (SensorSetup.new_SuhoorTimeSensor entry)).
Proof.
  intros Hr Hnext.
  pose proof (refresh_entries_canonical _ _ _ _ Hr) as Hcan.
  pose proof (next_enabled_scan now (prayers new)) as Hscan.
  unfold next_prayer_icon, NextPrayerSensor.native_value. rewrite Hnext.
  cbn [NextPrayerSensor._get_next_prayer] in Hnext. rewrite Hnext in Hscan.
  destruct Hscan as (pre & post & Hl & _ & _).
  assert (p_name p ∈ CANONICAL_NAMES) as Hin.
  { eapply elem_of_sublist; [|exact Hcan].
    rewrite Hl, fmap_app, fmap_cons. apply elem_of_app. right. by left. }
  assert (∃ icon, PRAYER_ICONS !! p_name p = Some icon) as [icon Hicon].
  { elem_cases Hin ltac:(eexists; vm_compute; reflexivity). }
  split; [done|]. split; [by rewrite Hicon|]. split.
  - intros _. reflexivity.
  - intros Hs. rewrite Hs. reflexivity.
Qed.

(** X25. When the countdown's next entry is enabled, the next-prayer
    sensor and the countdown sensor tell of the same prayer: the name that
    the one shows is the [prayer_name] of the other, their [time]
    attributes are equal, and [countdown_minutes] is the countdown's
    value. *)
Theorem next_prayer_minutes_agree (data : option PrayerData)
    (now1 now2 : aware) q :
  AzanCountdownSensor._get_next_prayer data now1 = Some q →
  p_enabled q = true →
  ∃ n,
    AzanCountdownSensor.native_value data now1 now2 = Some n
    ∧ 0 ≤ n
    ∧ NextPrayerSensor.extra_state_attributes data now1 now2
        !! "countdown_minutes"%string = Some (PInt n)
    ∧ NextPrayerSensor.extra_state_attributes data now1 now2 !! "time"%string
      = AzanCountdownSensor.extra_state_attributes data now1 now2
          !! "time"%string
    ∧ NextPrayerSensor.native_value data now1 = Some (p_name q)
    ∧ AzanCountdownSensor.extra_state_attributes data now1 now2
        !! "prayer_name"%string = Some (PStr (p_name q)).
Proof.
  intros Hq Hen.
  assert (NextPrayerSensor._get_next_prayer data now1 = Some q) as Hp.
  { destruct data as [d|]; [|done]. by apply next_enabled_of_any. }
  unfold AzanCountdownSensor.native_value,
    NextPrayerSensor.extra_state_attributes,
    AzanCountdownSensor.extra_state_attributes,
    NextPrayerSensor.native_value.
  rewrite Hq, Hp.
  eexists. split; [reflexivity|]. split; [lia|]. by repeat split.
Qed.

End next_sensor.

(** ** The further properties at concrete inputs *)

Section further_instances.
Import Samples.

(** X1 with an unknown name between two prayers. *)
Lemma irrelevant_entry_ignored_witness :
  is_relevant ("Zawal", "11:30")%string = false
  ∧ Coordinator._normalize_times config_default (at_time 1 0 0)
      ([("Fajr", "04:30")]%string
       ++ ("Zawal", "11:30")%string :: [("Isha", "7:20")]%string)
      false
    = Coordinator._normalize_times config_default (at_time 1 0 0)
        ([("Fajr", "04:30")]%string ++ [("Isha", "7:20")]%string) false.
Proof.
  split; [reflexivity|].
  exact (irrelevant_entry_ignored config_default (at_time 1 0 0)
           [("Fajr", "04:30")]%string [("Isha", "7:20")]%string
           ("Zawal", "11:30")%string false eq_refl).
Defined.

(** X2 with Isha filed before Fajr. *)
Lemma normalize_times_order_independent_witness :
  dict_wf [("Fajr", "04:30"); ("Isha", "7:20")]%string
  ∧ [("Fajr", "04:30"); ("Isha", "7:20")]%string
    ≡ₚ [("Isha", "7:20"); ("Fajr", "04:30")]%string
  ∧ Coordinator._normalize_times config_default (at_time 1 0 0)
      [("Fajr", "04:30"); ("Isha", "7:20")]%string false
    = Coordinator._normalize_times config_default (at_time 1 0 0)
        [("Isha", "7:20"); ("Fajr", "04:30")]%string false.
Proof.
  assert (dict_wf [("Fajr", "04:30"); ("Isha", "7:20")]%string) as Hwf
    by (apply (bool_decide_unpack _); by vm_compute).
  assert ([("Fajr", "04:30"); ("Isha", "7:20")]%string
          ≡ₚ [("Isha", "7:20"); ("Fajr", "04:30")]%string) as Hperm
    by apply perm_swap.
  split; [exact Hwf|]. split; [exact Hperm|].
  exact (normalize_times_order_independent config_default (at_time 1 0 0)
           _ _ false Hwf Hperm).
Defined.

(** X3 on Isha ["7:20"], which is read as 19:20. *)
Lemma normalized_entry_iff_witness :
  let raw := [("Fajr", "04:30"); ("Isha", "7:20")]%string in
  let ps := [entry "Suhoor" 3 30 true; entry "Fajr" 4 30 true;
             entry "Isha" 19 20 true] in
  let p := entry "Isha" 19 20 true in
  Coordinator._normalize_times config_suhoor (at_time 1 0 0) raw true = Ok ps
  ∧ p_name p ≠ "Suhoor"%string
  ∧ (p ∈ ps ↔
     ∃ time_str hour minute,
       (p_name p, time_str) ∈ raw
       ∧ p_name p ∈ PRAYER_ORDER
       ∧ parses_to time_str hour minute
       ∧ p = entry_of config_suhoor (datetime_now (at_time 1 0 0)) (p_name p)
                      (Coordinator.adjust_hour (p_name p) hour) minute).
Proof.
  intros raw ps p.
  assert (Coordinator._normalize_times config_suhoor (at_time 1 0 0) raw true
          = Ok ps) as Hn by (by vm_compute).
  assert (p_name p ≠ "Suhoor"%string) as Hne by done.
  split; [exact Hn|]. split; [exact Hne|].
  exact (normalized_entry_iff config_suhoor (at_time 1 0 0) raw true ps p Hn Hne).
Defined.

(** X4 on the same day. *)
Lemma suhoor_present_iff_witness :
  let raw := [("Fajr", "04:30"); ("Isha", "7:20")]%string in
  let ps := [entry "Suhoor" 3 30 true; entry "Fajr" 4 30 true;
             entry "Isha" 19 20 true] in
  Coordinator._normalize_times config_suhoor (at_time 1 0 0) raw true = Ok ps
  ∧ ((∃ s, s ∈ ps ∧ p_name s = "Suhoor"%string) ↔
     suhoor_due config_suhoor true = true
     ∧ ∃ f, f ∈ ps ∧ p_name f = "Fajr"%string).
Proof.
  intros raw ps.
  assert (Coordinator._normalize_times config_suhoor (at_time 1 0 0) raw true
          = Ok ps) as Hn by (by vm_compute).
  split; [exact Hn|].
  exact (suhoor_present_iff config_suhoor (at_time 1 0 0) raw true ps Hn).
Defined.

(** X5 on the Suhoor entry of that day. *)
Lemma entry_time_and_time_str_witness :
  let raw := [("Fajr", "04:30"); ("Isha", "7:20")]%string in
  let ps := [entry "Suhoor" 3 30 true; entry "Fajr" 4 30 true;
             entry "Isha" 19 20 true] in
  let p := entry "Suhoor" 3 30 true in
  Coordinator._normalize_times config_suhoor (at_time 1 0 0) raw true = Ok ps
  ∧ p ∈ ps
  ∧ 0 ≤ dt_hour (p_time p) ≤ 23
  ∧ 0 ≤ dt_minute (p_time p) ≤ 59
  ∧ dt_second (p_time p) = 0
  ∧ dt_microsecond (p_time p) = 0
  ∧ dt_tzinfo (p_time p) = None
  ∧ p_time_str p = PyStr.format_02d (dt_hour (p_time p)) +:+ ":"
                   +:+ PyStr.format_02d (dt_minute (p_time p))
  ∧ String.length (p_time_str p) = 5%nat.
Proof.
  intros raw ps p.
  assert (Coordinator._normalize_times config_suhoor (at_time 1 0 0) raw true
          = Ok ps) as Hn by (by vm_compute).
  assert (p ∈ ps) as Hin by apply list_elem_of_here.
  split; [exact Hn|]. split; [exact Hin|].
  exact (entry_time_and_time_str config_suhoor (at_time 1 0 0) raw true ps p
           Hn Hin).
Defined.

(** X6 on the Sunrise entry of a full day, with no toggle set. *)
Lemma entry_enabled_flag_witness :
  let ps := [entry "Fajr" 4 30 true; entry "Sunrise" 5 45 false;
             entry "Dhuhr" 11 40 true; entry "Asr" 15 15 true;
             entry "Maghrib" 17 50 true; entry "Isha" 19 20 true] in
  let p := entry "Sunrise" 5 45 false in
  Coordinator._normalize_times config_default (at_time 1 0 0) raw_day false
    = Ok ps
  ∧ p ∈ ps
  ∧ p_enabled p = default false (cfg_prayer_sunrise config_default).
Proof.
  intros ps p.
  assert (Coordinator._normalize_times config_default (at_time 1 0 0) raw_day
            false = Ok ps) as Hn by (by vm_compute).
  assert (p ∈ ps) as Hin by apply list_elem_of_further, list_elem_of_here.
  split; [exact Hn|]. split; [exact Hin|].
  destruct (entry_enabled_flag config_default (at_time 1 0 0) raw_day false
              ps p Hn Hin) as (_ & _ & Hsunrise & _).
  exact (Hsunrise eq_refl).
Defined.

(** X8 on a page with two spellings of Fajr and one header too many. *)
Lemma fetch_qatar_moi_times_witness :
  let th := ["<b>Fajer</b>"; " Sunrise "; "Zuhr"; "fajr"; "Asr"]%string in
  let td := ["04:30 "; "5:45"; "11:40"; "4:31"]%string in
  let times := [("Fajr", "4:31"); ("Sunrise", "5:45"); ("Dhuhr", "11:40")]%string in
  Fetch._fetch_qatar_moi (Ok (th, td)) = Ok times
  ∧ times ≠ []
  ∧ dict_wf times
  ∧ ∀ k v, (k, v) ∈ times ↔
           ∃ pre h post,
             zip (portal_headers th) (portal_cells td) = pre ++ (h, v) :: post
             ∧ canonical_key h = k
             ∧ Forall (λ hc, canonical_key hc.1 ≠ k) post.
Proof.
  intros th td times.
  assert (Fetch._fetch_qatar_moi (Ok (th, td)) = Ok times) as Hf
    by (by vm_compute).
  split; [exact Hf|]. exact (fetch_qatar_moi_times th td times Hf).
Defined.

(** X9 on a body with one more timing and a Hijri date without its day. *)
Lemma fetch_aladhan_times_witness :
  let timings : gmap string string :=
    {[ "Imsak" := "04:20"; "Fajr" := "04:30"; "Sunrise" := "05:45";
       "Dhuhr" := "11:40"; "Asr" := "15:15"; "Maghrib" := "17:50";
       "Isha" := "19:20" ]}%string in
  let body := {| ab_timings := Ok timings;
                 ab_hijri := Some {| ah_month_number := Some 9;
                                     ah_day := None;
                                     ah_month_en := Some "Ramadan"%string |} |} in
  let raw := [("Fajr", "04:30"); ("Sunrise", "05:45"); ("Dhuhr", "11:40");
              ("Asr", "15:15"); ("Maghrib", "17:50"); ("Isha", "19:20")]%string in
  let hijri_info := mk_hijri_info (Some 9) None None in
  Fetch._fetch_aladhan (Ok body) = Ok (raw, hijri_info)
  ∧ ∃ body' timings',
      Ok body = Ok body' ∧ ab_timings body' = Ok timings'
      ∧ raw.*1 = PRAYER_ORDER
      ∧ (∀ name v, (name, v) ∈ raw ↔
                   name ∈ PRAYER_ORDER ∧ timings' !! name = Some v)
      ∧ (is_Some (hi_day hijri_info) → is_Some (hi_month hijri_info))
      ∧ (is_Some (hi_month_name hijri_info) → is_Some (hi_day hijri_info)).
Proof.
  intros timings body raw hijri_info.
  assert (Fetch._fetch_aladhan (Ok body) = Ok (raw, hijri_info)) as Hf
    by (by vm_compute).
  split; [exact Hf|]. exact (fetch_aladhan_times (Ok body) raw hijri_info Hf).
Defined.

Lemma sample_refresh :
  let old := snapshot [entry "Fajr" 4 30 true] "2024-03-01" {["Fajr"%string]} in
  let self := {| co_config := config_default; co_data := Some old;
                 co_last_date := Some "2024-03-01"%string |} in
  let e := env_portal ["Fajr"; "Isha"]%string ["4:31"; "7:20"]%string "2024-03-01" in
  let new := snapshot [entry "Fajr" 4 31 true; entry "Isha" 19 20 true]
                      "2024-03-01" {["Fajr"%string]} in
  _async_update_data self e = (Ok new, self).
Proof. by vm_compute. Defined.

(** X12 on a refresh from the portal without a Hijri date. *)
Lemma ramadan_sensor_after_refresh_witness :
  let old := snapshot [entry "Fajr" 4 30 true] "2024-03-01" {["Fajr"%string]} in
  let self := {| co_config := config_default; co_data := Some old;
                 co_last_date := Some "2024-03-01"%string |} in
  let e := env_portal ["Fajr"; "Isha"]%string ["4:31"; "7:20"]%string "2024-03-01" in
  let new := snapshot [entry "Fajr" 4 31 true; entry "Isha" 19 20 true]
                      "2024-03-01" {["Fajr"%string]} in
  _async_update_data self e = (Ok new, self)
  ∧ (Sensor.RamadanSensor.native_value (Some new) = "Yes"%string
     ↔ hijri_month new = Some 9)
  ∧ (Sensor.RamadanSensor.native_value (Some new) = "No"%string
     ↔ hijri_month new ≠ Some 9)
  ∧ (default true (cfg_suhoor_ramadan_only (co_config self)) = true →
     Sensor.RamadanSensor.native_value (Some new) = "No"%string →
     ∀ s, s ∈ prayers new → p_name s ≠ "Suhoor"%string).
Proof.
  intros old self e new. split; [exact sample_refresh|].
  exact (ramadan_sensor_after_refresh self self e new sample_refresh).
Defined.

(** X13 on the same refresh. *)
Lemma time_sensors_after_refresh_witness :
  let old := snapshot [entry "Fajr" 4 30 true] "2024-03-01" {["Fajr"%string]} in
  let self := {| co_config := config_default; co_data := Some old;
                 co_last_date := Some "2024-03-01"%string |} in
  let e := env_portal ["Fajr"; "Isha"]%string ["4:31"; "7:20"]%string "2024-03-01" in
  let new := snapshot [entry "Fajr" 4 31 true; entry "Isha" 19 20 true]
                      "2024-03-01" {["Fajr"%string]} in
  _async_update_data self e = (Ok new, self)
  ∧ (p_name <$> prayers new) `sublist_of` CANONICAL_NAMES
  ∧ Sensor.PrayerTimeSensor._get_prayer (Some new) "Isha"
    = Some (entry "Isha" 19 20 true)
  ∧ Sensor.PrayerTimeSensor.native_value (Some new) "Isha" = Some "19:20"%string.
Proof.
  intros old self e new.
  destruct (time_sensors_after_refresh self self e new sample_refresh)
    as (Hcan & Hfind & _).
  split; [exact sample_refresh|]. split; [exact Hcan|].
  exact (Hfind (entry "Isha" 19 20 true)
               (list_elem_of_further _ _ _ (list_elem_of_here _ _))).
Defined.

(** X23 on the same refresh: Fajr was played before it. *)
Lemma played_mark_after_refresh_witness :
  let old := snapshot [entry "Fajr" 4 30 true] "2024-03-01" {["Fajr"%string]} in
  let self := {| co_config := config_default; co_data := Some old;
                 co_last_date := Some "2024-03-01"%string |} in
  let e := env_portal ["Fajr"; "Isha"]%string ["4:31"; "7:20"]%string "2024-03-01" in
  let new := snapshot [entry "Fajr" 4 31 true; entry "Isha" 19 20 true]
                      "2024-03-01" {["Fajr"%string]} in
  _async_update_data self e = (Ok new, self)
  ∧ entry "Fajr" 4 31 true ∈ prayers new
  ∧ Sensor.PrayerTimeSensor.extra_state_attributes (Some new) "Fajr"
      !! "played"%string
    = Some (PBool (bool_decide ("Fajr"%string ∈ played_today old))).
Proof.
  intros old self e new.
  assert (entry "Fajr" 4 31 true ∈ prayers new) as Hin by apply list_elem_of_here.
  split; [exact sample_refresh|]. split; [exact Hin|].
  exact (proj1 (played_mark_after_refresh self self e new
                  (entry "Fajr" 4 31 true) sample_refresh Hin)
           old eq_refl eq_refl).
Defined.

(** X14 at 05:00 before a disabled Sunrise and at 06:00 after it. *)
Lemma next_queries_agree_witness :
  let d := snapshot [entry "Sunrise" 5 45 false; entry "Dhuhr" 12 0 true]
                    "2024-03-01" ∅ in
  let now := {| aw_wall := at_time 6 0 0; aw_tz := tz_doha |} in
  Sensor.AzanCountdownSensor._get_next_prayer (Some d) now
    = Some (entry "Dhuhr" 12 0 true)
  ∧ p_enabled (entry "Dhuhr" 12 0 true) = true
  ∧ Sensor.NextPrayerSensor._get_next_prayer (Some d) now
    = Some (entry "Dhuhr" 12 0 true).
Proof.
  intros d now.
  assert (Sensor.AzanCountdownSensor._get_next_prayer (Some d) now
          = Some (entry "Dhuhr" 12 0 true)) as Hq by (by vm_compute).
  split; [exact Hq|]. split; [reflexivity|].
  exact (proj1 (next_queries_agree (Some d) now) _ Hq eq_refl).
Defined.

(** X15 with 59 minutes and 30 seconds to go. *)
Lemma countdown_breakdown_consistent_witness :
  let prayer := entry "Dhuhr" 12 0 true in
  let data := Some (snapshot [prayer] "2024-03-01" ∅) in
  let now1 := {| aw_wall := at_time 11 0 0; aw_tz := tz_doha |} in
  let now2 := {| aw_wall := at_time 11 0 30; aw_tz := tz_doha |} in
  Sensor.AzanCountdownSensor._get_next_prayer data now1 = Some prayer
  ∧ ∃ h m s,
      let attrs :=
        Sensor.AzanCountdownSensor.extra_state_attributes data now1 now2 in
      attrs !! "hours"%string = Some (PInt h)
      ∧ attrs !! "minutes"%string = Some (PInt m)
      ∧ attrs !! "seconds"%string = Some (PInt s)
      ∧ attrs !! "prayer_name"%string = Some (PStr (p_name prayer))
      ∧ Sensor.AzanCountdownSensor.native_value data now1 now2
        = Some (h * 60 + m)
      ∧ h * 3600 + m * 60 + s
        = Z.max 0 (Sensor.whole_seconds
                     (aware_sub (Sensor.localize (p_time prayer) now2) now2)).
Proof.
  intros prayer data now1 now2.
  assert (Sensor.AzanCountdownSensor._get_next_prayer data now1 = Some prayer)
    as Hp by (by vm_compute).
  split; [exact Hp|].
  exact (countdown_breakdown_consistent data now1 now2 prayer Hp).
Defined.

(** X16 on a day in ascending order, at 13:00. *)
Lemma next_is_earliest_witness :
  let d := snapshot [entry "Fajr" 5 0 false; entry "Dhuhr" 12 0 true;
                     entry "Asr" 15 30 true; entry "Isha" 19 20 true]
                    "2024-03-01" ∅ in
  let now := {| aw_wall := at_time 13 0 0; aw_tz := tz_doha |} in
  time_ascending (prayers d)
  ∧ Sensor.AzanCountdownSensor._get_next_prayer (Some d) now
    = Some (entry "Asr" 15 30 true)
  ∧ entry "Isha" 19 20 true ∈ prayers d
  ∧ upcoming now (entry "Isha" 19 20 true)
  ∧ dt_wall (p_time (entry "Asr" 15 30 true))
    ≤ dt_wall (p_time (entry "Isha" 19 20 true)).
Proof.
  intros d now.
  assert (time_ascending (prayers d)) as Hasc
    by (apply (bool_decide_unpack _); by vm_compute).
  assert (Sensor.AzanCountdownSensor._get_next_prayer (Some d) now
          = Some (entry "Asr" 15 30 true)) as Hp by (by vm_compute).
  assert (entry "Isha" 19 20 true ∈ prayers d) as Hin
    by (do 3 apply list_elem_of_further; apply list_elem_of_here).
  assert (upcoming now (entry "Isha" 19 20 true)) as Hup by (by vm_compute).
  split; [exact Hasc|]. split; [exact Hp|]. split; [exact Hin|].
  split; [exact Hup|].
  exact (proj1 (next_is_earliest d now Hasc) _ _ Hp Hin Hup).
Defined.

Lemma sample_setup :
  SensorSetup.async_setup_entry sample_hass_data sample_entry
  = Ok sample_entities.
Proof. by vm_compute. Defined.

(** X18 on an entry whose options switch Suhoor off. *)
Lemma entity_unique_ids_distinct_witness :
  SensorSetup.async_setup_entry sample_hass_data sample_entry
    = Ok sample_entities
  ∧ NoDup (en_unique_id <$>
             (sample_entities ++ ButtonSetup.async_setup_entry sample_entry))
  ∧ length sample_entities = 11%nat.
Proof.
  split; [exact sample_setup|].
  exact (entity_unique_ids_distinct sample_hass_data sample_entry
           sample_entities sample_setup).
Defined.

(** X19 on the same entry: the option hides the data. *)
Lemma suhoor_sensor_created_iff_witness :
  SensorSetup.async_setup_entry sample_hass_data sample_entry
    = Ok sample_entities
  ∧ ce_options sample_entry !! CONF_SUHOOR_ENABLED = Some (PBool false)
  ∧ ((∃ en, en ∈ sample_entities ∧ en_class en = SuhoorTimeSensor_) ↔
     truthy (PBool false) = true).
Proof.
  split; [exact sample_setup|]. split; [reflexivity|].
  exact (proj2 (proj2 (suhoor_sensor_created_iff sample_hass_data sample_entry
                         sample_entities sample_setup))
           (PBool false) eq_refl).
Defined.

(** X21 on ["  04:30 (AST)"] and ["04:30(AST)"]. *)
Lemma time_clean_drops_annotation_witness :
  "04:30"%string ≠ EmptyString
  ∧ all_chars plain_char "04:30" = true
  ∧ all_chars PyStr.isspace "  " = true
  ∧ Coordinator.time_clean "04:30" = "04:30"%string
  ∧ Coordinator.time_clean ("  " +:+ "04:30" +:+ String " " "(AST)")
    = "04:30"%string
  ∧ Coordinator.time_clean ("  " +:+ "04:30" +:+ String "(" "AST)")
    = "04:30"%string.
Proof.
  assert ("04:30"%string ≠ EmptyString) as Hne by done.
  destruct (time_clean_drops_annotation "04:30" "  " "(AST)" Hne eq_refl eq_refl)
    as (H1 & H2 & _).
  destruct (time_clean_drops_annotation "04:30" "  " "AST)" Hne eq_refl eq_refl)
    as (_ & _ & H3 & _).
  split; [exact Hne|]. split; [reflexivity|]. split; [reflexivity|].
  split; [exact H1|]. split; [exact H2|]. exact H3.
Defined.

(** X22 with Fajr at 00:30: Suhoor is at 23:30 of the day before. *)
Lemma suhoor_time_of_day_witness :
  let raw := [("Fajr", "0:30")]%string in
  let f := entry "Fajr" 0 30 true in
  let s := {| p_name := "Suhoor";
              p_time := {| dt_date := 737999; dt_hour := 23; dt_minute := 30;
                           dt_second := 0; dt_microsecond := 0;
                           dt_tzinfo := None |};
              p_time_str := "23:30"; p_enabled := true |} in
  dict_wf raw
  ∧ Coordinator._normalize_times config_suhoor (at_time 1 0 0) raw true
    = Ok [s; f]
  ∧ dt_hour (p_time s) * 60 + dt_minute (p_time s)
    = (dt_hour (p_time f) * 60 + dt_minute (p_time f)
       - suhoor_offset config_suhoor) mod 1440
  ∧ dt_date (p_time s)
    = dt_date (p_time f)
      + (dt_hour (p_time f) * 60 + dt_minute (p_time f)
         - suhoor_offset config_suhoor) / 1440.
Proof.
  intros raw f s.
  assert (dict_wf raw) as Hwf by (apply (bool_decide_unpack _); by vm_compute).
  assert (Coordinator._normalize_times config_suhoor (at_time 1 0 0) raw true
          = Ok [s; f]) as Hn by (by vm_compute).
  split; [exact Hwf|]. split; [exact Hn|].
  exact (suhoor_time_of_day config_suhoor (at_time 1 0 0) raw true [s; f] s f
           Hwf Hn (list_elem_of_here _ _)
           (list_elem_of_further _ _ _ (list_elem_of_here _ _))
           eq_refl eq_refl).
Defined.

(** X24 on the same refresh, read at 13:00: Isha is next. *)
Lemma next_prayer_icon_after_refresh_witness :
  let old := snapshot [entry "Fajr" 4 30 true] "2024-03-01" {["Fajr"%string]} in
  let self := {| co_config := config_default; co_data := Some old;
                 co_last_date := Some "2024-03-01"%string |} in
  let e := env_portal ["Fajr"; "Isha"]%string ["4:31"; "7:20"]%string "2024-03-01" in
  let new := snapshot [entry "Fajr" 4 31 true; entry "Isha" 19 20 true]
                      "2024-03-01" {["Fajr"%string]} in
  let now := {| aw_wall := at_time 13 0 0; aw_tz := tz_doha |} in
  _async_update_data self e = (Ok new, self)
  ∧ Sensor.NextPrayerSensor._get_next_prayer (Some new) now
    = Some (entry "Isha" 19 20 true)
  ∧ Sensor.NextPrayerSensor.native_value (Some new) now = Some "Isha"%string
  ∧ PRAYER_ICONS !! "Isha"%string = Some (next_prayer_icon (Some new) now).
Proof.
  intros old self e new now.
  assert (Sensor.NextPrayerSensor._get_next_prayer (Some new) now
          = Some (entry "Isha" 19 20 true)) as Hp by (by vm_compute).
  destruct (next_prayer_icon_after_refresh self self e new sample_entry now
              (entry "Isha" 19 20 true) sample_refresh Hp) as (Hv & Hi & _).
  split; [exact sample_refresh|]. split; [exact Hp|]. split; [exact Hv|].
  exact Hi.
Defined.

(** X25 with 59 minutes and 30 seconds to go. *)
Lemma next_prayer_minutes_agree_witness :
  let q := entry "Dhuhr" 12 0 true in
  let data := Some (snapshot [q] "2024-03-01" ∅) in
  let now1 := {| aw_wall := at_time 11 0 0; aw_tz := tz_doha |} in
  let now2 := {| aw_wall := at_time 11 0 30; aw_tz := tz_doha |} in
  Sensor.AzanCountdownSensor._get_next_prayer data now1 = Some q
  ∧ p_enabled q = true
  ∧ ∃ n,
      Sensor.AzanCountdownSensor.native_value data now1 now2 = Some n
      ∧ 0 ≤ n
      ∧ Sensor.NextPrayerSensor.extra_state_attributes data now1 now2
          !! "countdown_minutes"%string = Some (PInt n)
      ∧ Sensor.NextPrayerSensor.extra_state_attributes data now1 now2
          !! "time"%string
        = Sensor.AzanCountdownSensor.extra_state_attributes data now1 now2
            !! "time"%string
      ∧ Sensor.NextPrayerSensor.native_value data now1 = Some (p_name q)
      ∧ Sensor.AzanCountdownSensor.extra_state_attributes data now1 now2
          !! "prayer_name"%string = Some (PStr (p_name q)).
Proof.
  intros q data now1 now2.
  assert (Sensor.AzanCountdownSensor._get_next_prayer data now1 = Some q)
    as Hq by (by vm_compute).
  split; [exact Hq|]. split; [reflexivity|].
  exact (next_prayer_minutes_agree data now1 now2 q Hq eq_refl).
Defined.

End further_instances.
